(** * Al-Ghazaly Auto Parts storefront: admin screens, cart view, query
      windows and local models

    A shallow embedding of the TypeScript sources:
    - the categories and car-brands admin screens (TanStack Query mutations
      with an optimistic delete),
    - the cart tab of the shopping hub,
    - the home-screen query hook,
    - the WatermelonDB model declarations and their parsing getters.

    State is threaded explicitly.  The remote API is an oracle: the way a
    remote call settles is an input of the mutation driver. *)

From Stdlib Require Import ZArith NArith List Ascii String Bool Lia DecimalN.
From stdpp Require Import gmap strings list fin_maps pretty.

Local Open Scope Z_scope.

(** ** JavaScript strings *)

(** A JavaScript string is a sequence of UTF-16 code units. *)
Module Js.

Abbreviation jsstring := (list N).

(** ECMAScript WhiteSpace and LineTerminator code points, the set that
    [String.prototype.trim] strips.  All of them lie in the BMP, so the
    test is per code unit. *)
Definition isWhiteSpace (c : N) : bool :=
  (  (c =? 0x0009) || (c =? 0x000A) || (c =? 0x000B) || (c =? 0x000C)
  || (c =? 0x000D) || (c =? 0x0020) || (c =? 0x00A0) || (c =? 0x1680)
  || ((0x2000 <=? c) && (c <=? 0x200A))
  || (c =? 0x2028) || (c =? 0x2029) || (c =? 0x202F) || (c =? 0x205F)
  || (c =? 0x3000) || (c =? 0xFEFF))%N.

Fixpoint trimStart (s : jsstring) : jsstring :=
  match s with
  | c :: s' => if isWhiteSpace c then trimStart s' else s
  | [] => []
  end.

Definition trimEnd (s : jsstring) : jsstring :=
  rev (trimStart (rev s)).

(** [s.trim()] *)
Definition trim (s : jsstring) : jsstring := trimEnd (trimStart s).

(** Truthiness of a string value: only the empty string is falsy. *)
Definition truthy (s : jsstring) : bool :=
  match s with [] => false | _ :: _ => true end.

(** [s || null]: [None] is [null]. *)
Definition orNull (s : jsstring) : option jsstring :=
  if truthy s then Some s else None.

(** A property of an object literal that may be [undefined], in which case
    it is left out of the request body. *)
Inductive Optional : Type :=
| undefined
| defined (s : jsstring).

(** [s || undefined] *)
Definition orUndefined (s : jsstring) : Optional :=
  if truthy s then defined s else undefined.

(** [o || ''] for an optional string *)
Definition orEmpty (o : option jsstring) : jsstring :=
  match o with Some s => s | None => [] end.

(** A string literal of the source whose characters are all ASCII. *)
Definition lit (s : string) : jsstring :=
  map (fun a => N_of_ascii a) (list_ascii_of_string s).

End Js.

Import Js.

(** Text shown to the user (toast messages, server error messages).  Only
    its emptiness is ever inspected. *)
Definition Text : Type := string.

(** [e || fallback] for an optional text *)
Definition textOr (e : option Text) (fallback : Text) : Text :=
  match e with
  | Some EmptyString | None => fallback
  | Some m => m
  end.

(** [language === 'ar' ? ar : en] *)
Definition localized (language : string) (ar en : Text) : Text :=
  if String.eqb language "ar" then ar else en.

(** ** The query client

    The screens use the query client of @tanstack/react-query through four
    calls: [getQueryData], [setQueryData], [cancelQueries] and
    [invalidateQueries].  The client is a map from query keys to settled
    query states. *)
Module QueryClient.

Abbreviation QueryKey := (list string).

Record QueryState (D : Type) : Type := mkQuery {
  data : option D;          (* undefined until the first result *)
  dataUpdatedAt : Z;        (* Date.now() of the last write, in ms *)
  isInvalidated : bool;
}.
Arguments mkQuery {D} _ _ _.
Arguments data {D} _.
Arguments dataUpdatedAt {D} _.
Arguments isInvalidated {D} _.

Section Client.
Context {D : Type}.

Abbreviation Cache := (gmap QueryKey (QueryState D)).

(** [queryClient.getQueryData(key)]: exact key match. *)
Definition getQueryData (key : QueryKey) (qc : Cache) : option D :=
  match qc !! key with
  | Some q => data q
  | None => None
  end.

(** [queryClient.setQueryData(key, updater)]: the updater sees the current
    data; an [undefined] result leaves the cache alone, anything else is
    written as a fresh, valid result (the query is built if it is not
    there). *)
Definition setQueryData (now : Z) (key : QueryKey)
    (updater : option D -> option D) (qc : Cache) : Cache :=
  match updater (getQueryData key qc) with
  | None => qc
  | Some d => <[key := mkQuery (Some d) now false]> qc
  end.

(** [queryClient.cancelQueries({ queryKey })]: aborts fetches in flight.
    The cache holds settled states only, which a cancel leaves as they
    are. *)
Definition cancelQueries (key : QueryKey) (qc : Cache) : Cache := qc.

Definition invalidate (q : QueryState D) : QueryState D :=
  mkQuery (data q) (dataUpdatedAt q) true.

(** [queryClient.invalidateQueries({ queryKey })]: marks every query of the
    cache whose key starts with [key]. *)
Definition invalidateQueries (key : QueryKey) (qc : Cache) : Cache :=
  map_imap (fun k q =>
    Some (if bool_decide (key `prefix_of` k) then invalidate q else q)) qc.

(** A query is stale when it was invalidated, has no data, or its data is
    older than the window. *)
Definition isStale (now staleTime : Z) (q : QueryState D) : bool :=
  isInvalidated q
  || match data q with None => true | Some _ => false end
  || (dataUpdatedAt q + staleTime <=? now).

(** What a [useQuery] observer that mounts or re-reads at [now] gets: the
    cached data at once, and whether a fetch is started. *)
Definition read (now staleTime : Z) (key : QueryKey) (qc : Cache)
    : option D * bool :=
  match qc !! key with
  | Some q => (data q, isStale now staleTime q)
  | None => (None, true)
  end.

End Client.

End QueryClient.

Import QueryClient.

(** ** Mutations

    [useMutation(options).mutate(variables)] runs [onMutate], performs the
    remote call of [mutationFn], and then runs [onSuccess] with the result
    or [onError] when the call throws. *)
Module Mutation.

(** How a remote call settles, and when. *)
Inductive Settled (R : Type) : Type :=
| Resolved (at_ : Z) (result : R)
| Rejected (at_ : Z) (message : option Text).
Arguments Resolved {R} _ _.
Arguments Rejected {R} _ _.

(** The screen together with the remote calls issued so far. *)
Record World (S Call : Type) : Type := mkWorld {
  screen : S;
  network : list Call;
}.
Arguments mkWorld {S Call} _ _.
Arguments screen {S Call} _.
Arguments network {S Call} _.

Record Options (S V R C Call : Type) : Type := mkOptions {
  mutationFn : V -> Call;
  onMutate : Z -> V -> S -> C * S;
  onSuccess : Z -> R -> V -> C -> S -> S;
  onError : Z -> option Text -> V -> C -> S -> S;
}.
Arguments mkOptions {S V R C Call} _ _ _ _.
Arguments mutationFn {S V R C Call} _ _.
Arguments onMutate {S V R C Call} _ _ _ _.
Arguments onSuccess {S V R C Call} _ _ _ _ _ _.
Arguments onError {S V R C Call} _ _ _ _ _ _.

Definition mutate {S V R C Call} (m : Options S V R C Call)
    (vars : V) (now : Z) (outcome : Settled R) (w : World S Call)
    : World S Call :=
  let '(context, s1) := onMutate m now vars (screen w) in
  let net := network w ++ [mutationFn m vars] in
  match outcome with
  | Resolved t result => mkWorld (onSuccess m t result vars context s1) net
  | Rejected t message => mkWorld (onError m t message vars context s1) net
  end.

End Mutation.

Import Mutation.

(** The toast of both admin screens
    ([toastVisible], [toastMessage], [toastType]). *)
Module Toast.

Inductive ToastType : Type := success | error | warning | info.

Record t : Type := mk {
  toastVisible : bool;
  toastMessage : Text;
  toastType : ToastType;
}.

Definition initial : t := mk false EmptyString success.

End Toast.

(** What [adminSync.createX / updateX / deleteX] resolve to. *)
Module AdminSync.

Record Result : Type := mkResult {
  success : bool;
  error : option Text;
}.

End AdminSync.

(** ** Categories admin screen *)
Module CategoriesAdmin.

Module Category.
Record t : Type := mk {
  id : jsstring;
  name : jsstring;
  name_ar : jsstring;
  parent_id : option jsstring;
  icon : option jsstring;
  image_data : option jsstring;
}.
End Category.

(** The payload built by [handleSave]. *)
Module CategoryData.
Record t : Type := mk {
  name : jsstring;
  name_ar : jsstring;
  parent_id : option jsstring;
  icon : option jsstring;
  image_data : option jsstring;
}.
End CategoryData.

Inductive Call : Type :=
| createCategory (data : CategoryData.t)
| updateCategory (id : jsstring) (data : CategoryData.t)
| deleteCategory (id : jsstring).

Record Form : Type := mkForm {
  name : jsstring;
  nameAr : jsstring;
  parentId : option jsstring;
  icon : jsstring;
  categoryImage : jsstring;
  editingCategory : option Category.t;
  isEditMode : bool;
}.

Record State : Type := mkState {
  queryClient : gmap QueryKey (QueryState (list Category.t));
  form : Form;
  toast : Toast.t;
}.

Definition withQueryClient
    (f : gmap QueryKey (QueryState (list Category.t)) ->
         gmap QueryKey (QueryState (list Category.t)))
    (s : State) : State :=
  mkState (f (queryClient s)) (form s) (toast s).

Definition showToast (message : Text) (type : Toast.ToastType) (s : State)
    : State :=
  mkState (queryClient s) (form s) (Toast.mk true message type).

Definition resetForm (s : State) : State :=
  mkState (queryClient s) (mkForm [] [] None [] [] None false) (toast s).

Definition handleEditCategory (category : Category.t) (s : State) : State :=
  mkState (queryClient s)
    (mkForm (Category.name category) (Category.name_ar category)
       (match Category.parent_id category with
        | Some p => orNull p
        | None => None
        end)
       (orEmpty (Category.icon category))
       (orEmpty (Category.image_data category))
       (Some category) true)
    (toast s).

Section Screen.
(** [queryKeys.categories.all], from src/lib/queryClient, and the language
    of [useTranslation]. *)
Variable queryKeys_categories_all : QueryKey.
Variable language : string.

Definition createMutation
    : Options State CategoryData.t AdminSync.Result unit Call :=
  mkOptions
    (fun data => createCategory data)
    (fun _ _ s => (tt, s))
    (fun _ result _ _ s =>
       if AdminSync.success result then
         resetForm
           (showToast
              (localized language "تم حفظ الفئة بنجاح"
                 "Category saved successfully")
              Toast.success
              (withQueryClient (invalidateQueries queryKeys_categories_all) s))
       else
         showToast (textOr (AdminSync.error result) "Error saving category")
           Toast.error s)
    (fun _ message _ _ s =>
       showToast (textOr message "Error saving category") Toast.error s).

Definition updateMutation
    : Options State (jsstring * CategoryData.t) AdminSync.Result unit Call :=
  mkOptions
    (fun '(id, data) => updateCategory id data)
    (fun _ _ s => (tt, s))
    (fun _ result _ _ s =>
       if AdminSync.success result then
         resetForm
           (showToast
              (localized language "تم تحديث الفئة بنجاح"
                 "Category updated successfully")
              Toast.success
              (withQueryClient (invalidateQueries queryKeys_categories_all) s))
       else
         showToast
           (textOr (AdminSync.error result) "Failed to update category")
           Toast.error s)
    (fun _ message _ _ s =>
       showToast (textOr message "Failed to update category") Toast.error s).

(** The context returned by [onMutate]: [{ previousCategories }]. *)
Record DeleteContext : Type := mkContext {
  previousCategories : option (list Category.t);
}.

Definition deleteMutation
    : Options State jsstring AdminSync.Result DeleteContext Call :=
  mkOptions
    (fun id => deleteCategory id)
    (fun now deletedId s =>
       let qc := cancelQueries queryKeys_categories_all (queryClient s) in
       let previousCategories := getQueryData queryKeys_categories_all qc in
       let qc' :=
         setQueryData now queryKeys_categories_all
           (fun old =>
              Some (match old with
                    | Some old =>
                        filter (fun c => Category.id c <> deletedId) old
                    | None => []
                    end)) qc in
       (mkContext previousCategories, mkState qc' (form s) (toast s)))
    (fun _ result _ _ s =>
       if AdminSync.success result then
         showToast
           (localized language "تم حذف الفئة بنجاح"
              "Category deleted successfully")
           Toast.success s
       else
         withQueryClient (invalidateQueries queryKeys_categories_all)
           (showToast
              (textOr (AdminSync.error result) "Failed to delete category")
              Toast.error s))
    (fun now _ _ context s =>
       let s1 :=
         match previousCategories context with
         | Some previous =>
             withQueryClient
               (setQueryData now queryKeys_categories_all
                  (fun _ => Some previous)) s
         | None => s
         end in
       showToast
         (localized language "فشل في حذف الفئة" "Failed to delete category")
         Toast.error s1).

(** What [handleSave] hands to a mutation's [mutate]. *)
Inductive SaveRequest : Type :=
| mutateUpdate (id : jsstring) (data : CategoryData.t)
| mutateCreate (data : CategoryData.t).

Definition handleSave (s : State) : State * option SaveRequest :=
  let f := form s in
  if negb (truthy (trim (name f))) || negb (truthy (trim (nameAr f))) then
    (showToast
       (localized language "يرجى ملء جميع الحقول المطلوبة"
          "Please fill all required fields")
       Toast.error s,
     None)
  else
    let categoryData :=
      CategoryData.mk (trim (name f)) (trim (nameAr f)) (parentId f)
        (orNull (trim (icon f))) (orNull (categoryImage f)) in
    match isEditMode f, editingCategory f with
    | true, Some editing =>
        (s, Some (mutateUpdate (Category.id editing) categoryData))
    | _, _ => (s, Some (mutateCreate categoryData))
    end.

(** Pressing the save button: [handleSave], then the mutation it asked
    for, settled by the remote as [outcome]. *)
Definition pressSave (now : Z) (outcome : Settled AdminSync.Result)
    (w : World State Call) : World State Call :=
  match handleSave (screen w) with
  | (s, None) => mkWorld s (network w)
  | (s, Some (mutateUpdate id data)) =>
      mutate updateMutation (id, data) now outcome (mkWorld s (network w))
  | (s, Some (mutateCreate data)) =>
      mutate createMutation data now outcome (mkWorld s (network w))
  end.

(** [handleDelete]: the trash button of a list row. *)
Definition handleDelete (id : jsstring) (now : Z)
    (outcome : Settled AdminSync.Result) (w : World State Call)
    : World State Call :=
  mutate deleteMutation id now outcome w.

End Screen.

End CategoriesAdmin.

(** ** Car brands admin screen *)
Module CarBrandsAdmin.

Module CarBrand.
Record t : Type := mk {
  id : jsstring;
  name : jsstring;
  name_ar : jsstring;
  logo : option jsstring;
}.
End CarBrand.

(** The payload built by [handleSave]; its [logo] is a string or
    [undefined], never [null]. *)
Module BrandData.
Record t : Type := mk {
  name : jsstring;
  name_ar : jsstring;
  logo : Optional;
}.
End BrandData.

Inductive Call : Type :=
| createCarBrand (data : BrandData.t)
| carBrandsApi_update (id : jsstring) (data : BrandData.t)
| deleteCarBrand (id : jsstring).

Record Form : Type := mkForm {
  name : jsstring;
  nameAr : jsstring;
  logoImage : jsstring;
  editingBrand : option CarBrand.t;
  isEditMode : bool;
}.

Record State : Type := mkState {
  queryClient : gmap QueryKey (QueryState (list CarBrand.t));
  form : Form;
  toast : Toast.t;
}.

Definition withQueryClient
    (f : gmap QueryKey (QueryState (list CarBrand.t)) ->
         gmap QueryKey (QueryState (list CarBrand.t)))
    (s : State) : State :=
  mkState (f (queryClient s)) (form s) (toast s).

Definition showToast (message : Text) (type : Toast.ToastType) (s : State)
    : State :=
  mkState (queryClient s) (form s) (Toast.mk true message type).

Definition resetForm (s : State) : State :=
  mkState (queryClient s) (mkForm [] [] [] None false) (toast s).

Definition handleEditBrand (brand : CarBrand.t) (s : State) : State :=
  mkState (queryClient s)
    (mkForm (CarBrand.name brand) (CarBrand.name_ar brand)
       (orEmpty (CarBrand.logo brand)) (Some brand) true)
    (toast s).

Section Screen.
(** [queryKeys.carBrands.all], from src/lib/queryClient; the language of
    [useTranslation]; the body of the response of [carBrandsApi.update],
    which the screen never inspects. *)
Variable queryKeys_carBrands_all : QueryKey.
Variable language : string.
Variable ResponseData : Type.

Definition createMutation
    : Options State BrandData.t AdminSync.Result unit Call :=
  mkOptions
    (fun data => createCarBrand data)
    (fun _ _ s => (tt, s))
    (fun _ result _ _ s =>
       if AdminSync.success result then
         resetForm
           (showToast
              (localized language "تم إضافة الماركة بنجاح"
                 "Brand created successfully")
              Toast.success
              (withQueryClient (invalidateQueries queryKeys_carBrands_all) s))
       else
         showToast (textOr (AdminSync.error result) "Failed to create brand")
           Toast.error s)
    (fun _ message _ _ s =>
       showToast (textOr message "Failed to create brand") Toast.error s).

(** The update goes to the API directly; its [onSuccess] takes no
    argument. *)
Definition updateMutation
    : Options State (jsstring * BrandData.t) ResponseData unit Call :=
  mkOptions
    (fun '(id, data) => carBrandsApi_update id data)
    (fun _ _ s => (tt, s))
    (fun _ _ _ _ s =>
       resetForm
         (showToast
            (localized language "تم تحديث الماركة بنجاح"
               "Brand updated successfully")
            Toast.success
            (withQueryClient (invalidateQueries queryKeys_carBrands_all) s)))
    (fun _ message _ _ s =>
       showToast (textOr message "Failed to update brand") Toast.error s).

(** The context returned by [onMutate]: [{ previousBrands }]. *)
Record DeleteContext : Type := mkContext {
  previousBrands : option (list CarBrand.t);
}.

Definition deleteMutation
    : Options State jsstring AdminSync.Result DeleteContext Call :=
  mkOptions
    (fun id => deleteCarBrand id)
    (fun now deletedId s =>
       let qc := cancelQueries queryKeys_carBrands_all (queryClient s) in
       let previousBrands := getQueryData queryKeys_carBrands_all qc in
       let qc' :=
         setQueryData now queryKeys_carBrands_all
           (fun old =>
              Some (match old with
                    | Some old =>
                        filter (fun b => CarBrand.id b <> deletedId) old
                    | None => []
                    end)) qc in
       (mkContext previousBrands, mkState qc' (form s) (toast s)))
    (fun _ result _ _ s =>
       if AdminSync.success result then
         showToast
           (localized language "تم حذف الماركة بنجاح"
              "Brand deleted successfully")
           Toast.success s
       else
         withQueryClient (invalidateQueries queryKeys_carBrands_all)
           (showToast
              (textOr (AdminSync.error result) "Failed to delete brand")
              Toast.error s))
    (fun now _ _ context s =>
       let s1 :=
         match previousBrands context with
         | Some previous =>
             withQueryClient
               (setQueryData now queryKeys_carBrands_all
                  (fun _ => Some previous)) s
         | None => s
         end in
       showToast
         (localized language "فشل في حذف الماركة" "Failed to delete brand")
         Toast.error s1).

(** What [handleSave] hands to a mutation's [mutate]. *)
Inductive SaveRequest : Type :=
| mutateUpdate (id : jsstring) (data : BrandData.t)
| mutateCreate (data : BrandData.t).

Definition handleSave (s : State) : State * option SaveRequest :=
  let f := form s in
  if negb (truthy (trim (name f))) || negb (truthy (trim (nameAr f))) then
    (showToast
       (localized language "يرجى إدخال الاسم بالإنجليزية والعربية"
          "Please enter name in both languages")
       Toast.error s,
     None)
  else
    let brandData :=
      BrandData.mk (trim (name f)) (trim (nameAr f))
        (orUndefined (logoImage f)) in
    match isEditMode f, editingBrand f with
    | true, Some editing =>
        (s, Some (mutateUpdate (CarBrand.id editing) brandData))
    | _, _ => (s, Some (mutateCreate brandData))
    end.

(** Pressing the save button: [handleSave], then the mutation it asked
    for.  The remote settles a create as [created] and an update as
    [updated]. *)
Definition pressSave (now : Z) (created : Settled AdminSync.Result)
    (updated : Settled ResponseData) (w : World State Call)
    : World State Call :=
  match handleSave (screen w) with
  | (s, None) => mkWorld s (network w)
  | (s, Some (mutateUpdate id data)) =>
      mutate updateMutation (id, data) now updated (mkWorld s (network w))
  | (s, Some (mutateCreate data)) =>
      mutate createMutation data now created (mkWorld s (network w))
  end.

(** [handleDelete]: the trash button of a list row. *)
Definition handleDelete (id : jsstring) (now : Z)
    (outcome : Settled AdminSync.Result) (w : World State Call)
    : World State Call :=
  mutate deleteMutation id now outcome w.

End Screen.

End CarBrandsAdmin.

(** ** Cart tab of the shopping hub *)
Module CartTab.

Definition SHIPPING_COST : Z := 150.

(** The currency suffix of every amount of the summary. *)
Definition EGP : Text := " ج.م".

(** A row of [cartItems], with the fields the press handlers read. *)
Record CartItem : Type := mkItem {
  product_id : jsstring;
  quantity : Z;
}.

(** The minus, plus and trash buttons of [renderCartItem], over the
    callbacks the parent passes in. *)
Section Buttons.
Context {A : Type}.
Variable onUpdateQuantity : jsstring -> Z -> A.
Variable onRemove : jsstring -> A.

Definition pressMinus (item : CartItem) : A :=
  onUpdateQuantity (product_id item) (quantity item - 1).

Definition pressPlus (item : CartItem) : A :=
  onUpdateQuantity (product_id item) (quantity item + 1).

Definition pressTrash (item : CartItem) : A :=
  onRemove (product_id item).

End Buttons.

(** The amounts are JavaScript numbers.  Their arithmetic is a parameter of
    the view: [add] is [+], [gt] is [>], [fromZ] reads an integer literal
    and [toFixed0] is [x.toFixed(0)]. *)
Section View.
Variable number : Type.
Variable add : number -> number -> number.
Variable gt : number -> number -> bool.
Variable fromZ : Z -> number.
Variable toFixed0 : number -> Text.

Record Props : Type := mkProps {
  cartItems : option (list CartItem);   (* None: not an array *)
  isRTL : bool;
  getSubtotal : unit -> number;
  getOriginalTotal : unit -> number;
  getTotalSavings : unit -> number;
  getItemCount : unit -> number;
}.

(** [Array.isArray(cartItems) ? cartItems : []] *)
Definition safeCartItems (p : Props) : list CartItem :=
  match cartItems p with
  | Some items => items
  | None => []
  end.

(** The text rows of the order summary. *)
Record Summary : Type := mkSummary {
  savingsRow : option Text;
  subtotalRow : Text;
  shippingRow : Text;
  totalRow : Text;
}.

Definition OrderSummary (p : Props) : Summary :=
  mkSummary
    (if gt (getTotalSavings p tt) (fromZ 0)
     then Some ("-" ++ toFixed0 (getTotalSavings p tt) ++ EGP)%string
     else None)
    (toFixed0 (getSubtotal p tt) ++ EGP)%string
    (toFixed0 (fromZ SHIPPING_COST) ++ EGP)%string
    (toFixed0 (add (getSubtotal p tt) (fromZ SHIPPING_COST)) ++ EGP)%string.

(** [{safeCartItems.length > 0 && <OrderSummary />}] *)
Definition ListFooterComponent (p : Props) : option Summary :=
  if (0 <? Z.of_nat (length (safeCartItems p))) then Some (OrderSummary p)
  else None.

(** The count badge of the list header. *)
Definition ListHeaderComponent (p : Props) : number := getItemCount p tt.

End View.

End CartTab.

(** ** The cart behind the tab *)
Module CartStore.

Import CartTab.

(** Modelled from the spec: the handlers the shopping hub passes to the
    cart tab as [onUpdateQuantity] and [onRemove] are not among the sources.
    The data model gives a CartItem a [productId] and a [quantity] that is
    an integer, at least 0, and says the record is created, updated and
    deleted purely locally, with deletion when the quantity reaches 0 or
    the item is removed. *)
Definition updateQuantity (productId : jsstring) (quantity : Z)
    (cart : list CartItem) : list CartItem :=
  if quantity =? 0 then
    filter (fun item => product_id item <> productId) cart
  else
    map (fun item =>
           if bool_decide (product_id item = productId)
           then mkItem (product_id item) quantity
           else item) cart.

(** Modelled from the spec: removal of an item (see [updateQuantity]). *)
Definition remove (productId : jsstring) (cart : list CartItem)
    : list CartItem :=
  filter (fun item => product_id item <> productId) cart.

(** The row the tab renders for a product. *)
Definition rowOf (productId : jsstring) (cart : list CartItem)
    : option CartItem :=
  find (fun item => bool_decide (product_id item = productId)) cart.

(** One press of the minus button on the row of [productId]. *)
Definition decrement (productId : jsstring) (cart : list CartItem)
    : list CartItem :=
  match rowOf productId cart with
  | Some item => pressMinus updateQuantity item cart
  | None => cart
  end.

Definition increment (productId : jsstring) (cart : list CartItem)
    : list CartItem :=
  match rowOf productId cart with
  | Some item => pressPlus updateQuantity item cart
  | None => cart
  end.

Definition trash (productId : jsstring) (cart : list CartItem)
    : list CartItem :=
  match rowOf productId cart with
  | Some item => pressTrash remove item cart
  | None => cart
  end.

End CartStore.

(** ** Staleness windows of the cached queries *)
Module Queries.

Inductive Collection : Type :=
| categories | carBrands | carModels | productBrands
| products | partners | favorites | banners.

(** Every [useQuery] call of the sources. *)
Inductive Site : Type :=
| useHomeScreenQuery (c : Collection)
| useCategoriesTreeQuery
| CategoriesAdmin_useQuery
| CarBrandsAdmin_useQuery.

Definition collection (q : Site) : Collection :=
  match q with
  | useHomeScreenQuery c => c
  | useCategoriesTreeQuery => categories
  | CategoriesAdmin_useQuery => categories
  | CarBrandsAdmin_useQuery => carBrands
  end.

(** The [staleTime] option, in milliseconds. *)
Definition staleTime (q : Site) : Z :=
  match q with
  | useHomeScreenQuery categories => 5 * 60 * 1000
  | useHomeScreenQuery carBrands => 5 * 60 * 1000
  | useHomeScreenQuery carModels => 5 * 60 * 1000
  | useHomeScreenQuery productBrands => 5 * 60 * 1000
  | useHomeScreenQuery products => 2 * 60 * 1000
  | useHomeScreenQuery partners => 5 * 60 * 1000
  | useHomeScreenQuery favorites => 2 * 60 * 1000
  | useHomeScreenQuery banners => 2 * 60 * 1000
  | useCategoriesTreeQuery => 5 * 60 * 1000
  | CategoriesAdmin_useQuery => 2 * 60 * 1000
  | CarBrandsAdmin_useQuery => 2 * 60 * 1000
  end.

(** [homeScreenKeys] *)
Definition homeScreenKeys (c : Collection) : QueryKey :=
  match c with
  | categories => ["homeScreen"; "categories"]
  | carBrands => ["homeScreen"; "carBrands"]
  | carModels => ["homeScreen"; "carModels"]
  | productBrands => ["homeScreen"; "productBrands"]
  | products => ["homeScreen"; "products"]
  | favorites => ["homeScreen"; "favorites"]
  | banners => ["homeScreen"; "banners"]
  | partners => ["homeScreen"; "partners"]
  end%string.

(** The volatile collections and the catalog (taxonomy) collections. *)
Definition volatile (c : Collection) : bool :=
  match c with products | favorites => true | _ => false end.

Definition catalog (c : Collection) : bool :=
  match c with
  | categories | carBrands | carModels | productBrands => true
  | _ => false
  end.

Definition minutes (n : Z) : Z := n * 60 * 1000.

End Queries.

(** ** JSON *)
Module JSON.

(** A number as it is written: [(-1)^negative * mantissa * 10^exponent],
    the mantissa having been written with [digitCount] digits. *)
Record NumberLit : Type := mkNumber {
  negative : bool;
  mantissa : N;
  digitCount : nat;
  exponent : Z;
}.

(** A Number value that a JSON text can denote: a zero, an infinity, or
    [significand * 2^exponent] in the layout of a binary64 - for a normal
    number [2^52 <= significand < 2^53] and [-1074 <= exponent <= 971],
    for a subnormal one [significand < 2^52] and [exponent = -1074]. *)
Inductive Double : Type :=
| DZero (negative : bool)
| DFinite (negative : bool) (significand : positive) (exponent : Z)
| DInfinity (negative : bool).

(** The double nearest to [n / d] (ties to even), for [0 <= n], [0 < d]. *)
Definition roundToDouble (neg : bool) (n d : Z) : Double :=
  (if n =? 0 then DZero neg
   else
     let k := Z.log2 n - Z.log2 d in
     let reaches :=
       if 0 <=? k then d * 2 ^ k <=? n else d <=? n * 2 ^ (- k) in
     let log := if reaches then k else k - 1 in
     let e := Z.max (log - 52) (-1074) in
     let '(num, den) :=
       if 0 <=? e then (n, d * 2 ^ e) else (n * 2 ^ (- e), d) in
     let q := num / den in
     let r := num mod den in
     let up := (den <? 2 * r) || ((den =? 2 * r) && Z.odd q) in
     let q1 := if up then q + 1 else q in
     let '(q2, e2) := if q1 =? 2 ^ 53 then (2 ^ 52, e + 1) else (q1, e) in
     if q2 =? 0 then DZero neg
     else if 971 <? e2 then DInfinity neg
     else DFinite neg (Z.to_pos q2) e2)%Z.

(** The Number value of a literal.  Beyond [1e310] every literal is an
    infinity and below [1e-330] a zero, which saves the large powers. *)
Definition toDouble (lit : NumberLit) : Double :=
  (let m := Z.of_N (mantissa lit) in
   let e := exponent lit in
   if m =? 0 then DZero (negative lit)
   else if 310 <=? e then DInfinity (negative lit)
   else if Z.of_nat (digitCount lit) + e <? -330 then DZero (negative lit)
   else if 0 <=? e then roundToDouble (negative lit) (m * 10 ^ e) 1
   else roundToDouble (negative lit) m (10 ^ (- e)))%Z.

(** The order of strings by code units. *)
Fixpoint compareUnits (a b : jsstring) : comparison :=
  match a, b with
  | [], [] => Eq
  | [], _ :: _ => Lt
  | _ :: _, [] => Gt
  | x :: a', y :: b' =>
      match (x ?= y)%N with
      | Eq => compareUnits a' b'
      | c => c
      end
  end.

#[warnings="-register-all"]
Inductive Value : Type :=
| JNull
| JBool (b : bool)
| JNumber (n : Double)
| JString (s : jsstring)
| JArray (elements : list Value)
| JObject (members : list (jsstring * Value)).

(** An object is the finite map from its property names to their values,
    kept as the list of its entries in the order of their names; a name
    that the text gives twice keeps the value given last. *)
Fixpoint setMember (key : jsstring) (v : Value)
    (members : list (jsstring * Value)) : list (jsstring * Value) :=
  match members with
  | [] => [(key, v)]
  | (k, w) :: rest =>
      match compareUnits key k with
      | Lt => (key, v) :: members
      | Eq => (key, v) :: rest
      | Gt => (k, w) :: setMember key v rest
      end
  end.

(** The outcome of an expression that may throw. *)
Inductive Completion (A : Type) : Type :=
| Normal (v : A)
| Throw (message : Text).
Arguments Normal {A} _.
Arguments Throw {A} _.

(** [try { body } catch { handler }] *)
Definition tryCatch {A} (body handler : Completion A) : Completion A :=
  match body with
  | Normal v => Normal v
  | Throw _ => handler
  end.

Local Open Scope N_scope.

Fixpoint skipWs (s : jsstring) : jsstring :=
  match s with
  | c :: r =>
      if (c =? 0x20) || (c =? 0x09) || (c =? 0x0A) || (c =? 0x0D)
      then skipWs r else s
  | [] => []
  end.

Definition isDigit (c : N) : bool := (0x30 <=? c) && (c <=? 0x39).

Definition hexDigit (c : N) : option N :=
  if isDigit c then Some (c - 0x30)
  else if (0x61 <=? c) && (c <=? 0x66) then Some (c - 0x61 + 10)
  else if (0x41 <=? c) && (c <=? 0x46) then Some (c - 0x41 + 10)
  else None.

Definition hex4 (a b c d : N) : option N :=
  match hexDigit a, hexDigit b, hexDigit c, hexDigit d with
  | Some a, Some b, Some c, Some d => Some (((a * 16 + b) * 16 + c) * 16 + d)
  | _, _, _, _ => None
  end.

(** The characters of a string after its opening quote, up to the closing
    quote. *)
Fixpoint parseString (s acc : jsstring) : option (jsstring * jsstring) :=
  match s with
  | [] => None
  | 0x22 :: r => Some (rev acc, r)
  | 0x5C :: r =>
      match r with
      | 0x22 :: r' => parseString r' (0x22 :: acc)
      | 0x5C :: r' => parseString r' (0x5C :: acc)
      | 0x2F :: r' => parseString r' (0x2F :: acc)
      | 0x62 :: r' => parseString r' (0x08 :: acc)
      | 0x66 :: r' => parseString r' (0x0C :: acc)
      | 0x6E :: r' => parseString r' (0x0A :: acc)
      | 0x72 :: r' => parseString r' (0x0D :: acc)
      | 0x74 :: r' => parseString r' (0x09 :: acc)
      | 0x75 :: a :: b :: c :: d :: r' =>
          match hex4 a b c d with
          | Some u => parseString r' (u :: acc)
          | None => None
          end
      | _ => None
      end
  | c :: r => if c <? 0x20 then None else parseString r (c :: acc)
  end.

(** The longest run of decimal digits at the head of [s]. *)
Fixpoint digits (s : jsstring) : list N * jsstring :=
  match s with
  | c :: r =>
      if isDigit c then let '(ds, r') := digits r in (c - 0x30 :: ds, r')
      else ([], s)
  | [] => ([], [])
  end.

Definition decimal (ds : list N) : N :=
  fold_left (fun n d => n * 10 + d) ds 0.

(** [int frac? exp?] after the optional minus sign. *)
Definition parseUnsigned (neg : bool) (s : jsstring)
    : option (NumberLit * jsstring) :=
  let '(int, r) :=
    match s with
    | 0x30 :: r => ([0], r)
    | _ => digits s
    end in
  match int with
  | [] => None
  | _ :: _ =>
      let frac :=
        match r with
        | 0x2E :: r1 =>
            match digits r1 with
            | ([], _) => None
            | (fs, r2) => Some (fs, r2)
            end
        | _ => Some ([], r)
        end in
      match frac with
      | None => None
      | Some (fs, r2) =>
          let scale := (- Z.of_nat (length fs))%Z in
          let m := decimal (int ++ fs) in
          let exp (sign : Z) (r3 : jsstring) :=
            match digits r3 with
            | ([], _) => None
            | (es, r4) =>
                Some (mkNumber neg m (length (int ++ fs))
                        (scale + sign * Z.of_N (decimal es))%Z, r4)
            end in
          match r2 with
          | 0x65 :: 0x2B :: r3 | 0x45 :: 0x2B :: r3 => exp 1%Z r3
          | 0x65 :: 0x2D :: r3 | 0x45 :: 0x2D :: r3 => exp (-1)%Z r3
          | 0x65 :: r3 | 0x45 :: r3 => exp 1%Z r3
          | _ => Some (mkNumber neg m (length (int ++ fs)) scale, r2)
          end
      end
  end.

Definition parseNumber (s : jsstring) : option (NumberLit * jsstring) :=
  match s with
  | 0x2D :: r => parseUnsigned true r
  | _ => parseUnsigned false s
  end.

Fixpoint parseValue (fuel : nat) (s : jsstring) : option (Value * jsstring) :=
  match fuel with
  | O => None
  | S fuel =>
      match skipWs s with
      | 0x7B :: r =>
          match skipWs r with
          | 0x7D :: r' => Some (JObject [], r')
          | r1 => parseMembers fuel r1 []
          end
      | 0x5B :: r =>
          match skipWs r with
          | 0x5D :: r' => Some (JArray [], r')
          | r1 => parseElements fuel r1 []
          end
      | 0x22 :: r =>
          match parseString r [] with
          | Some (str, r') => Some (JString str, r')
          | None => None
          end
      | 0x74 :: 0x72 :: 0x75 :: 0x65 :: r => Some (JBool true, r)
      | 0x66 :: 0x61 :: 0x6C :: 0x73 :: 0x65 :: r => Some (JBool false, r)
      | 0x6E :: 0x75 :: 0x6C :: 0x6C :: r => Some (JNull, r)
      | r =>
          match parseNumber r with
          | Some (n, r') => Some (JNumber (toDouble n), r')
          | None => None
          end
      end
  end
with parseElements (fuel : nat) (s : jsstring) (acc : list Value)
    : option (Value * jsstring) :=
  match fuel with
  | O => None
  | S fuel =>
      match parseValue fuel s with
      | Some (v, r) =>
          match skipWs r with
          | 0x2C :: r' => parseElements fuel r' (v :: acc)
          | 0x5D :: r' => Some (JArray (rev (v :: acc)), r')
          | _ => None
          end
      | None => None
      end
  end
with parseMembers (fuel : nat) (s : jsstring) (acc : list (jsstring * Value))
    : option (Value * jsstring) :=
  match fuel with
  | O => None
  | S fuel =>
      match skipWs s with
      | 0x22 :: r =>
          match parseString r [] with
          | Some (key, r1) =>
              match skipWs r1 with
              | 0x3A :: r2 =>
                  match parseValue fuel r2 with
                  | Some (v, r3) =>
                      match skipWs r3 with
                      | 0x2C :: r' => parseMembers fuel r' (setMember key v acc)
                      | 0x7D :: r' => Some (JObject (setMember key v acc), r')
                      | _ => None
                      end
                  | None => None
                  end
              | _ => None
              end
          | None => None
          end
      | _ => None
      end
  end.

(** [JSON.parse(text)]: one value, with nothing but white space around
    it; anything else is a SyntaxError. *)
Definition parse (text : jsstring) : Completion Value :=
  match parseValue (2 * length text + 2) text with
  | Some (v, r) =>
      match skipWs r with
      | [] => Normal v
      | _ :: _ => Throw "SyntaxError"
      end
  | None => Throw "SyntaxError"
  end.

End JSON.

(** ** Local database models (WatermelonDB) *)
Module Models.

Inductive Model : Type :=
| CarBrand | CarModel | ProductBrand | Category | Product
| Favorite | CartItem | SyncMetadata.

(** [static table] *)
Definition table (m : Model) : string :=
  match m with
  | CarBrand => "car_brands"
  | CarModel => "car_models"
  | ProductBrand => "product_brands"
  | Category => "categories"
  | Product => "products"
  | Favorite => "favorites"
  | CartItem => "cart_items"
  | SyncMetadata => "sync_metadata"
  end.

Inductive Decorator : Type := field | text | date | readonly_date.

Inductive TsType : Type := TString | TNumber | TBoolean | TDate.

(** One decorated class field:
    [@decorator('column') property: type] or [... : type | null]. *)
Record Decl : Type := mkDecl {
  decorator : Decorator;
  column : string;
  property : string;
  type : TsType;
  nullable : bool;
}.

Definition timestamps : list Decl :=
  [ mkDecl readonly_date "created_at" "createdAt" TDate false;
    mkDecl date "updated_at" "updatedAt" TDate false ].

Definition fields (m : Model) : list Decl :=
  match m with
  | CarBrand =>
      [ mkDecl field "server_id" "serverId" TString false;
        mkDecl field "name" "name" TString false;
        mkDecl field "name_ar" "nameAr" TString false;
        mkDecl field "logo" "logo" TString true ] ++ timestamps
  | CarModel =>
      [ mkDecl field "server_id" "serverId" TString false;
        mkDecl field "brand_id" "brandId" TString false;
        mkDecl field "name" "name" TString false;
        mkDecl field "name_ar" "nameAr" TString false;
        mkDecl field "year_start" "yearStart" TNumber true;
        mkDecl field "year_end" "yearEnd" TNumber true;
        mkDecl field "image_url" "imageUrl" TString true;
        mkDecl field "description" "description" TString true;
        mkDecl field "description_ar" "descriptionAr" TString true;
        mkDecl text "variants" "variants" TString true ] ++ timestamps
  | ProductBrand =>
      [ mkDecl field "server_id" "serverId" TString false;
        mkDecl field "name" "name" TString false;
        mkDecl field "name_ar" "nameAr" TString true;
        mkDecl field "logo" "logo" TString true;
        mkDecl field "country_of_origin" "countryOfOrigin" TString true;
        mkDecl field "country_of_origin_ar" "countryOfOriginAr" TString true ]
      ++ timestamps
  | Category =>
      [ mkDecl field "server_id" "serverId" TString false;
        mkDecl field "name" "name" TString false;
        mkDecl field "name_ar" "nameAr" TString false;
        mkDecl field "parent_id" "parentId" TString true;
        mkDecl field "icon" "icon" TString true;
        mkDecl field "sort_order" "sortOrder" TNumber false ] ++ timestamps
  | Product =>
      [ mkDecl field "server_id" "serverId" TString false;
        mkDecl field "name" "name" TString false;
        mkDecl field "name_ar" "nameAr" TString false;
        mkDecl field "description" "description" TString true;
        mkDecl field "description_ar" "descriptionAr" TString true;
        mkDecl field "price" "price" TNumber false;
        mkDecl field "sku" "sku" TString false;
        mkDecl field "product_brand_id" "productBrandId" TString true;
        mkDecl field "category_id" "categoryId" TString true;
        mkDecl field "image_url" "imageUrl" TString true;
        mkDecl text "images" "images" TString true;
        mkDecl text "car_model_ids" "carModelIds" TString true;
        mkDecl field "stock_quantity" "stockQuantity" TNumber false;
        mkDecl field "hidden_status" "hiddenStatus" TBoolean false ]
      ++ timestamps
  | Favorite =>
      [ mkDecl field "server_id" "serverId" TString true;
        mkDecl field "user_id" "userId" TString false;
        mkDecl field "product_id" "productId" TString false ] ++ timestamps
  | CartItem =>
      [ mkDecl field "product_id" "productId" TString false;
        mkDecl field "quantity" "quantity" TNumber false ] ++ timestamps
  | SyncMetadata =>
      [ mkDecl field "table_name" "tableName" TString false;
        mkDecl field "last_pulled_at" "lastPulledAt" TNumber false ]
  end.

(** The declaration of a property of a model, if it has one. *)
Definition declaration (m : Model) (prop : string) : option Decl :=
  find (fun d => String.eqb (property d) prop) (fields m).

(** The part of a [car_models] row that [variantsParsed] reads, and the
    parts of a [products] row that [imagesParsed] and [carModelIdsParsed]
    read. *)
Record CarModelRow : Type := mkCarModelRow {
  variants : option jsstring;
}.

Record ProductRow : Type := mkProductRow {
  images : option jsstring;
  carModelIds : option jsstring;
}.

Section Getters.
Import JSON.
(** The [JSON.parse] of the host. *)
Variable JSON_parse : jsstring -> Completion Value.

(** [column ? JSON.parse(column) : []] inside [try], [[]] in [catch]. *)
Definition parsedOrEmpty (column : option jsstring) : Completion Value :=
  tryCatch
    (match column with
     | Some s => if truthy s then JSON_parse s else Normal (JArray [])
     | None => Normal (JArray [])
     end)
    (Normal (JArray [])).

Definition variantsParsed (this : CarModelRow) : Completion Value :=
  tryCatch
    (match variants this with
     | Some s => if truthy s then JSON_parse s else Normal (JArray [])
     | None => Normal (JArray [])
     end)
    (Normal (JArray [])).

Definition imagesParsed (this : ProductRow) : Completion Value :=
  tryCatch
    (match images this with
     | Some s => if truthy s then JSON_parse s else Normal (JArray [])
     | None => Normal (JArray [])
     end)
    (Normal (JArray [])).

Definition carModelIdsParsed (this : ProductRow) : Completion Value :=
  tryCatch
    (match carModelIds this with
     | Some s => if truthy s then JSON_parse s else Normal (JArray [])
     | None => Normal (JArray [])
     end)
    (Normal (JArray [])).

End Getters.

End Models.

(** ** Pull reconciliation

    The sources hold the model declarations ([serverId], [updatedAt]) and
    the [sync_metadata] table ([tableName], [lastPulledAt]); the
    synchronisation engine that uses them is not among them. *)
Module PullReconciler.

Section Reconciler.
(** The fields of an entity other than its identifier and timestamp. *)
Variable Fields : Type.

(** A record as the remote sends it. *)
Record Entity : Type := mkRecord {
  serverId : jsstring;
  updatedAt : Z;
  payload : Fields;
}.

(** Modelled from the spec: a record of the local store, with its dirty
    flag ("locally modified, not yet pushed") and the flag of a failed
    pending operation (the record is "flagged inconsistent" and waits for
    the user). *)
Record Local : Type := mkLocal {
  record : Entity;
  dirty : bool;
  failed : bool;
}.

Definition clean (r : Entity) : Local := mkLocal r false false.

(** Modelled from the spec: the Pull Reconciler, which is not among the
    sources.  For each incoming remote record:
    1. no local record with a matching [serverId]: insert;
    2. a local record that is not dirty: overwrite the fields, keep the
       [serverId];
    3. a local record that is dirty: compare [updatedAt]; the remote wins
       only if strictly newer, otherwise the local dirty copy is preserved
       and stays queued for the push.
    And, from the Push Queue: "a record with a failed pending operation is
    excluded from future automatic pulls overwriting it". *)
Definition reconcile (store : gmap jsstring Local) (remote : Entity)
    : gmap jsstring Local :=
  match store !! serverId remote with
  | None => <[serverId remote := clean remote]> store
  | Some local =>
      if failed local then store
      else if dirty local then
        if updatedAt (record local) <? updatedAt remote
        then <[serverId remote := clean remote]> store
        else store
      else <[serverId remote := clean remote]> store
  end.

(** The [sync_metadata] row of a table. *)
Record SyncMetadata : Type := mkCursor {
  tableName : string;
  lastPulledAt : Z;
}.

(** Modelled from the spec: a pull of one table, which is not among the
    sources.  Every record of the batch is reconciled, then the cursor
    advances to the greatest [updatedAt] seen in the batch. *)
Definition pull (batch : list Entity)
    (st : gmap jsstring Local * SyncMetadata)
    : gmap jsstring Local * SyncMetadata :=
  (foldl reconcile (fst st) batch,
   mkCursor (tableName (snd st))
     (foldl (fun t r => Z.max t (updatedAt r)) (lastPulledAt (snd st)) batch)).

End Reconciler.

End PullReconciler.

(** ** The database that is synchronised *)
Module SyncEngine.

(** Modelled from the spec: which tables take part in the synchronisation;
    the engine is not among the sources.  The reconciler matches a local
    record with a remote one by [serverId] ("if no local record with
    matching [serverId] exists: insert"), so a table takes part exactly
    when its model declares the [server_id] column. *)
Definition syncable (m : Models.Model) : bool :=
  existsb (fun d => String.eqb (Models.column d) "server_id")
    (Models.fields m).

Section Engine.
Variable Fields : Type.

(** Modelled from the spec: the local database of the synchronisation
    engine, which is not among the sources.  It has the mirrored tables by
    name, each keyed by [serverId]; the cart, which is "local-only until
    checkout" and "never pulled from remote"; and the [sync_metadata]
    rows, [last_pulled_at] by [table_name]. *)
Record Database : Type := mkDatabase {
  tables : gmap string (gmap jsstring (PullReconciler.Local Fields));
  cart_items : list CartTab.CartItem;
  sync_metadata : gmap string Z;
}.

(** Modelled from the spec: the rows of a table, none if the table was
    never written. *)
Definition store (db : Database) (m : Models.Model)
    : gmap jsstring (PullReconciler.Local Fields) :=
  match tables db !! Models.table m with
  | Some rows => rows
  | None => ∅
  end.


(** Modelled from the spec: the cursor of a table, "zero/epoch if no prior
    cursor exists". *)
Definition cursor (db : Database) (m : Models.Model)
    : PullReconciler.SyncMetadata :=
  PullReconciler.mkCursor (Models.table m)
    (match sync_metadata db !! Models.table m with
     | Some t => t
     | None => 0
     end).

(** Modelled from the spec: [pull(table)] on the database, which is not
    among the sources.  The batch of a table that takes part is reconciled
    into that table and its cursor is written back; a pull addressed to
    any other table does nothing. *)
Definition pull (m : Models.Model)
    (batch : list (PullReconciler.Entity Fields)) (db : Database)
    : Database :=
  if syncable m then
    let pulled := PullReconciler.pull Fields batch (store db m, cursor db m) in
    mkDatabase
      (<[Models.table m := fst pulled]> (tables db))
      (cart_items db)
      (<[Models.table m := PullReconciler.lastPulledAt (snd pulled)]>
         (sync_metadata db))
  else db.


End Engine.

End SyncEngine.

(** ** Sample states *)
Module Sample.

Definition categoriesKey : QueryKey := ["categories"]%string.
Definition carBrandsKey : QueryKey := ["carBrands"]%string.

Definition engine : CategoriesAdmin.Category.t :=
  CategoriesAdmin.Category.mk (lit "c1") (lit "Engine") (lit "Engine")
    None None None.

Definition brakes : CategoriesAdmin.Category.t :=
  CategoriesAdmin.Category.mk (lit "c2") (lit "Brakes") (lit "Brakes")
    None (Some (lit "disc")) None.

Definition toyota : CarBrandsAdmin.CarBrand.t :=
  CarBrandsAdmin.CarBrand.mk (lit "b1") (lit "Toyota") (lit "Toyota") None.

(** The categories screen with two categories fetched at time 0. *)
Definition categoriesWorld
    : World CategoriesAdmin.State CategoriesAdmin.Call :=
  mkWorld
    (CategoriesAdmin.mkState
       {[ categoriesKey := mkQuery (Some [engine; brakes]) 0 false ]}
       (CategoriesAdmin.mkForm [] [] None [] [] None false) Toast.initial)
    [].

(** The car-brands screen with one brand fetched at time 0. *)
Definition carBrandsWorld
    : World CarBrandsAdmin.State CarBrandsAdmin.Call :=
  mkWorld
    (CarBrandsAdmin.mkState
       {[ carBrandsKey := mkQuery (Some [toyota]) 0 false ]}
       (CarBrandsAdmin.mkForm [] [] [] None false) Toast.initial)
    [].

(** The categories screen before anything was fetched. *)
Definition emptyCategoriesWorld
    : World CategoriesAdmin.State CategoriesAdmin.Call :=
  mkWorld
    (CategoriesAdmin.mkState ∅
       (CategoriesAdmin.mkForm [] [] None [] [] None false) Toast.initial)
    [].

(** The categories form with a blank English name, and filled in. *)
Definition blankForm : CategoriesAdmin.State :=
  CategoriesAdmin.mkState ∅
    (CategoriesAdmin.mkForm (lit "   ") [0x645; 0x62D; 0x631; 0x643]%N
       None [] [] None false)
    Toast.initial.

Definition filledForm : CategoriesAdmin.State :=
  CategoriesAdmin.mkState ∅
    (CategoriesAdmin.mkForm (lit " Engine ") [0x645; 0x62D; 0x631; 0x643]%N
       None [] [] None false)
    Toast.initial.

(** A cart with two units of one product and one unit of another. *)
Definition cart : list CartTab.CartItem :=
  [ CartTab.mkItem (lit "p1") 2; CartTab.mkItem (lit "p2") 1 ].

(** The cart tab over integer amounts. *)
Definition props : CartTab.Props Z :=
  CartTab.mkProps Z (Some cart) false
    (fun _ => 1200) (fun _ => 1300) (fun _ => 100) (fun _ => 3).

(** The JSON text of an array with one image name. *)
Definition imagesText : jsstring :=
  lit "[" ++ [0x22%N] ++ lit "a.png" ++ [0x22%N] ++ lit "]".

Definition product : Models.ProductRow :=
  Models.mkProductRow (Some imagesText) None.

(** A store with one dirty record, last written locally at time 10. *)
Definition dirtyLocal : PullReconciler.Local string :=
  PullReconciler.mkLocal string
    (PullReconciler.mkRecord string (lit "cat-42") 10 "local edit") true false.

(** The same record after its push has failed for good. *)
Definition failedLocal : PullReconciler.Local string :=
  PullReconciler.mkLocal string
    (PullReconciler.mkRecord string (lit "cat-42") 10 "local edit") true true.

Definition failedStore : gmap jsstring (PullReconciler.Local string) :=
  {[ lit "cat-42" := failedLocal ]}.

Definition store : gmap jsstring (PullReconciler.Local string) :=
  {[ lit "cat-42" := dirtyLocal ]}.

Definition remoteNewer : PullReconciler.Entity string :=
  PullReconciler.mkRecord string (lit "cat-42") 11 "remote edit".


End Sample.

(** ** More of the host's strings *)
Module JsText.

(** [s.startsWith(prefix)] *)
Fixpoint startsWith (prefix s : jsstring) : bool :=
  match prefix, s with
  | [], _ => true
  | p :: prefix', c :: s' => (p =? c)%N && startsWith prefix' s'
  | _ :: _, [] => false
  end.

(** [hay.includes(needle)] *)
Fixpoint includes (hay needle : jsstring) : bool :=
  startsWith needle hay
  || match hay with
     | [] => false
     | _ :: hay' => includes hay' needle
     end.

(** [s.replace(/^pattern/, replacement)], for a pattern and a replacement
    made of ordinary characters. *)
Definition replaceAtStart (pattern replacement s : jsstring) : jsstring :=
  if startsWith pattern s then replacement ++ drop (length pattern) s
  else s.

(** The decimal digits of a numeral, most significant first. *)
Fixpoint unitsOfUint (d : Decimal.uint) : jsstring :=
  match d with
  | Decimal.Nil => []
  | Decimal.D0 d => 0x30%N :: unitsOfUint d
  | Decimal.D1 d => 0x31%N :: unitsOfUint d
  | Decimal.D2 d => 0x32%N :: unitsOfUint d
  | Decimal.D3 d => 0x33%N :: unitsOfUint d
  | Decimal.D4 d => 0x34%N :: unitsOfUint d
  | Decimal.D5 d => 0x35%N :: unitsOfUint d
  | Decimal.D6 d => 0x36%N :: unitsOfUint d
  | Decimal.D7 d => 0x37%N :: unitsOfUint d
  | Decimal.D8 d => 0x38%N :: unitsOfUint d
  | Decimal.D9 d => 0x39%N :: unitsOfUint d
  end.

(** [String(n)], and [n] inside a template literal, for a non-negative
    integer. *)
Definition toDecimal (n : N) : jsstring := unitsOfUint (N.to_uint n).

(** [s.padStart(targetLength, fill)] *)
Definition padStart (targetLength : nat) (fill s : jsstring) : jsstring :=
  let missing := (targetLength - length s)%nat in
  take missing (concat (replicate missing fill)) ++ s.

(** [s || fallback] for a string *)
Definition strOr (s fallback : jsstring) : jsstring :=
  if truthy s then s else fallback.

End JsText.

Import JsText.

(** ** The lists of the admin screens: search and parent categories *)
Module AdminLists.

Section Search.
(** [String.prototype.toLowerCase] of the host. *)
Variable toLowerCase : jsstring -> jsstring.

Definition categoryMatches (query : jsstring)
    (category : CategoriesAdmin.Category.t) : bool :=
  let catName :=
    toLowerCase (strOr (CategoriesAdmin.Category.name category) []) in
  let catNameAr :=
    toLowerCase (strOr (CategoriesAdmin.Category.name_ar category) []) in
  includes catName query || includes catNameAr query.

Definition filteredCategories (searchQuery : jsstring)
    (categories : list CategoriesAdmin.Category.t)
    : list CategoriesAdmin.Category.t :=
  if negb (truthy (trim searchQuery)) then categories
  else
    let query := toLowerCase searchQuery in
    filter (fun category => categoryMatches query category = true) categories.

Definition brandMatches (query : jsstring) (brand : CarBrandsAdmin.CarBrand.t)
    : bool :=
  let brandName :=
    toLowerCase (strOr (CarBrandsAdmin.CarBrand.name brand) []) in
  let brandNameAr :=
    toLowerCase (strOr (CarBrandsAdmin.CarBrand.name_ar brand) []) in
  includes brandName query || includes brandNameAr query.

Definition filteredBrands (searchQuery : jsstring)
    (brands : list CarBrandsAdmin.CarBrand.t)
    : list CarBrandsAdmin.CarBrand.t :=
  if negb (truthy (trim searchQuery)) then brands
  else
    let query := toLowerCase searchQuery in
    filter (fun brand => brandMatches query brand = true) brands.

End Search.



(** [const categories = categoriesData || []] and
    [const brands = brandsData || []]: the lists behind the rows, as the
    cache has them under the screen's key. *)
Definition categories (key : QueryKey) (s : CategoriesAdmin.State)
    : list CategoriesAdmin.Category.t :=
  match getQueryData key (CategoriesAdmin.queryClient s) with
  | Some categoriesData => categoriesData
  | None => []
  end.

Definition brands (key : QueryKey) (s : CarBrandsAdmin.State)
    : list CarBrandsAdmin.CarBrand.t :=
  match getQueryData key (CarBrandsAdmin.queryClient s) with
  | Some brandsData => brandsData
  | None => []
  end.

End AdminLists.

(** ** App version display *)
Module AppVersionInfo.

(** The parts of [new Date()] that the build identifier reads. *)
Record Date : Type := mkDate {
  getFullYear : N;
  getMonth : N;      (* 0 .. 11 *)
  getDate : N;       (* 1 .. 31 *)
  getHours : N;      (* 0 .. 23 *)
  getMinutes : N;    (* 0 .. 59 *)
}.

(** [String(n).padStart(2, '0')] *)
Definition pad2 (n : N) : jsstring := padStart 2 (lit "0") (toDecimal n).

Definition getBuildId (now : Date) : jsstring :=
  toDecimal (getFullYear now)
  ++ pad2 (getMonth now + 1)
  ++ pad2 (getDate now)
  ++ lit "."
  ++ pad2 (getHours now)
  ++ pad2 (getMinutes now).

(** [Constants.expoConfig] *)
Record ExpoConfig : Type := mkConfig {
  version : option jsstring;
}.

(** [Constants.expoConfig?.version || '1.0.0'] *)
Definition getAppVersion (expoConfig : option ExpoConfig) : jsstring :=
  match expoConfig with
  | Some config =>
      match version config with
      | Some v => strOr v (lit "1.0.0")
      | None => lit "1.0.0"
      end
  | None => lit "1.0.0"
  end.

Definition getVersionString (expoConfig : option ExpoConfig) (now : Date)
    : jsstring :=
  lit "v" ++ getAppVersion expoConfig ++ lit " (" ++ getBuildId now ++ lit ")".

(** The interpolated parts of the alert of [handleTap]. *)
Record Alert : Type := mkAlert {
  title : Text;
  alertVersion : jsstring;
  alertBuild : jsstring;
  alertTimestamp : jsstring;
  alertPlatform : jsstring;
  closing : Text;
}.

Section Component.
Variable language : string.
Variable appVersion buildId BUILD_TIMESTAMP Platform_OS : jsstring.

(** One tap: the new [tapCount] and the alert shown, if any. *)
Definition handleTap (tapCount : N) : N * option Alert :=
  let newCount := (tapCount + 1)%N in
  if (5 <=? newCount)%N then
    (0%N,
     Some (mkAlert (localized language "معلومات التطبيق" "App Info")
             appVersion buildId BUILD_TIMESTAMP Platform_OS
             (localized language "تم التحقق من أحدث إصدار!"
                "Latest version verified!")))
  else (newCount, None).

(** A run of taps from a given count: the final count and the number of
    alerts shown. *)
Fixpoint taps (n : nat) (tapCount : N) : N * nat :=
  match n with
  | O => (tapCount, O)
  | S n' =>
      let '(count, alert) := handleTap tapCount in
      let '(final, shown) := taps n' count in
      (final, (match alert with Some _ => 1 | None => 0 end + shown)%nat)
  end.

End Component.

End AppVersionInfo.

(** ** Metro configuration *)
Module MetroConfig.

Section Resolver.
Context {Platform Resolution : Type}.
(** [context.resolveRequest], the default resolver. *)
Variable context_resolveRequest : jsstring -> Platform -> Resolution.

(** [config.resolver.resolveRequest] *)
Definition resolveRequest (moduleName : jsstring) (platform : Platform)
    : Resolution :=
  if bool_decide (moduleName = lit "zustand")
     || startsWith (lit "zustand/") moduleName
  then
    let cjsPath := replaceAtStart (lit "zustand") (lit "zustand") moduleName in
    context_resolveRequest cjsPath platform
  else context_resolveRequest moduleName platform.

End Resolver.

Definition maxWorkers : Z := 2.

End MetroConfig.

(** ** Rows of the cart and favorites lists *)
Module ListRows.

Section Pricing.
(** The JavaScript numbers of an item: [isTruthy] is false for [0] and
    [NaN], [gt] is [>], [fromZ] reads an integer literal. *)
Variable number : Type.
Variable isTruthy : number -> bool.
Variable gt : number -> number -> bool.
Variable fromZ : Z -> number.

Record Product : Type := mkProduct {
  id : option jsstring;
  price : option number;
}.

(** A cart row or a favorites row ([item: any]). *)
Record Item : Type := mkItem {
  product_id : option jsstring;
  item_id : option jsstring;
  original_unit_price : option number;
  final_unit_price : option number;
  product : option Product;
}.

(** [a || b] where [a] may be undefined *)
Definition numberOr (a : option number) (b : number) : number :=
  match a with
  | Some x => if isTruthy x then x else b
  | None => b
  end.

(** [item.product?.price] *)
Definition productPrice (item : Item) : option number :=
  match product item with
  | Some p => price p
  | None => None
  end.

(** [item.original_unit_price || item.product?.price || 0] *)
Definition originalPrice (item : Item) : number :=
  numberOr (original_unit_price item) (numberOr (productPrice item) (fromZ 0)).

(** [item.final_unit_price || item.product?.price || 0] *)
Definition finalPrice (item : Item) : number :=
  numberOr (final_unit_price item) (numberOr (productPrice item) (fromZ 0)).

Definition hasDiscount (item : Item) : bool :=
  gt (originalPrice item) (finalPrice item).

(** [a || b] for strings that may be undefined *)
Definition firstTruthy (a b : option jsstring) : option jsstring :=
  match a with
  | Some s => if truthy s then Some s else b
  | None => b
  end.

(** The identifier a cart row is keyed by, and the one a favorites row is
    keyed by ([item.product_id || item.id]). *)
Definition cartId (item : Item) : option jsstring :=
  firstTruthy (product_id item) None.

Definition favoriteId (item : Item) : option jsstring :=
  firstTruthy (product_id item) (firstTruthy (item_id item) None).

(** CartTab: [item.product_id || `cart-item-${index}`] *)
Definition cartKeyExtractor (item : Item) (index : nat) : jsstring :=
  match cartId item with
  | Some s => s
  | None => lit "cart-item-" ++ toDecimal (N.of_nat index)
  end.

(** FavoritesTab:
    [item.product_id || item.id || `fav-item-${index}`] *)
Definition favoriteKeyExtractor (item : Item) (index : nat) : jsstring :=
  match favoriteId item with
  | Some s => s
  | None => lit "fav-item-" ++ toDecimal (N.of_nat index)
  end.

(** FavoritesTab: the product a row opens and un-favourites,
    [item.product_id || item.product?.id]. *)
Definition favoriteTarget (item : Item) : option jsstring :=
  firstTruthy (product_id item)
    (match product item with
     | Some p => id p
     | None => None
     end).

End Pricing.

End ListRows.

(** ** The home screen hook: keys and the favorites query *)
Module HomeScreen.

(** [homeScreenKeys.all] *)
Definition homeScreenKeys_all : QueryKey := ["homeScreen"]%string.

(** A favorite as the API lists it, and the response of
    [favoritesApi.getAll()]. *)
Record FavoriteDto : Type := mkFavorite {
  product_id : jsstring;
}.

Record FavoritesData : Type := mkData {
  favorites : option (list FavoriteDto);
}.

Record Response : Type := mkResponse {
  data : option FavoritesData;
}.

(** The [queryFn] of the favorites query.  [favoritesApi_getAll] is called
    only with a user; the result tells whether it was. *)
Definition favoritesQueryFn {User : Type} (user : option User)
    (favoritesApi_getAll : unit -> Response) : bool * gset jsstring :=
  match user with
  | None => (false, ∅)
  | Some _ =>
      let response := favoritesApi_getAll tt in
      let listed :=
        match data response with
        | Some d =>
            match favorites d with
            | Some l => l
            | None => []
            end
        | None => []
        end in
      (true, list_to_set (map product_id listed))
  end.

(** [enabled: !!user] *)
Definition favoritesEnabled {User : Type} (user : option User) : bool :=
  match user with Some _ => true | None => false end.

End HomeScreen.

(** ** The parent selector of the categories form *)
Module ParentChips.

(** [setParentId] *)
Definition setParentId (parent : option jsstring) (s : CategoriesAdmin.State)
    : CategoriesAdmin.State :=
  let f := CategoriesAdmin.form s in
  CategoriesAdmin.mkState (CategoriesAdmin.queryClient s)
    (CategoriesAdmin.mkForm (CategoriesAdmin.name f)
       (CategoriesAdmin.nameAr f) parent (CategoriesAdmin.icon f)
       (CategoriesAdmin.categoryImage f) (CategoriesAdmin.editingCategory f)
       (CategoriesAdmin.isEditMode f))
    (CategoriesAdmin.toast s).

(** The "No Parent" chip: [setParentId(null)]. *)
Definition pressNoParent (s : CategoriesAdmin.State) : CategoriesAdmin.State :=
  setParentId None s.


End ParentChips.

(** * Properties *)

(** ** Strings and JSON texts, on examples *)

Example trim_strips_both_ends : trim (lit "  big end  ") = lit "big end".
Proof. reflexivity. Qed.

Example trim_of_white_space_is_empty :
  trim ([0x20; 0x09; 0x00A0; 0x3000; 0x0A])%N = [].
Proof. reflexivity. Qed.

Example parse_rejects_the_empty_string :
  JSON.parse [] = JSON.Throw "SyntaxError".
Proof. reflexivity. Qed.

Example parse_array_of_numbers :
  JSON.parse (lit " [1, -2.50e+3, 0.1, 1e309, []] ")
  = JSON.Normal
      (JSON.JArray
         [ JSON.JNumber (JSON.DFinite false 4503599627370496 (-52));
           JSON.JNumber (JSON.DFinite true 5497558138880000 (-41));
           JSON.JNumber (JSON.DFinite false 7205759403792794 (-56));
           JSON.JNumber (JSON.DInfinity false);
           JSON.JArray [] ]).
Proof. reflexivity. Qed.

Example parse_rounds_to_the_nearest_double :
  JSON.parse (lit "9007199254740993") = JSON.parse (lit "9007199254740992")
  /\ JSON.parse (lit "1.0") = JSON.parse (lit "1").
Proof. split; reflexivity. Qed.

Example parse_keeps_the_last_of_a_repeated_name :
  JSON.parse (lit "{ 'b': 1, 'a': null, 'b': true }")
  = JSON.Throw "SyntaxError"
  /\ JSON.parse
       (map (fun c => if (c =? 0x27)%N then 0x22%N else c)
          (lit "{ 'b': 1, 'a': null, 'b': true }"))
     = JSON.Normal
         (JSON.JObject [ (lit "a", JSON.JNull); (lit "b", JSON.JBool true) ]).
Proof. split; reflexivity. Qed.

Example parse_rejects_a_trailing_comma :
  JSON.parse (lit "[1,]") = JSON.Throw "SyntaxError".
Proof. reflexivity. Qed.

Example parse_image_names :
  JSON.parse Sample.imagesText
  = JSON.Normal (JSON.JArray [JSON.JString (lit "a.png")]).
Proof. reflexivity. Qed.

(** ** Reading the query client back after a write *)
Section ClientFacts.
Context {D : Type}.
Implicit Types (qc : gmap QueryKey (QueryState D)) (key : QueryKey).

Lemma getQueryData_lookup key qc q :
  qc !! key = Some q -> getQueryData key qc = data q.
Proof. intros H. unfold getQueryData. by rewrite H. Qed.

Lemma getQueryData_lookup_None key qc :
  qc !! key = None -> getQueryData key qc = None.
Proof. intros H. unfold getQueryData. by rewrite H. Qed.

Lemma lookup_setQueryData_eq now key f qc d :
  f (getQueryData key qc) = Some d ->
  setQueryData now key f qc !! key = Some (mkQuery (Some d) now false).
Proof.
  intros Hf. unfold setQueryData. rewrite Hf. apply lookup_insert_eq.
Qed.

Lemma getQueryData_setQueryData_eq now key f qc d :
  f (getQueryData key qc) = Some d ->
  getQueryData key (setQueryData now key f qc) = Some d.
Proof.
  intros Hf.
  by rewrite (getQueryData_lookup _ _ _ (lookup_setQueryData_eq now _ _ _ _ Hf)).
Qed.

Lemma lookup_setQueryData_ne now key key' f qc :
  key <> key' -> setQueryData now key f qc !! key' = qc !! key'.
Proof.
  intros Hne. unfold setQueryData.
  destruct (f (getQueryData key qc)); [by rewrite lookup_insert_ne | done].
Qed.

Lemma lookup_invalidateQueries key k qc :
  invalidateQueries key qc !! k =
  (fun q => if bool_decide (key `prefix_of` k) then invalidate q else q)
    <$> qc !! k.
Proof.
  unfold invalidateQueries. rewrite map_lookup_imap.
  by destruct (qc !! k).
Qed.

Lemma lookup_invalidateQueries_self key qc :
  invalidateQueries key qc !! key = invalidate <$> qc !! key.
Proof.
  rewrite lookup_invalidateQueries.
  by rewrite bool_decide_eq_true_2.
Qed.

Lemma getQueryData_invalidateQueries key k qc :
  getQueryData k (invalidateQueries key qc) = getQueryData k qc.
Proof.
  destruct (qc !! k) as [q|] eqn:E.
  - rewrite (getQueryData_lookup k qc q E).
    erewrite getQueryData_lookup by (by rewrite lookup_invalidateQueries, E).
    by case_bool_decide.
  - rewrite (getQueryData_lookup_None k qc E).
    apply getQueryData_lookup_None. by rewrite lookup_invalidateQueries, E.
Qed.

End ClientFacts.

(** ** The optimistic delete, step by step *)

(** What [onMutate] of the categories screen leaves under the key. *)
Lemma categories_onMutate_data key lang now d s :
  getQueryData key
    (CategoriesAdmin.queryClient
       (snd (onMutate (CategoriesAdmin.deleteMutation key lang) now d s)))
  = Some (match getQueryData key (CategoriesAdmin.queryClient s) with
          | Some old =>
              filter (fun c => CategoriesAdmin.Category.id c <> d) old
          | None => []
          end).
Proof. simpl. unfold cancelQueries. by apply getQueryData_setQueryData_eq. Qed.

Lemma brands_onMutate_data key lang now d s :
  getQueryData key
    (CarBrandsAdmin.queryClient
       (snd (onMutate (CarBrandsAdmin.deleteMutation key lang) now d s)))
  = Some (match getQueryData key (CarBrandsAdmin.queryClient s) with
          | Some old =>
              filter (fun b => CarBrandsAdmin.CarBrand.id b <> d) old
          | None => []
          end).
Proof. simpl. unfold cancelQueries. by apply getQueryData_setQueryData_eq. Qed.

(** Removing by id from a list: what is kept and what is not. *)
Lemma filter_id_spec {A} (id : A -> jsstring) (d : jsstring) (l : list A) :
  let l' := filter (fun x => id x <> d) l in
  (forall x, x ∈ l' <-> x ∈ l /\ id x <> d)
  /\ l' `sublist_of` l
  /\ (Forall (fun x => id x <> d) l -> l' = l).
Proof.
  simpl. split; [|split].
  - intros x. rewrite list_elem_of_filter. tauto.
  - apply sublist_filter.
  - induction 1 as [|x l Hx _ IH]; [done|].
    rewrite filter_cons_True by done. by rewrite IH.
Qed.

(** C2 (frame effect of the optimistic delete).  On both admin screens,
    [onMutate] of the delete mutation for an id [d] - which runs before the
    remote call - replaces the cached collection by the previous one
    without the records whose id is [d], in the same order and with every
    other record as it was; a cache without a collection gets the empty
    list.  The snapshot handed on as context is the previous collection;
    other keys, the form and the toast are not touched. *)
Theorem optimistic_delete_removes_exactly_the_id
    (kc kb : QueryKey) (lang : string) (now : Z) (d : jsstring) :
  (forall s : CategoriesAdmin.State,
     let r := onMutate (CategoriesAdmin.deleteMutation kc lang) now d s in
     let old := getQueryData kc (CategoriesAdmin.queryClient s) in
     CategoriesAdmin.previousCategories (fst r) = old
     /\ (exists new,
           getQueryData kc (CategoriesAdmin.queryClient (snd r)) = Some new
           /\ match old with
              | Some l =>
                  new = filter
                          (fun c => CategoriesAdmin.Category.id c <> d) l
                  /\ (forall c, c ∈ new <->
                        c ∈ l /\ CategoriesAdmin.Category.id c <> d)
                  /\ new `sublist_of` l
                  /\ (Forall
                        (fun c => CategoriesAdmin.Category.id c <> d) l ->
                      new = l)
              | None => new = []
              end)
     /\ (forall k, k <> kc ->
           CategoriesAdmin.queryClient (snd r) !! k
           = CategoriesAdmin.queryClient s !! k)
     /\ CategoriesAdmin.form (snd r) = CategoriesAdmin.form s
     /\ CategoriesAdmin.toast (snd r) = CategoriesAdmin.toast s)
  /\
  (forall s : CarBrandsAdmin.State,
     let r := onMutate (CarBrandsAdmin.deleteMutation kb lang) now d s in
     let old := getQueryData kb (CarBrandsAdmin.queryClient s) in
     CarBrandsAdmin.previousBrands (fst r) = old
     /\ (exists new,
           getQueryData kb (CarBrandsAdmin.queryClient (snd r)) = Some new
           /\ match old with
              | Some l =>
                  new = filter
                          (fun b => CarBrandsAdmin.CarBrand.id b <> d) l
                  /\ (forall b, b ∈ new <->
                        b ∈ l /\ CarBrandsAdmin.CarBrand.id b <> d)
                  /\ new `sublist_of` l
                  /\ (Forall
                        (fun b => CarBrandsAdmin.CarBrand.id b <> d) l ->
                      new = l)
              | None => new = []
              end)
     /\ (forall k, k <> kb ->
           CarBrandsAdmin.queryClient (snd r) !! k
           = CarBrandsAdmin.queryClient s !! k)
     /\ CarBrandsAdmin.form (snd r) = CarBrandsAdmin.form s
     /\ CarBrandsAdmin.toast (snd r) = CarBrandsAdmin.toast s).
Proof.
  split; intros s r old.
  - split; [done|]. split; [|split; [|done]].
    + eexists. split; [apply categories_onMutate_data|].
      fold old. destruct old as [l|]; [|done].
      split; [done|]. apply (filter_id_spec CategoriesAdmin.Category.id).
    + intros k Hk. subst r. simpl. unfold cancelQueries.
      by apply lookup_setQueryData_ne.
  - split; [done|]. split; [|split; [|done]].
    + eexists. split; [apply brands_onMutate_data|].
      fold old. destruct old as [l|]; [|done].
      split; [done|]. apply (filter_id_spec CarBrandsAdmin.CarBrand.id).
    + intros k Hk. subst r. simpl. unfold cancelQueries.
      by apply lookup_setQueryData_ne.
Qed.

(** ** Rollback of a failed delete *)

Lemma categories_rollback key lang now d t message w :
  getQueryData key
    (CategoriesAdmin.queryClient
       (screen (CategoriesAdmin.handleDelete key lang d now
                  (Rejected t message) w)))
  = match getQueryData key (CategoriesAdmin.queryClient (screen w)) with
    | Some snapshot => Some snapshot
    | None => Some []
    end.
Proof.
  unfold CategoriesAdmin.handleDelete, mutate. simpl. unfold cancelQueries.
  destruct (getQueryData key (CategoriesAdmin.queryClient (screen w)))
    as [snapshot|] eqn:Hold; simpl.
  - by apply getQueryData_setQueryData_eq.
  - apply getQueryData_setQueryData_eq. by rewrite Hold.
Qed.

Lemma brands_rollback key lang now d t message w :
  getQueryData key
    (CarBrandsAdmin.queryClient
       (screen (CarBrandsAdmin.handleDelete key lang d now
                  (Rejected t message) w)))
  = match getQueryData key (CarBrandsAdmin.queryClient (screen w)) with
    | Some snapshot => Some snapshot
    | None => Some []
    end.
Proof.
  unfold CarBrandsAdmin.handleDelete, mutate. simpl. unfold cancelQueries.
  destruct (getQueryData key (CarBrandsAdmin.queryClient (screen w)))
    as [snapshot|] eqn:Hold; simpl.
  - by apply getQueryData_setQueryData_eq.
  - apply getQueryData_setQueryData_eq. by rewrite Hold.
Qed.

(** The handlers alone, on a cache that holds no collection under the key
    (a state in which the screen shows no row, hence no delete button):
    [onMutate] writes the empty list, the snapshot is [undefined], and
    [onError] restores a snapshot only if there is one.  Here: the
    categories screen, nothing cached, the delete of ["c1"] is rejected. *)
Lemma rollback_without_snapshot_leaves_empty_list :
  let key := Sample.categoriesKey in
  let w0 := Sample.emptyCategoriesWorld in
  let w1 :=
    CategoriesAdmin.handleDelete key "en" (lit "c1") 1 (Rejected 2 None) w0 in
  getQueryData key (CategoriesAdmin.queryClient (screen w0)) = None
  /\ getQueryData key (CategoriesAdmin.queryClient (screen w1)) = Some []
  /\ getQueryData key (CategoriesAdmin.queryClient (screen w1))
     <> getQueryData key (CategoriesAdmin.queryClient (screen w0)).
Proof.
  intros key w0 w1.
  assert (H0 : getQueryData key (CategoriesAdmin.queryClient (screen w0))
               = None) by done.
  assert (H1 : getQueryData key (CategoriesAdmin.queryClient (screen w1))
               = Some []).
  { subst w1. rewrite categories_rollback. by rewrite H0. }
  split; [done|]. split; [done|]. rewrite H0, H1. discriminate.
Qed.

(** The rows of a list are those of the cached collection, so a delete is
    asked for with a collection in the cache.  Other entries of the cache
    are not written by a failed delete. *)
Lemma categories_rollback_frame key lang now d t message w k :
  k <> key ->
  CategoriesAdmin.queryClient
    (screen (CategoriesAdmin.handleDelete key lang d now
               (Rejected t message) w)) !! k
  = CategoriesAdmin.queryClient (screen w) !! k.
Proof.
  intros Hk. unfold CategoriesAdmin.handleDelete, mutate. simpl.
  unfold cancelQueries.
  destruct (getQueryData key (CategoriesAdmin.queryClient (screen w)));
    simpl; by rewrite ?lookup_setQueryData_ne.
Qed.

Lemma brands_rollback_frame key lang now d t message w k :
  k <> key ->
  CarBrandsAdmin.queryClient
    (screen (CarBrandsAdmin.handleDelete key lang d now
               (Rejected t message) w)) !! k
  = CarBrandsAdmin.queryClient (screen w) !! k.
Proof.
  intros Hk. unfold CarBrandsAdmin.handleDelete, mutate. simpl.
  unfold cancelQueries.
  destruct (getQueryData key (CarBrandsAdmin.queryClient (screen w)));
    simpl; by rewrite ?lookup_setQueryData_ne.
Qed.

(** A row on the screen comes from a cached collection: the rows are the
    search results over [categoriesData || []]. *)
Lemma category_row_is_cached toLowerCase searchQuery key s c :
  c ∈ AdminLists.filteredCategories toLowerCase searchQuery
        (AdminLists.categories key s) ->
  c ∈ AdminLists.categories key s
  /\ getQueryData key (CategoriesAdmin.queryClient s)
     = Some (AdminLists.categories key s).
Proof.
  intros Hrow.
  assert (Hc : c ∈ AdminLists.categories key s).
  { unfold AdminLists.filteredCategories in Hrow.
    destruct (negb (truthy (trim searchQuery))); [done|].
    by apply list_elem_of_filter in Hrow as [_ ?]. }
  split; [done|]. unfold AdminLists.categories in *.
  destruct (getQueryData key (CategoriesAdmin.queryClient s)); [done|].
  by apply elem_of_nil in Hc.
Qed.

Lemma brand_row_is_cached toLowerCase searchQuery key s b :
  b ∈ AdminLists.filteredBrands toLowerCase searchQuery
        (AdminLists.brands key s) ->
  b ∈ AdminLists.brands key s
  /\ getQueryData key (CarBrandsAdmin.queryClient s)
     = Some (AdminLists.brands key s).
Proof.
  intros Hrow.
  assert (Hb : b ∈ AdminLists.brands key s).
  { unfold AdminLists.filteredBrands in Hrow.
    destruct (negb (truthy (trim searchQuery))); [done|].
    by apply list_elem_of_filter in Hrow as [_ ?]. }
  split; [done|]. unfold AdminLists.brands in *.
  destruct (getQueryData key (CarBrandsAdmin.queryClient s)); [done|].
  by apply elem_of_nil in Hb.
Qed.

(** The rollback of a delete started with a collection in the cache,
    whatever the id. *)
Lemma categories_rollback_cached key lang now d t message w l :
  getQueryData key (CategoriesAdmin.queryClient (screen w)) = Some l ->
  let w' :=
    CategoriesAdmin.handleDelete key lang d now (Rejected t message) w in
  CategoriesAdmin.previousCategories
    (fst (onMutate (CategoriesAdmin.deleteMutation key lang) now d (screen w)))
  = Some l
  /\ getQueryData key (CategoriesAdmin.queryClient (screen w')) = Some l
  /\ CategoriesAdmin.form (screen w') = CategoriesAdmin.form (screen w)
  /\ network w' = network w ++ [CategoriesAdmin.deleteCategory d].
Proof.
  intros Hl w'. split; [exact Hl|]. subst w'.
  rewrite categories_rollback, Hl. split; [done|].
  unfold CategoriesAdmin.handleDelete, mutate. simpl.
  unfold cancelQueries. rewrite Hl. by split.
Qed.

Lemma brands_rollback_cached key lang now d t message w l :
  getQueryData key (CarBrandsAdmin.queryClient (screen w)) = Some l ->
  let w' :=
    CarBrandsAdmin.handleDelete key lang d now (Rejected t message) w in
  CarBrandsAdmin.previousBrands
    (fst (onMutate (CarBrandsAdmin.deleteMutation key lang) now d (screen w)))
  = Some l
  /\ getQueryData key (CarBrandsAdmin.queryClient (screen w')) = Some l
  /\ CarBrandsAdmin.form (screen w') = CarBrandsAdmin.form (screen w)
  /\ network w' = network w ++ [CarBrandsAdmin.deleteCarBrand d].
Proof.
  intros Hl w'. split; [exact Hl|]. subst w'.
  rewrite brands_rollback, Hl. split; [done|].
  unfold CarBrandsAdmin.handleDelete, mutate. simpl.
  unfold cancelQueries. rewrite Hl. by split.
Qed.

(** C1 (rollback of a failed optimistic delete).  On both admin screens,
    for the delete of any row that the list shows, under any search: when
    the remote delete call throws, the collection cached under the
    screen's key is afterwards exactly the snapshot taken before the
    optimistic removal, which is the collection cached before the
    mutation, whatever the times and the error.  So the list is again
    what it was, the row included; the one remote call made is the
    delete; and no other entry of the cache and nothing of the form has
    changed. *)
Theorem failed_delete_restores_the_cache
    (toLowerCase : jsstring -> jsstring) (searchQuery : jsstring)
    (kc kb : QueryKey) (lang : string) (now t : Z)
    (message : option Text)
    (wc : World CategoriesAdmin.State CategoriesAdmin.Call)
    (wb : World CarBrandsAdmin.State CarBrandsAdmin.Call)
    (c : CategoriesAdmin.Category.t) (b : CarBrandsAdmin.CarBrand.t) :
  c ∈ AdminLists.filteredCategories toLowerCase searchQuery
        (AdminLists.categories kc (screen wc)) ->
  b ∈ AdminLists.filteredBrands toLowerCase searchQuery
        (AdminLists.brands kb (screen wb)) ->
  let wc' :=
    CategoriesAdmin.handleDelete kc lang (CategoriesAdmin.Category.id c) now
      (Rejected t message) wc in
  let wb' :=
    CarBrandsAdmin.handleDelete kb lang (CarBrandsAdmin.CarBrand.id b) now
      (Rejected t message) wb in
  (CategoriesAdmin.previousCategories
     (fst (onMutate (CategoriesAdmin.deleteMutation kc lang) now
             (CategoriesAdmin.Category.id c) (screen wc)))
   = getQueryData kc (CategoriesAdmin.queryClient (screen wc))
   /\ getQueryData kc (CategoriesAdmin.queryClient (screen wc'))
      = getQueryData kc (CategoriesAdmin.queryClient (screen wc))
   /\ AdminLists.categories kc (screen wc')
      = AdminLists.categories kc (screen wc)
   /\ c ∈ AdminLists.filteredCategories toLowerCase searchQuery
            (AdminLists.categories kc (screen wc'))
   /\ (forall k, k <> kc ->
         CategoriesAdmin.queryClient (screen wc') !! k
         = CategoriesAdmin.queryClient (screen wc) !! k)
   /\ CategoriesAdmin.form (screen wc') = CategoriesAdmin.form (screen wc)
   /\ network wc'
      = network wc
        ++ [CategoriesAdmin.deleteCategory (CategoriesAdmin.Category.id c)])
  /\
  (CarBrandsAdmin.previousBrands
     (fst (onMutate (CarBrandsAdmin.deleteMutation kb lang) now
             (CarBrandsAdmin.CarBrand.id b) (screen wb)))
   = getQueryData kb (CarBrandsAdmin.queryClient (screen wb))
   /\ getQueryData kb (CarBrandsAdmin.queryClient (screen wb'))
      = getQueryData kb (CarBrandsAdmin.queryClient (screen wb))
   /\ AdminLists.brands kb (screen wb') = AdminLists.brands kb (screen wb)
   /\ b ∈ AdminLists.filteredBrands toLowerCase searchQuery
            (AdminLists.brands kb (screen wb'))
   /\ (forall k, k <> kb ->
         CarBrandsAdmin.queryClient (screen wb') !! k
         = CarBrandsAdmin.queryClient (screen wb) !! k)
   /\ CarBrandsAdmin.form (screen wb') = CarBrandsAdmin.form (screen wb)
   /\ network wb'
      = network wb
        ++ [CarBrandsAdmin.deleteCarBrand (CarBrandsAdmin.CarBrand.id b)]).
Proof.
  intros Hc Hb wc' wb'. split.
  - destruct (category_row_is_cached _ _ _ _ _ Hc) as [_ Hcached].
    destruct (categories_rollback_cached kc lang now
                (CategoriesAdmin.Category.id c) t message wc _ Hcached)
      as (Hsnap & Hback & Hform & Hnet).
    fold wc' in Hback, Hform, Hnet.
    assert (Hrows : AdminLists.categories kc (screen wc')
                    = AdminLists.categories kc (screen wc))
      by (unfold AdminLists.categories at 1; by rewrite Hback).
    split; [by rewrite Hsnap, Hcached|].
    split; [by rewrite Hback, Hcached|].
    split; [exact Hrows|]. split; [by rewrite Hrows|].
    split; [intros k Hk; by apply categories_rollback_frame|].
    by split.
  - destruct (brand_row_is_cached _ _ _ _ _ Hb) as [_ Hcached].
    destruct (brands_rollback_cached kb lang now
                (CarBrandsAdmin.CarBrand.id b) t message wb _ Hcached)
      as (Hsnap & Hback & Hform & Hnet).
    fold wb' in Hback, Hform, Hnet.
    assert (Hrows : AdminLists.brands kb (screen wb')
                    = AdminLists.brands kb (screen wb))
      by (unfold AdminLists.brands at 1; by rewrite Hback).
    split; [by rewrite Hsnap, Hcached|].
    split; [by rewrite Hback, Hcached|].
    split; [exact Hrows|]. split; [by rewrite Hrows|].
    split; [intros k Hk; by apply brands_rollback_frame|].
    by split.
Qed.

Lemma failed_delete_restores_the_cache_witness :
  let wc' :=
    CategoriesAdmin.handleDelete Sample.categoriesKey "en" (lit "c1") 1
      (Rejected 2 None) Sample.categoriesWorld in
  getQueryData Sample.categoriesKey
    (CategoriesAdmin.queryClient (screen Sample.categoriesWorld))
  = Some [Sample.engine; Sample.brakes]
  /\ getQueryData Sample.categoriesKey
       (CategoriesAdmin.queryClient (screen wc'))
     = Some [Sample.engine; Sample.brakes].
Proof.
  intros wc'.
  assert (Hc : Sample.engine
               ∈ AdminLists.filteredCategories id []
                   (AdminLists.categories Sample.categoriesKey
                      (screen Sample.categoriesWorld)))
    by apply list_elem_of_here.
  assert (Hb : Sample.toyota
               ∈ AdminLists.filteredBrands id []
                   (AdminLists.brands Sample.carBrandsKey
                      (screen Sample.carBrandsWorld)))
    by apply list_elem_of_here.
  split; [reflexivity|].
  exact (proj1 (proj2 (proj1
           (failed_delete_restores_the_cache id [] Sample.categoriesKey
              Sample.carBrandsKey "en" 1 2 None
              Sample.categoriesWorld Sample.carBrandsWorld
              Sample.engine Sample.toyota Hc Hb)))).
Defined.

(** ** Invalidation after a mutation *)

(** The optimistic step writes a fresh, valid entry under the key. *)
Lemma categories_onMutate_lookup key lang now d s :
  CategoriesAdmin.queryClient
    (snd (onMutate (CategoriesAdmin.deleteMutation key lang) now d s)) !! key
  = Some (mkQuery
            (Some (match getQueryData key (CategoriesAdmin.queryClient s) with
                   | Some old =>
                       filter (fun c => CategoriesAdmin.Category.id c <> d) old
                   | None => []
                   end)) now false).
Proof. simpl. unfold cancelQueries. by apply lookup_setQueryData_eq. Qed.

Lemma brands_onMutate_lookup key lang now d s :
  CarBrandsAdmin.queryClient
    (snd (onMutate (CarBrandsAdmin.deleteMutation key lang) now d s)) !! key
  = Some (mkQuery
            (Some (match getQueryData key (CarBrandsAdmin.queryClient s) with
                   | Some old =>
                       filter (fun b => CarBrandsAdmin.CarBrand.id b <> d) old
                   | None => []
                   end)) now false).
Proof. simpl. unfold cancelQueries. by apply lookup_setQueryData_eq. Qed.

(** Reading [result.success] off a literal result. *)
Ltac with_success b :=
  cbv zeta;
  change (AdminSync.success (AdminSync.mkResult b _)) with b;
  cbv iota.

(** A delete that resolves: the success handler invalidates exactly when
    the result is not a success. *)
Lemma categories_delete_resolved key lang now t d r w :
  CategoriesAdmin.queryClient
    (screen (CategoriesAdmin.handleDelete key lang d now (Resolved t r) w))
  = let qc := CategoriesAdmin.queryClient
                (snd (onMutate (CategoriesAdmin.deleteMutation key lang)
                        now d (screen w))) in
    if AdminSync.success r then qc else invalidateQueries key qc.
Proof.
  unfold CategoriesAdmin.handleDelete, mutate. simpl.
  by destruct (AdminSync.success r).
Qed.

Lemma brands_delete_resolved key lang now t d r w :
  CarBrandsAdmin.queryClient
    (screen (CarBrandsAdmin.handleDelete key lang d now (Resolved t r) w))
  = let qc := CarBrandsAdmin.queryClient
                (snd (onMutate (CarBrandsAdmin.deleteMutation key lang)
                        now d (screen w))) in
    if AdminSync.success r then qc else invalidateQueries key qc.
Proof.
  unfold CarBrandsAdmin.handleDelete, mutate. simpl.
  by destruct (AdminSync.success r).
Qed.

(** C3, as stated, fails for the delete: a delete that the remote confirms
    leaves the entry valid.  Here: the categories screen with two cached
    categories; the delete of the first resolves with [success: true]. *)
Lemma confirmed_delete_is_not_invalidated :
  let key := Sample.categoriesKey in
  let w0 := Sample.categoriesWorld in
  let w1 :=
    CategoriesAdmin.handleDelete key "en" (lit "c1") 1
      (Resolved 2 (AdminSync.mkResult true None)) w0 in
  network w1 = [CategoriesAdmin.deleteCategory (lit "c1")]
  /\ isInvalidated <$> (CategoriesAdmin.queryClient (screen w1) !! key)
     = Some false
  /\ isInvalidated <$> (CategoriesAdmin.queryClient (screen w1) !! key)
     <> Some true.
Proof.
  intros key w0 w1. split; [done|].
  assert (H : isInvalidated
                <$> (CategoriesAdmin.queryClient (screen w1) !! key)
              = Some false).
  { subst w1. rewrite categories_delete_resolved. with_success true.
    by rewrite categories_onMutate_lookup. }
  split; [done|]. rewrite H. discriminate.
Qed.

(** C3, amended (invalidation after a mutation).  With the collection's
    query mounted on its admin screen:
    - a create or an update that the remote confirms (for the car-brands
      update: that resolves) marks the collection's cache entry
      invalidated and leaves its data as it is, so that the next read
      refetches;
    - a delete that resolves without success marks the entry invalidated
      too;
    - a delete that the remote confirms does not invalidate: the entry
      stays as the optimistic removal wrote it, valid;
    - whatever the outcome: after a delete the entry is invalidated
      exactly when the call resolved without success, so neither a
      confirmed delete nor a delete whose call throws invalidates; after a
      create or an update the entry is the previous one, invalidated
      exactly when the remote confirmed (for the car-brands update: when
      the call resolved), and otherwise untouched. *)
Theorem mutations_invalidate_the_collection
    (kc kb : QueryKey) (lang : string) (ResponseData : Type) (now t : Z)
    (wc : World CategoriesAdmin.State CategoriesAdmin.Call)
    (wb : World CarBrandsAdmin.State CarBrandsAdmin.Call)
    (qc : QueryState (list CategoriesAdmin.Category.t))
    (qb : QueryState (list CarBrandsAdmin.CarBrand.t))
    (Hc : CategoriesAdmin.queryClient (screen wc) !! kc = Some qc)
    (Hb : CarBrandsAdmin.queryClient (screen wb) !! kb = Some qb) :
  (* create and update *)
  (forall data e,
     CategoriesAdmin.queryClient
       (screen (mutate (CategoriesAdmin.createMutation kc lang) data now
                  (Resolved t (AdminSync.mkResult true e)) wc)) !! kc
     = Some (invalidate qc))
  /\ (forall id data e,
       CategoriesAdmin.queryClient
         (screen (mutate (CategoriesAdmin.updateMutation kc lang) (id, data)
                    now (Resolved t (AdminSync.mkResult true e)) wc)) !! kc
       = Some (invalidate qc))
  /\ (forall data e,
       CarBrandsAdmin.queryClient
         (screen (mutate (CarBrandsAdmin.createMutation kb lang) data now
                    (Resolved t (AdminSync.mkResult true e)) wb)) !! kb
       = Some (invalidate qb))
  /\ (forall id data (response : ResponseData),
       CarBrandsAdmin.queryClient
         (screen (mutate (CarBrandsAdmin.updateMutation kb lang ResponseData)
                    (id, data) now (Resolved t response) wb)) !! kb
       = Some (invalidate qb))
  /\ isInvalidated (invalidate qc) = true
  /\ QueryClient.data (invalidate qc) = QueryClient.data qc
  /\ isInvalidated (invalidate qb) = true
  /\ QueryClient.data (invalidate qb) = QueryClient.data qb
  /\ (forall at_ staleTime,
       isStale at_ staleTime (invalidate qc) = true
       /\ isStale at_ staleTime (invalidate qb) = true)
  (* delete *)
  /\ (forall d e,
       let removed :=
         match QueryClient.data qc with
         | Some old => filter (fun c => CategoriesAdmin.Category.id c <> d) old
         | None => []
         end in
       CategoriesAdmin.queryClient
         (screen (CategoriesAdmin.handleDelete kc lang d now
                    (Resolved t (AdminSync.mkResult false e)) wc)) !! kc
       = Some (mkQuery (Some removed) now true)
       /\
       CategoriesAdmin.queryClient
         (screen (CategoriesAdmin.handleDelete kc lang d now
                    (Resolved t (AdminSync.mkResult true e)) wc)) !! kc
       = Some (mkQuery (Some removed) now false))
  /\ (forall d e,
       let removed :=
         match QueryClient.data qb with
         | Some old => filter (fun b => CarBrandsAdmin.CarBrand.id b <> d) old
         | None => []
         end in
       CarBrandsAdmin.queryClient
         (screen (CarBrandsAdmin.handleDelete kb lang d now
                    (Resolved t (AdminSync.mkResult false e)) wb)) !! kb
       = Some (mkQuery (Some removed) now true)
       /\
       CarBrandsAdmin.queryClient
         (screen (CarBrandsAdmin.handleDelete kb lang d now
                    (Resolved t (AdminSync.mkResult true e)) wb)) !! kb
       = Some (mkQuery (Some removed) now false))
  (* every outcome *)
  /\ (forall d outcome,
       isInvalidated
         <$> (CategoriesAdmin.queryClient
                (screen (CategoriesAdmin.handleDelete kc lang d now outcome
                           wc)) !! kc)
       = Some (match outcome with
               | Resolved _ result => negb (AdminSync.success result)
               | Rejected _ _ => false
               end))
  /\ (forall d outcome,
       isInvalidated
         <$> (CarBrandsAdmin.queryClient
                (screen (CarBrandsAdmin.handleDelete kb lang d now outcome
                           wb)) !! kb)
       = Some (match outcome with
               | Resolved _ result => negb (AdminSync.success result)
               | Rejected _ _ => false
               end))
  /\ (forall data outcome,
       CategoriesAdmin.queryClient
         (screen (mutate (CategoriesAdmin.createMutation kc lang) data now
                    outcome wc)) !! kc
       = Some (match outcome with
               | Resolved _ result =>
                   if AdminSync.success result then invalidate qc else qc
               | Rejected _ _ => qc
               end))
  /\ (forall id data outcome,
       CategoriesAdmin.queryClient
         (screen (mutate (CategoriesAdmin.updateMutation kc lang) (id, data)
                    now outcome wc)) !! kc
       = Some (match outcome with
               | Resolved _ result =>
                   if AdminSync.success result then invalidate qc else qc
               | Rejected _ _ => qc
               end))
  /\ (forall data outcome,
       CarBrandsAdmin.queryClient
         (screen (mutate (CarBrandsAdmin.createMutation kb lang) data now
                    outcome wb)) !! kb
       = Some (match outcome with
               | Resolved _ result =>
                   if AdminSync.success result then invalidate qb else qb
               | Rejected _ _ => qb
               end))
  /\ (forall id data (outcome : Settled ResponseData),
       CarBrandsAdmin.queryClient
         (screen (mutate (CarBrandsAdmin.updateMutation kb lang ResponseData)
                    (id, data) now outcome wb)) !! kb
       = Some (match outcome with
               | Resolved _ _ => invalidate qb
               | Rejected _ _ => qb
               end)).
Proof.
  repeat split.
  - intros data e. unfold mutate. simpl.
    by rewrite lookup_invalidateQueries_self, Hc.
  - intros id data e. unfold mutate. simpl.
    by rewrite lookup_invalidateQueries_self, Hc.
  - intros data e. unfold mutate. simpl.
    by rewrite lookup_invalidateQueries_self, Hb.
  - intros id data response. unfold mutate. simpl.
    by rewrite lookup_invalidateQueries_self, Hb.
  - rewrite categories_delete_resolved. with_success false.
    rewrite lookup_invalidateQueries_self.
    rewrite categories_onMutate_lookup.
    by rewrite (getQueryData_lookup _ _ _ Hc).
  - rewrite categories_delete_resolved. with_success true.
    rewrite categories_onMutate_lookup.
    by rewrite (getQueryData_lookup _ _ _ Hc).
  - rewrite brands_delete_resolved. with_success false.
    rewrite lookup_invalidateQueries_self.
    rewrite brands_onMutate_lookup.
    by rewrite (getQueryData_lookup _ _ _ Hb).
  - rewrite brands_delete_resolved. with_success true.
    rewrite brands_onMutate_lookup.
    by rewrite (getQueryData_lookup _ _ _ Hb).
  - intros d [t' r|t' message].
    + rewrite categories_delete_resolved. cbv zeta.
      destruct (AdminSync.success r);
        rewrite ?lookup_invalidateQueries_self;
        by rewrite categories_onMutate_lookup.
    + unfold CategoriesAdmin.handleDelete, mutate. simpl.
      unfold cancelQueries.
      destruct (getQueryData kc (CategoriesAdmin.queryClient (screen wc)));
        simpl; by erewrite lookup_setQueryData_eq.
  - intros d [t' r|t' message].
    + rewrite brands_delete_resolved. cbv zeta.
      destruct (AdminSync.success r);
        rewrite ?lookup_invalidateQueries_self;
        by rewrite brands_onMutate_lookup.
    + unfold CarBrandsAdmin.handleDelete, mutate. simpl.
      unfold cancelQueries.
      destruct (getQueryData kb (CarBrandsAdmin.queryClient (screen wb)));
        simpl; by erewrite lookup_setQueryData_eq.
  - intros data [t' r|t' message]; unfold mutate; simpl; [|done].
    destruct (AdminSync.success r); simpl; [|done].
    by rewrite lookup_invalidateQueries_self, Hc.
  - intros id data [t' r|t' message]; unfold mutate; simpl; [|done].
    destruct (AdminSync.success r); simpl; [|done].
    by rewrite lookup_invalidateQueries_self, Hc.
  - intros data [t' r|t' message]; unfold mutate; simpl; [|done].
    destruct (AdminSync.success r); simpl; [|done].
    by rewrite lookup_invalidateQueries_self, Hb.
  - intros id data [t' r|t' message]; unfold mutate; simpl; [|done].
    by rewrite lookup_invalidateQueries_self, Hb.
Qed.

Lemma mutations_invalidate_the_collection_witness :
  let q := mkQuery (Some [Sample.engine; Sample.brakes]) 0 false in
  CategoriesAdmin.queryClient (screen Sample.categoriesWorld)
    !! Sample.categoriesKey = Some q
  /\ (forall data e,
        CategoriesAdmin.queryClient
          (screen (mutate
                     (CategoriesAdmin.createMutation Sample.categoriesKey "en")
                     data 1 (Resolved 2 (AdminSync.mkResult true e))
                     Sample.categoriesWorld)) !! Sample.categoriesKey
        = Some (invalidate q)).
Proof.
  intros q.
  assert (Hc : CategoriesAdmin.queryClient (screen Sample.categoriesWorld)
                 !! Sample.categoriesKey = Some q) by reflexivity.
  assert (Hb : CarBrandsAdmin.queryClient (screen Sample.carBrandsWorld)
                 !! Sample.carBrandsKey
               = Some (mkQuery (Some [Sample.toyota]) 0 false))
    by reflexivity.
  split; [exact Hc|].
  exact (proj1 (mutations_invalidate_the_collection
                  Sample.categoriesKey Sample.carBrandsKey "en" unit 1 2
                  Sample.categoriesWorld Sample.carBrandsWorld _ _ Hc Hb)).
Defined.

(** ** Saving the form *)

Lemma truthy_false (s : jsstring) : truthy s = false <-> s = [].
Proof. destruct s; simpl; split; congruence. Qed.

Lemma truthy_true (s : jsstring) : truthy s = true <-> s <> [].
Proof. destruct s; simpl; split; congruence. Qed.

Lemma blank_guard (a b : jsstring) :
  negb (truthy (trim a)) || negb (truthy (trim b)) = true
  <-> trim a = [] \/ trim b = [].
Proof.
  rewrite orb_true_iff, !negb_true_iff, !truthy_false. tauto.
Qed.

Lemma categories_handleSave_blank lang s :
  trim (CategoriesAdmin.name (CategoriesAdmin.form s)) = []
  \/ trim (CategoriesAdmin.nameAr (CategoriesAdmin.form s)) = [] ->
  CategoriesAdmin.handleSave lang s
  = (CategoriesAdmin.showToast
       (localized lang "يرجى ملء جميع الحقول المطلوبة"
          "Please fill all required fields")
       Toast.error s, None).
Proof.
  intros H. apply blank_guard in H. unfold CategoriesAdmin.handleSave.
  cbv zeta. by rewrite H.
Qed.

Lemma categories_handleSave_filled lang s :
  let f := CategoriesAdmin.form s in
  trim (CategoriesAdmin.name f) <> [] ->
  trim (CategoriesAdmin.nameAr f) <> [] ->
  CategoriesAdmin.handleSave lang s
  = let data :=
      CategoriesAdmin.CategoryData.mk
        (trim (CategoriesAdmin.name f)) (trim (CategoriesAdmin.nameAr f))
        (CategoriesAdmin.parentId f)
        (orNull (trim (CategoriesAdmin.icon f)))
        (orNull (CategoriesAdmin.categoryImage f)) in
    (s, Some (match CategoriesAdmin.isEditMode f,
                    CategoriesAdmin.editingCategory f with
              | true, Some editing =>
                  CategoriesAdmin.mutateUpdate
                    (CategoriesAdmin.Category.id editing) data
              | _, _ => CategoriesAdmin.mutateCreate data
              end)).
Proof.
  intros f H1 H2. unfold CategoriesAdmin.handleSave. cbv zeta. fold f.
  destruct (negb (truthy (trim (CategoriesAdmin.name f)))
            || negb (truthy (trim (CategoriesAdmin.nameAr f)))) eqn:G.
  - apply blank_guard in G. tauto.
  - destruct (CategoriesAdmin.isEditMode f);
      [destruct (CategoriesAdmin.editingCategory f)|]; reflexivity.
Qed.

Lemma brands_handleSave_blank lang s :
  trim (CarBrandsAdmin.name (CarBrandsAdmin.form s)) = []
  \/ trim (CarBrandsAdmin.nameAr (CarBrandsAdmin.form s)) = [] ->
  CarBrandsAdmin.handleSave lang s
  = (CarBrandsAdmin.showToast
       (localized lang "يرجى إدخال الاسم بالإنجليزية والعربية"
          "Please enter name in both languages")
       Toast.error s, None).
Proof.
  intros H. apply blank_guard in H. unfold CarBrandsAdmin.handleSave.
  cbv zeta. by rewrite H.
Qed.

Lemma brands_handleSave_filled lang s :
  let f := CarBrandsAdmin.form s in
  trim (CarBrandsAdmin.name f) <> [] ->
  trim (CarBrandsAdmin.nameAr f) <> [] ->
  CarBrandsAdmin.handleSave lang s
  = let data :=
      CarBrandsAdmin.BrandData.mk
        (trim (CarBrandsAdmin.name f)) (trim (CarBrandsAdmin.nameAr f))
        (orUndefined (CarBrandsAdmin.logoImage f)) in
    (s, Some (match CarBrandsAdmin.isEditMode f,
                    CarBrandsAdmin.editingBrand f with
              | true, Some editing =>
                  CarBrandsAdmin.mutateUpdate
                    (CarBrandsAdmin.CarBrand.id editing) data
              | _, _ => CarBrandsAdmin.mutateCreate data
              end)).
Proof.
  intros f H1 H2. unfold CarBrandsAdmin.handleSave. cbv zeta. fold f.
  destruct (negb (truthy (trim (CarBrandsAdmin.name f)))
            || negb (truthy (trim (CarBrandsAdmin.nameAr f)))) eqn:G.
  - apply blank_guard in G. tauto.
  - destruct (CarBrandsAdmin.isEditMode f);
      [destruct (CarBrandsAdmin.editingBrand f)|]; reflexivity.
Qed.

Lemma mutate_network {S V R C Call} (m : Options S V R C Call) vars now
    outcome (w : World S Call) :
  network (mutate m vars now outcome w) = network w ++ [mutationFn m vars].
Proof.
  unfold mutate. destruct (onMutate m now vars (screen w)) as [context s1].
  by destruct outcome.
Qed.

(** C9 (the guard of [handleSave]).  On both admin screens: if the English
    or the Arabic name is blank once trimmed, [handleSave] asks for no
    mutation, so pressing save makes no remote call and leaves the query
    client as it was; if both are non-blank it asks for exactly one
    mutation - the update of the category or brand being edited, a create
    otherwise - whose payload carries the trimmed names, and that is the
    one remote call made; and a mutation is asked for only if both names
    are non-blank. *)
Theorem save_needs_both_names
    (kc kb : QueryKey) (lang : string) (ResponseData : Type) (now : Z)
    (sc : CategoriesAdmin.State) (netc : list CategoriesAdmin.Call)
    (oc : Settled AdminSync.Result)
    (sb : CarBrandsAdmin.State) (netb : list CarBrandsAdmin.Call)
    (created : Settled AdminSync.Result) (updated : Settled ResponseData) :
  let fc := CategoriesAdmin.form sc in
  let nc := trim (CategoriesAdmin.name fc) in
  let ac := trim (CategoriesAdmin.nameAr fc) in
  let wc := CategoriesAdmin.pressSave kc lang now oc (mkWorld sc netc) in
  let fb := CarBrandsAdmin.form sb in
  let nb := trim (CarBrandsAdmin.name fb) in
  let ab := trim (CarBrandsAdmin.nameAr fb) in
  let wb :=
    CarBrandsAdmin.pressSave kb lang ResponseData now created updated
      (mkWorld sb netb) in
  ((nc = [] \/ ac = [] ->
      snd (CategoriesAdmin.handleSave lang sc) = None
      /\ network wc = netc
      /\ CategoriesAdmin.queryClient (screen wc)
         = CategoriesAdmin.queryClient sc)
   /\ (nc <> [] -> ac <> [] ->
       exists data,
         CategoriesAdmin.CategoryData.name data = nc
         /\ CategoriesAdmin.CategoryData.name_ar data = ac
         /\ ((exists editing,
                CategoriesAdmin.isEditMode fc = true
                /\ CategoriesAdmin.editingCategory fc = Some editing
                /\ snd (CategoriesAdmin.handleSave lang sc)
                   = Some (CategoriesAdmin.mutateUpdate
                             (CategoriesAdmin.Category.id editing) data)
                /\ network wc
                   = netc ++ [CategoriesAdmin.updateCategory
                                (CategoriesAdmin.Category.id editing) data])
             \/ (snd (CategoriesAdmin.handleSave lang sc)
                 = Some (CategoriesAdmin.mutateCreate data)
                 /\ network wc
                    = netc ++ [CategoriesAdmin.createCategory data])))
   /\ (is_Some (snd (CategoriesAdmin.handleSave lang sc)) ->
       nc <> [] /\ ac <> []))
  /\
  ((nb = [] \/ ab = [] ->
      snd (CarBrandsAdmin.handleSave lang sb) = None
      /\ network wb = netb
      /\ CarBrandsAdmin.queryClient (screen wb)
         = CarBrandsAdmin.queryClient sb)
   /\ (nb <> [] -> ab <> [] ->
       exists data,
         CarBrandsAdmin.BrandData.name data = nb
         /\ CarBrandsAdmin.BrandData.name_ar data = ab
         /\ ((exists editing,
                CarBrandsAdmin.isEditMode fb = true
                /\ CarBrandsAdmin.editingBrand fb = Some editing
                /\ snd (CarBrandsAdmin.handleSave lang sb)
                   = Some (CarBrandsAdmin.mutateUpdate
                             (CarBrandsAdmin.CarBrand.id editing) data)
                /\ network wb
                   = netb ++ [CarBrandsAdmin.carBrandsApi_update
                                (CarBrandsAdmin.CarBrand.id editing) data])
             \/ (snd (CarBrandsAdmin.handleSave lang sb)
                 = Some (CarBrandsAdmin.mutateCreate data)
                 /\ network wb
                    = netb ++ [CarBrandsAdmin.createCarBrand data])))
   /\ (is_Some (snd (CarBrandsAdmin.handleSave lang sb)) ->
       nb <> [] /\ ab <> [])).
Proof.
  intros fc nc ac wc fb nb ab wb. split.
  - assert (Hblank : nc = [] \/ ac = [] ->
              CategoriesAdmin.handleSave lang sc
              = (CategoriesAdmin.showToast
                   (localized lang "يرجى ملء جميع الحقول المطلوبة"
                      "Please fill all required fields")
                   Toast.error sc, None))
      by apply categories_handleSave_blank.
    split; [|split].
    + intros H. specialize (Hblank H). subst wc.
      unfold CategoriesAdmin.pressSave. simpl screen. by rewrite Hblank.
    + intros H1 H2.
      pose proof (categories_handleSave_filled lang sc H1 H2) as E.
      cbv zeta in E. fold fc nc ac in E. eexists. split; [|split].
      3:{ subst wc. unfold CategoriesAdmin.pressSave. simpl screen.
          rewrite E.
          destruct (CategoriesAdmin.isEditMode fc);
            [destruct (CategoriesAdmin.editingCategory fc) as [editing|]|].
          - left. exists editing. repeat split.
            by rewrite mutate_network.
          - right. split; [reflexivity|]. by rewrite mutate_network.
          - right. split; [reflexivity|]. by rewrite mutate_network. }
      all: reflexivity.
    + intros [req Hreq]. split; intros Hn.
      * rewrite Hblank in Hreq by tauto. discriminate.
      * rewrite Hblank in Hreq by tauto. discriminate.
  - assert (Hblank : nb = [] \/ ab = [] ->
              CarBrandsAdmin.handleSave lang sb
              = (CarBrandsAdmin.showToast
                   (localized lang "يرجى إدخال الاسم بالإنجليزية والعربية"
                      "Please enter name in both languages")
                   Toast.error sb, None))
      by apply brands_handleSave_blank.
    split; [|split].
    + intros H. specialize (Hblank H). subst wb.
      unfold CarBrandsAdmin.pressSave. simpl screen. by rewrite Hblank.
    + intros H1 H2.
      pose proof (brands_handleSave_filled lang sb H1 H2) as E.
      cbv zeta in E. fold fb nb ab in E. eexists. split; [|split].
      3:{ subst wb. unfold CarBrandsAdmin.pressSave. simpl screen.
          rewrite E.
          destruct (CarBrandsAdmin.isEditMode fb);
            [destruct (CarBrandsAdmin.editingBrand fb) as [editing|]|].
          - left. exists editing. repeat split.
            by rewrite mutate_network.
          - right. split; [reflexivity|]. by rewrite mutate_network.
          - right. split; [reflexivity|]. by rewrite mutate_network. }
      all: reflexivity.
    + intros [req Hreq]. split; intros Hn.
      * rewrite Hblank in Hreq by tauto. discriminate.
      * rewrite Hblank in Hreq by tauto. discriminate.
Qed.

(** ** Staleness windows *)

Lemma read_fresh {D} (qc : gmap QueryKey (QueryState D)) key q d now window :
  qc !! key = Some q ->
  QueryClient.data q = Some d ->
  isInvalidated q = false ->
  now < dataUpdatedAt q + window ->
  read now window key qc = (Some d, false).
Proof.
  intros Hq Hd Hi Hnow. unfold read, isStale. rewrite Hq, Hd, Hi. simpl.
  f_equal. apply Z.leb_gt. lia.
Qed.

(** C5, as stated, fails on the admin screens: their categories and
    car-brands queries - catalog collections - use the 2 minute window, the
    same as the home screen's products query. *)
Lemma admin_catalog_query_has_the_short_window :
  Queries.volatile
    (Queries.collection (Queries.useHomeScreenQuery Queries.products)) = true
  /\ Queries.catalog (Queries.collection Queries.CategoriesAdmin_useQuery)
     = true
  /\ Queries.staleTime Queries.CategoriesAdmin_useQuery = 120000
  /\ Queries.staleTime (Queries.useHomeScreenQuery Queries.products) = 120000
  /\ ~ (Queries.staleTime (Queries.useHomeScreenQuery Queries.products)
        < Queries.staleTime Queries.CategoriesAdmin_useQuery).
Proof. repeat split; try reflexivity. vm_compute. discriminate. Qed.

(** C5, amended (staleness windows).  Every cached query has a window of 2
    or of 5 minutes.  In the home-screen hook the volatile collections
    (products, favorites) get 2 minutes and the catalog collections
    (categories, car brands, car models, product brands) get 5; the
    categories-tree hook uses 5 minutes; the admin screens read categories
    and car brands with the 2 minute window.  A read within the window of
    an entry that holds data and was not invalidated returns the cached
    data and starts no fetch. *)
Theorem staleness_windows :
  (forall q,
     Queries.staleTime q = Queries.minutes 2
     \/ Queries.staleTime q = Queries.minutes 5)
  /\ (forall q,
        Queries.minutes 2 <= Queries.staleTime q <= Queries.minutes 5)
  /\ (forall c, Queries.volatile c = true ->
        Queries.staleTime (Queries.useHomeScreenQuery c)
        = Queries.minutes 2)
  /\ (forall c, Queries.catalog c = true ->
        Queries.staleTime (Queries.useHomeScreenQuery c)
        = Queries.minutes 5)
  /\ Queries.staleTime Queries.useCategoriesTreeQuery = Queries.minutes 5
  /\ Queries.staleTime Queries.CategoriesAdmin_useQuery = Queries.minutes 2
  /\ Queries.staleTime Queries.CarBrandsAdmin_useQuery = Queries.minutes 2
  /\ (forall (D : Type) (qc : gmap QueryKey (QueryState D)) key q d site now,
        qc !! key = Some q ->
        QueryClient.data q = Some d ->
        isInvalidated q = false ->
        now < dataUpdatedAt q + Queries.staleTime site ->
        read now (Queries.staleTime site) key qc = (Some d, false)).
Proof.
  split; [|split; [|split; [|split; [|repeat split]]]].
  - intros [[]| | |]; vm_compute; tauto.
  - intros [[]| | |]; vm_compute; split; discriminate.
  - intros []; simpl; intros H; try discriminate; reflexivity.
  - intros []; simpl; intros H; try discriminate; reflexivity.
  - intros D qc key q d site now. apply read_fresh.
Qed.

Lemma staleness_windows_witness :
  let qc : gmap QueryKey (QueryState (list CategoriesAdmin.Category.t)) :=
    CategoriesAdmin.queryClient (screen Sample.categoriesWorld) in
  read 119999 (Queries.staleTime Queries.CategoriesAdmin_useQuery)
    Sample.categoriesKey qc
  = (Some [Sample.engine; Sample.brakes], false).
Proof.
  intros qc.
  refine (proj2 (proj2 (proj2 (proj2 (proj2 (proj2 (proj2
            staleness_windows))))))
            _ qc Sample.categoriesKey
            (mkQuery (Some [Sample.engine; Sample.brakes]) 0 false)
            _ Queries.CategoriesAdmin_useQuery 119999 _ _ _ _);
    reflexivity.
Defined.

(** ** Model declarations *)


Lemma table_inj (m1 m2 : Models.Model) :
  Models.table m1 = Models.table m2 -> m1 = m2.
Proof. destruct m1, m2; simpl; intros H; try reflexivity; discriminate H. Qed.

Section EngineFacts.
Variable Fields : Type.
Implicit Types db : SyncEngine.Database Fields.







End EngineFacts.



(** ** The cart: decrementing to zero *)
Section CartFacts.
Import CartTab CartStore.
Implicit Types (cart : list CartItem) (p : jsstring).

Lemma rowOf_cons p x cart :
  rowOf p (x :: cart)
  = if bool_decide (product_id x = p) then Some x else rowOf p cart.
Proof. reflexivity. Qed.

Lemma rowOf_Some p cart item :
  rowOf p cart = Some item -> product_id item = p /\ item ∈ cart.
Proof.
  induction cart as [|x cart IH]; [discriminate|].
  rewrite rowOf_cons. case_bool_decide as Hx.
  - intros [= <-]. split; [done | apply list_elem_of_here].
  - intros H. destruct (IH H) as [? ?].
    split; [done | by apply list_elem_of_further].
Qed.

Lemma rowOf_None p cart :
  rowOf p cart = None <-> Forall (fun item => product_id item <> p) cart.
Proof.
  induction cart as [|x cart IH]; [by split; [constructor|]|].
  rewrite rowOf_cons, Forall_cons. case_bool_decide as Hx.
  - split; [discriminate | tauto].
  - rewrite IH. tauto.
Qed.

Lemma updateQuantity_zero p cart :
  Forall (fun item => product_id item <> p) (updateQuantity p 0 cart).
Proof.
  unfold updateQuantity. simpl. apply Forall_forall.
  intros x Hx. by apply list_elem_of_filter in Hx as [? _].
Qed.

Lemma rowOf_updateQuantity p q cart item :
  q <> 0 ->
  rowOf p cart = Some item ->
  rowOf p (updateQuantity p q cart) = Some (mkItem p q).
Proof.
  intros Hq. unfold updateQuantity.
  rewrite (proj2 (Z.eqb_neq q 0) Hq).
  induction cart as [|x cart IH]; [discriminate|].
  rewrite rowOf_cons. simpl map. rewrite rowOf_cons.
  case_bool_decide as Hx.
  - intros _. simpl. rewrite bool_decide_eq_true_2 by done. by rewrite Hx.
  - intros H. rewrite bool_decide_eq_false_2 by done. by apply IH.
Qed.

Lemma updateQuantity_keeps_nonzero p q cart :
  Forall (fun item => quantity item <> 0) cart ->
  Forall (fun item => quantity item <> 0) (updateQuantity p q cart).
Proof.
  intros H. unfold updateQuantity. destruct (q =? 0) eqn:Hq.
  - apply Forall_forall. intros x Hx.
    apply list_elem_of_filter in Hx as [_ Hx].
    by apply (proj1 (Forall_forall _ _) H).
  - apply Z.eqb_neq in Hq. apply Forall_fmap.
    eapply Forall_impl; [exact H|]. intros x Hx. simpl.
    by case_bool_decide.
Qed.

Lemma decrement_keeps_nonzero p cart :
  Forall (fun item => quantity item <> 0) cart ->
  Forall (fun item => quantity item <> 0) (decrement p cart).
Proof.
  intros H. unfold decrement, pressMinus. destruct (rowOf p cart); [|done].
  by apply updateQuantity_keeps_nonzero.
Qed.

Lemma increment_keeps_nonzero p cart :
  Forall (fun item => quantity item <> 0) cart ->
  Forall (fun item => quantity item <> 0) (increment p cart).
Proof.
  intros H. unfold increment, pressPlus. destruct (rowOf p cart); [|done].
  by apply updateQuantity_keeps_nonzero.
Qed.

(** One press on a row of quantity [q]: the row goes when [q] is 1, and
    shows [q - 1] otherwise. *)
Lemma decrement_step p cart item :
  rowOf p cart = Some item ->
  (quantity item = 1 ->
   Forall (fun item => product_id item <> p) (decrement p cart))
  /\ (quantity item <> 1 ->
      rowOf p (decrement p cart) = Some (mkItem p (quantity item - 1))).
Proof.
  intros Hrow. unfold decrement, pressMinus. rewrite Hrow.
  destruct (rowOf_Some _ _ _ Hrow) as [Hp _]. rewrite Hp. split.
  - intros ->. apply updateQuantity_zero.
  - intros Hq. eapply rowOf_updateQuantity; [lia | done].
Qed.

Lemma decrement_iter_below p (k : nat) : forall cart item (m : nat),
  rowOf p cart = Some item ->
  quantity item = Z.of_nat m ->
  (k < m)%nat ->
  exists item',
    rowOf p (Nat.iter k (decrement p) cart) = Some item'
    /\ quantity item' = Z.of_nat (m - k).
Proof.
  induction k as [|k IH]; intros cart item m Hrow Hq Hk.
  - exists item. simpl. split; [done|]. rewrite Hq. f_equal. lia.
  - rewrite Nat.iter_succ_r.
    destruct (decrement_step p cart item Hrow) as [_ Hstep].
    destruct (IH (decrement p cart) (mkItem p (quantity item - 1))
                (m - 1)%nat) as [item' [H1 H2]].
    + apply Hstep. lia.
    + simpl. lia.
    + lia.
    + exists item'. split; [done|]. rewrite H2. f_equal. lia.
Qed.

Lemma decrement_iter_zero p (n : nat) : forall cart item,
  rowOf p cart = Some item ->
  quantity item = Z.of_nat (S n) ->
  Forall (fun item => product_id item <> p)
    (Nat.iter (S n) (decrement p) cart).
Proof.
  induction n as [|n IH]; intros cart item Hrow Hq.
  - simpl. by apply (decrement_step p cart item Hrow).
  - rewrite Nat.iter_succ_r.
    destruct (decrement_step p cart item Hrow) as [_ Hstep].
    apply (IH _ (mkItem p (quantity item - 1))).
    + apply Hstep. lia.
    + simpl. lia.
Qed.

End CartFacts.

(** C6 (a cart item decremented to zero is removed).  With the cart
    handlers of the data model: a row of quantity [n >= 1] that gets [n]
    presses of its minus button is gone from the cart - no record of the
    product is left, at quantity 0 or otherwise; before the last press it is
    still there with the remaining quantity; and no sequence of presses
    leaves a record of quantity 0 in a cart that had none. *)
Theorem decrement_to_zero_removes_the_item
    (p : jsstring) (cart : list CartTab.CartItem) (item : CartTab.CartItem)
    (n : nat) :
  CartStore.rowOf p cart = Some item ->
  CartTab.quantity item = Z.of_nat n ->
  (0 < n)%nat ->
  let cart' := Nat.iter n (CartStore.decrement p) cart in
  CartStore.rowOf p cart' = None
  /\ Forall (fun item => CartTab.product_id item <> p) cart'
  /\ (forall k, (k < n)%nat ->
        exists item',
          CartStore.rowOf p (Nat.iter k (CartStore.decrement p) cart)
          = Some item'
          /\ CartTab.quantity item' = Z.of_nat (n - k))
  /\ (Forall (fun item => CartTab.quantity item <> 0) cart ->
      forall k,
        Forall (fun item => CartTab.quantity item <> 0)
          (Nat.iter k (CartStore.decrement p) cart)).
Proof.
  intros Hrow Hq Hn cart'.
  assert (Hgone : Forall (fun item => CartTab.product_id item <> p) cart').
  { subst cart'. destruct n as [|n]; [lia|].
    by apply (decrement_iter_zero p n cart item). }
  split; [by apply rowOf_None|]. split; [done|]. split.
  - intros k Hk. by apply (decrement_iter_below p k cart item n).
  - intros Hinv k. induction k as [|k IH]; [done|].
    simpl. by apply decrement_keeps_nonzero.
Qed.

Lemma decrement_to_zero_removes_the_item_witness :
  CartStore.rowOf (lit "p1") Sample.cart
  = Some (CartTab.mkItem (lit "p1") 2)
  /\ CartStore.rowOf (lit "p1")
       (Nat.iter 2 (CartStore.decrement (lit "p1")) Sample.cart) = None.
Proof.
  split; [reflexivity|].
  refine (proj1 (decrement_to_zero_removes_the_item (lit "p1") Sample.cart
                   (CartTab.mkItem (lit "p1") 2) 2 _ _ _));
    [reflexivity | reflexivity | lia].
Defined.

Lemma save_needs_both_names_witness :
  let thm :=
    save_needs_both_names Sample.categoriesKey Sample.carBrandsKey "en" unit 1
  in
  let confirmed := Resolved 2 (AdminSync.mkResult true None) in
  (* a blank English name: nothing is sent *)
  (trim (CategoriesAdmin.name (CategoriesAdmin.form Sample.blankForm)) = []
   /\ network
        (CategoriesAdmin.pressSave Sample.categoriesKey "en" 1 confirmed
           (mkWorld Sample.blankForm [])) = [])
  (* both names filled in: one create, with the trimmed English name *)
  /\ (exists data,
        CategoriesAdmin.CategoryData.name data = lit "Engine"
        /\ network
             (CategoriesAdmin.pressSave Sample.categoriesKey "en" 1 confirmed
                (mkWorld Sample.filledForm []))
           = [CategoriesAdmin.createCategory data]).
Proof.
  intros thm confirmed. split.
  - split; [reflexivity|].
    refine (proj1 (proj2 (proj1 (proj1
              (thm Sample.blankForm [] confirmed
                 (screen Sample.carBrandsWorld) [] confirmed (Resolved 2 tt)))
              _))).
    left. reflexivity.
  - destruct (proj1 (proj2 (proj1
                (thm Sample.filledForm [] confirmed
                   (screen Sample.carBrandsWorld) [] confirmed
                   (Resolved 2 tt))))
                ltac:(discriminate) ltac:(discriminate))
      as [data [Hname [_ [[editing [Hedit _]] | [_ Hnet]]]]].
    + discriminate Hedit.
    + exists data. split; [exact Hname | exact Hnet].
Defined.

(** ** The parsing getters *)
Section GetterFacts.
Import JSON Models.
Variable JSON_parse : jsstring -> Completion Value.
(** The empty string is not a JSON text. *)
Hypothesis JSON_parse_empty : exists message, JSON_parse [] = Throw message.

Lemma parsedOrEmpty_spec (column : option jsstring) :
  exists v,
    parsedOrEmpty JSON_parse column = Normal v
    /\ (column = None -> v = JArray [])
    /\ (forall s message,
          column = Some s -> JSON_parse s = Throw message -> v = JArray [])
    /\ (forall s parsed,
          column = Some s -> JSON_parse s = Normal parsed -> v = parsed).
Proof.
  unfold parsedOrEmpty. destruct column as [s|].
  - destruct s as [|c s].
    + exists (JArray []). simpl. repeat split; try done.
      intros s parsed [= <-] Hp. destruct JSON_parse_empty as [m Hm].
      congruence.
    + simpl. destruct (JSON_parse (c :: s)) as [v|m] eqn:Hp.
      * exists v. simpl. repeat split; try done.
        -- intros s' m [= <-]. congruence.
        -- intros s' parsed [= <-]. congruence.
      * exists (JArray []). simpl. repeat split; try done.
        intros s' parsed [= <-]. congruence.
  - exists (JArray []). simpl. repeat split; done.
Qed.

End GetterFacts.

(** C8, as stated, fails on a column that holds valid JSON which is not an
    array: the getter returns what [JSON.parse] yields, and that is no
    array.  Here: [null] in the images column, [0] in the variants column
    and [{}] in the column of the car model ids. *)
Lemma getter_returns_a_value_that_is_no_array :
  Models.imagesParsed JSON.parse
    (Models.mkProductRow (Some (lit "null")) None)
  = JSON.Normal JSON.JNull
  /\ Models.variantsParsed JSON.parse (Models.mkCarModelRow (Some (lit "0")))
     = JSON.Normal (JSON.JNumber (JSON.DZero false))
  /\ Models.carModelIdsParsed JSON.parse
       (Models.mkProductRow None (Some (lit "{}")))
     = JSON.Normal (JSON.JObject [])
  /\ (forall elements,
        JSON.JNull <> JSON.JArray elements
        /\ JSON.JNumber (JSON.DZero false) <> JSON.JArray elements
        /\ JSON.JObject [] <> JSON.JArray elements).
Proof. repeat split; try reflexivity; discriminate. Qed.

(** C8, amended (the parsing getters are total).  Whatever the stored
    string, and for any [JSON.parse] that rejects the empty string, the
    getters [variantsParsed], [imagesParsed] and [carModelIdsParsed]
    return normally: the value parsed, array or not, when the column
    holds valid JSON, and the empty array when the column is null, empty
    or does not parse. *)
Theorem parsing_getters_are_total
    (JSON_parse : jsstring -> JSON.Completion JSON.Value)
    (JSON_parse_empty : exists message, JSON_parse [] = JSON.Throw message)
    (carModel : Models.CarModelRow) (product : Models.ProductRow) :
  (exists v,
     Models.variantsParsed JSON_parse carModel = JSON.Normal v
     /\ (Models.variants carModel = None -> v = JSON.JArray [])
     /\ (forall s message,
           Models.variants carModel = Some s ->
           JSON_parse s = JSON.Throw message -> v = JSON.JArray [])
     /\ (forall s parsed,
           Models.variants carModel = Some s ->
           JSON_parse s = JSON.Normal parsed -> v = parsed))
  /\ (exists v,
        Models.imagesParsed JSON_parse product = JSON.Normal v
        /\ (Models.images product = None -> v = JSON.JArray [])
        /\ (forall s message,
              Models.images product = Some s ->
              JSON_parse s = JSON.Throw message -> v = JSON.JArray [])
        /\ (forall s parsed,
              Models.images product = Some s ->
              JSON_parse s = JSON.Normal parsed -> v = parsed))
  /\ (exists v,
        Models.carModelIdsParsed JSON_parse product = JSON.Normal v
        /\ (Models.carModelIds product = None -> v = JSON.JArray [])
        /\ (forall s message,
              Models.carModelIds product = Some s ->
              JSON_parse s = JSON.Throw message -> v = JSON.JArray [])
        /\ (forall s parsed,
              Models.carModelIds product = Some s ->
              JSON_parse s = JSON.Normal parsed -> v = parsed)).
Proof.
  split; [|split].
  - apply (parsedOrEmpty_spec JSON_parse JSON_parse_empty
             (Models.variants carModel)).
  - apply (parsedOrEmpty_spec JSON_parse JSON_parse_empty
             (Models.images product)).
  - apply (parsedOrEmpty_spec JSON_parse JSON_parse_empty
             (Models.carModelIds product)).
Qed.

Lemma parsing_getters_are_total_witness :
  (exists message, JSON.parse [] = JSON.Throw message)
  /\ Models.imagesParsed JSON.parse Sample.product
     = JSON.Normal (JSON.JArray [JSON.JString (lit "a.png")])
  /\ Models.carModelIdsParsed JSON.parse Sample.product
     = JSON.Normal (JSON.JArray []).
Proof.
  assert (He : exists message, JSON.parse [] = JSON.Throw message)
    by (eexists; reflexivity).
  split; [exact He|].
  destruct (parsing_getters_are_total JSON.parse He
              (Models.mkCarModelRow None) Sample.product)
    as [_ [[v [Hv [_ [_ Hparsed]]]] [w [Hw [Hnull _]]]]].
  split.
  - rewrite Hv. f_equal. by apply (Hparsed Sample.imagesText).
  - rewrite Hw. f_equal. by apply Hnull.
Defined.

(** ** The order total *)

(** C10 (order total).  For every non-empty cart the footer of the cart tab
    shows the order summary, and the total it displays is the formatted
    [getSubtotal() + 150]: it depends on the subtotal alone, not on the
    items, the savings, the original total or the item count. *)
Theorem order_total_is_subtotal_plus_shipping
    (number : Type) (add : number -> number -> number)
    (gt : number -> number -> bool) (fromZ : Z -> number)
    (toFixed0 : number -> Text) (p : CartTab.Props number) :
  CartTab.safeCartItems number p <> [] ->
  (exists summary,
     CartTab.ListFooterComponent number add gt fromZ toFixed0 p
     = Some summary
     /\ CartTab.totalRow summary
        = (toFixed0 (add (CartTab.getSubtotal number p tt) (fromZ 150))
           ++ CartTab.EGP)%string)
  /\ (forall p' : CartTab.Props number,
        CartTab.safeCartItems number p' <> [] ->
        CartTab.getSubtotal number p' tt = CartTab.getSubtotal number p tt ->
        CartTab.totalRow
          <$> CartTab.ListFooterComponent number add gt fromZ toFixed0 p'
        = CartTab.totalRow
          <$> CartTab.ListFooterComponent number add gt fromZ toFixed0 p).
Proof.
  assert (Hshown : forall q : CartTab.Props number,
            CartTab.safeCartItems number q <> [] ->
            CartTab.ListFooterComponent number add gt fromZ toFixed0 q
            = Some (CartTab.OrderSummary number add gt fromZ toFixed0 q)).
  { intros q Hq. unfold CartTab.ListFooterComponent.
    destruct (CartTab.safeCartItems number q); [done|].
    reflexivity. }
  intros Hp. split.
  - eexists. split; [by apply Hshown | reflexivity].
  - intros p' Hp' Hsub. rewrite !Hshown by done. simpl. by rewrite Hsub.
Qed.

Lemma order_total_is_subtotal_plus_shipping_witness :
  CartTab.safeCartItems Z Sample.props <> []
  /\ CartTab.totalRow
       <$> CartTab.ListFooterComponent Z Z.add Z.gtb id pretty Sample.props
     = Some "1350 ج.م"%string.
Proof.
  assert (H : CartTab.safeCartItems Z Sample.props <> []) by discriminate.
  split; [exact H|].
  destruct (proj1 (order_total_is_subtotal_plus_shipping Z Z.add Z.gtb id
                     pretty Sample.props H)) as [summary [E1 E2]].
  rewrite E1. simpl. rewrite E2. reflexivity.
Defined.

(** ** Conflicts in a pull *)

(** C4, as stated, fails for a dirty record with a failed pending
    operation: it is kept although the incoming remote record is strictly
    newer.  Here: the local record was written at 10 and its push has
    failed for good; the remote record of the same [serverId] is from
    11. *)
Lemma failed_record_is_not_overwritten :
  Sample.failedStore !! lit "cat-42" = Some Sample.failedLocal
  /\ PullReconciler.serverId string Sample.remoteNewer = lit "cat-42"
  /\ PullReconciler.dirty string Sample.failedLocal = true
  /\ PullReconciler.updatedAt string
       (PullReconciler.record string Sample.failedLocal)
     < PullReconciler.updatedAt string Sample.remoteNewer
  /\ PullReconciler.reconcile string Sample.failedStore Sample.remoteNewer
       !! lit "cat-42"
     = Some Sample.failedLocal
  /\ Sample.failedLocal <> PullReconciler.clean string Sample.remoteNewer.
Proof. repeat split; try reflexivity; discriminate. Qed.

(** C4, amended (conflict rule of the pull).  For a dirty local record
    and an incoming remote record with the same [serverId], whatever their
    [updatedAt]: if the local record has no failed pending operation, the
    reconciler keeps the remote record when it is strictly newer, and the
    local dirty copy when the local one is strictly newer or the two
    timestamps are equal; if the local record has a failed pending
    operation, the local copy is kept whatever the timestamps.  No other
    record is touched, and the record that is kept is the local or the
    remote one. *)
Theorem dirty_conflict_keeps_the_strictly_newer
    (Fields : Type) (store : gmap jsstring (PullReconciler.Local Fields))
    (local : PullReconciler.Local Fields)
    (remote : PullReconciler.Entity Fields) :
  store !! PullReconciler.serverId Fields remote = Some local ->
  PullReconciler.dirty Fields local = true ->
  let local_at :=
    PullReconciler.updatedAt Fields (PullReconciler.record Fields local) in
  let remote_at := PullReconciler.updatedAt Fields remote in
  let kept :=
    PullReconciler.reconcile Fields store remote
      !! PullReconciler.serverId Fields remote in
  (PullReconciler.failed Fields local = false ->
     (local_at < remote_at ->
        kept = Some (PullReconciler.clean Fields remote))
     /\ (remote_at < local_at -> kept = Some local)
     /\ (remote_at = local_at -> kept = Some local))
  /\ (PullReconciler.failed Fields local = true -> kept = Some local)
  /\ (kept = Some local
      \/ kept = Some (PullReconciler.clean Fields remote))
  /\ (forall k, k <> PullReconciler.serverId Fields remote ->
        PullReconciler.reconcile Fields store remote !! k = store !! k).
Proof.
  intros Hlocal Hdirty local_at remote_at kept.
  subst kept. unfold PullReconciler.reconcile. rewrite Hlocal, Hdirty.
  fold local_at remote_at.
  destruct (PullReconciler.failed Fields local) eqn:Hfailed.
  { repeat split; intros; try done. by left. }
  destruct (local_at <? remote_at) eqn:Hcmp.
  - apply Z.ltb_lt in Hcmp. rewrite lookup_insert_eq.
    repeat split; intros; try lia; try done.
    + by right.
    + by apply lookup_insert_ne.
  - apply Z.ltb_ge in Hcmp.
    repeat split; intros; try lia; try done. by left.
Qed.

Lemma dirty_conflict_keeps_the_strictly_newer_witness :
  Sample.store !! lit "cat-42" = Some Sample.dirtyLocal
  /\ PullReconciler.reconcile string Sample.store Sample.remoteNewer
       !! lit "cat-42"
     = Some (PullReconciler.clean string Sample.remoteNewer).
Proof.
  assert (H : Sample.store !! lit "cat-42" = Some Sample.dirtyLocal)
    by reflexivity.
  split; [exact H|].
  refine (proj1 (proj1 (dirty_conflict_keeps_the_strictly_newer string
                          Sample.store Sample.dirtyLocal Sample.remoteNewer
                          H eq_refl) eq_refl) _).
  reflexivity.
Defined.

(** * Further properties of the sources *)

(** ** String tests *)

Lemma startsWith_spec (prefix s : jsstring) :
  startsWith prefix s = true <-> exists rest, s = prefix ++ rest.
Proof.
  revert s. induction prefix as [|p prefix IH]; intros s; simpl.
  - split; [by exists s | done].
  - destruct s as [|c s].
    + split; [discriminate | by intros [rest ?]].
    + rewrite andb_true_iff, N.eqb_eq, IH. split.
      * intros [-> [rest ->]]. by exists rest.
      * intros [rest [= -> ->]]. split; [done | by exists rest].
Qed.

Lemma startsWith_app (prefix rest : jsstring) :
  startsWith prefix (prefix ++ rest) = true.
Proof. apply startsWith_spec. by exists rest. Qed.

Lemma includes_spec (hay needle : jsstring) :
  includes hay needle = true
  <-> exists before after, hay = before ++ needle ++ after.
Proof.
  induction hay as [|c hay IH]; simpl.
  - rewrite orb_false_r, startsWith_spec. split.
    + intros [rest ->]. by exists [], rest.
    + intros [before [after H]]. symmetry in H.
      apply app_eq_nil in H as [-> H]. by exists after.
  - rewrite orb_true_iff, startsWith_spec, IH. split.
    + intros [[rest ->] | [before [after ->]]].
      * by exists [], rest.
      * by exists (c :: before), after.
    + intros [[|b before] [after H]].
      * left. by exists after.
      * right. injection H as -> ->. by exists before, after.
Qed.

Lemma replaceAtStart_same (pattern s : jsstring) :
  replaceAtStart pattern pattern s = s.
Proof.
  unfold replaceAtStart. destruct (startsWith pattern s) eqn:H; [|done].
  apply startsWith_spec in H as [rest ->].
  by rewrite drop_app_length.
Qed.

(** ** Metro: the resolver override *)

(** X1.  The custom [resolveRequest] of the Metro configuration resolves
    every module name, on every platform, exactly as the default resolver
    does: for [zustand] and [zustand/...] it rewrites the leading
    [zustand] to [zustand], which is the name it was given. *)
Theorem metro_resolveRequest_is_the_default
    {Platform Resolution : Type}
    (context_resolveRequest : jsstring -> Platform -> Resolution)
    (moduleName : jsstring) (platform : Platform) :
  MetroConfig.resolveRequest context_resolveRequest moduleName platform
  = context_resolveRequest moduleName platform.
Proof.
  unfold MetroConfig.resolveRequest.
  destruct (bool_decide (moduleName = lit "zustand")
            || startsWith (lit "zustand/") moduleName); [|done].
  cbv zeta. by rewrite replaceAtStart_same.
Qed.

(** ** Search on the admin lists *)
Section SearchFacts.
Variable toLowerCase : jsstring -> jsstring.

Lemma filteredCategories_blank q l :
  trim q = [] -> AdminLists.filteredCategories toLowerCase q l = l.
Proof.
  intros H. unfold AdminLists.filteredCategories. by rewrite H.
Qed.

Lemma filteredCategories_query q l :
  trim q <> [] ->
  AdminLists.filteredCategories toLowerCase q l
  = filter
      (fun c => AdminLists.categoryMatches toLowerCase (toLowerCase q) c
                = true) l.
Proof.
  intros H. unfold AdminLists.filteredCategories.
  destruct (trim q); [done|]. reflexivity.
Qed.

Lemma filteredBrands_blank q l :
  trim q = [] -> AdminLists.filteredBrands toLowerCase q l = l.
Proof.
  intros H. unfold AdminLists.filteredBrands. by rewrite H.
Qed.

Lemma filteredBrands_query q l :
  trim q <> [] ->
  AdminLists.filteredBrands toLowerCase q l
  = filter
      (fun b => AdminLists.brandMatches toLowerCase (toLowerCase q) b = true)
      l.
Proof.
  intros H. unfold AdminLists.filteredBrands.
  destruct (trim q); [done|]. reflexivity.
Qed.

Lemma strOr_empty (s : jsstring) : strOr s [] = s.
Proof. by destruct s. Qed.

Lemma filter_twice {A} (P : A -> Prop) `{!forall x, Decision (P x)}
    (l : list A) :
  filter P (filter P l) = filter P l.
Proof.
  induction l as [|x l IH]; [done|].
  destruct (decide (P x)) as [Hx|Hx].
  - rewrite (filter_cons_True _ _ _ Hx), (filter_cons_True _ _ _ Hx).
    by rewrite IH.
  - by rewrite (filter_cons_False _ _ _ Hx).
Qed.

End SearchFacts.

(** X2.  The search box of the two admin lists.  A query that is blank
    once trimmed shows the whole list.  Any other query is lower-cased as
    typed - not trimmed - and keeps, in their order, exactly the rows whose
    lower-cased English or Arabic name contains it; searching the result
    again with the same query changes nothing. *)
Theorem admin_search_filters_by_name
    (toLowerCase : jsstring -> jsstring) (q : jsstring)
    (categories : list CategoriesAdmin.Category.t)
    (brands : list CarBrandsAdmin.CarBrand.t) :
  let shownC := AdminLists.filteredCategories toLowerCase q categories in
  let shownB := AdminLists.filteredBrands toLowerCase q brands in
  let contains (name : jsstring) :=
    exists before after,
      toLowerCase name = before ++ toLowerCase q ++ after in
  (trim q = [] -> shownC = categories /\ shownB = brands)
  /\ shownC `sublist_of` categories
  /\ shownB `sublist_of` brands
  /\ (trim q <> [] ->
      (forall c, c ∈ shownC <->
         c ∈ categories
         /\ (contains (CategoriesAdmin.Category.name c)
             \/ contains (CategoriesAdmin.Category.name_ar c)))
      /\ (forall b, b ∈ shownB <->
            b ∈ brands
            /\ (contains (CarBrandsAdmin.CarBrand.name b)
                \/ contains (CarBrandsAdmin.CarBrand.name_ar b))))
  /\ AdminLists.filteredCategories toLowerCase q shownC = shownC
  /\ AdminLists.filteredBrands toLowerCase q shownB = shownB.
Proof.
  intros shownC shownB contains. subst shownC shownB.
  destruct (decide (trim q = [])) as [Hq|Hq].
  - rewrite !filteredCategories_blank, !filteredBrands_blank by done.
    repeat split; try done.
  - rewrite !filteredCategories_query, !filteredBrands_query by done.
    split; [done|]. split; [apply sublist_filter|].
    split; [apply sublist_filter|]. split; [|split; apply filter_twice].
    intros _. split.
    + intros c. rewrite list_elem_of_filter.
      unfold AdminLists.categoryMatches. cbv zeta.
      rewrite !strOr_empty, orb_true_iff, !includes_spec. tauto.
    + intros b. rewrite list_elem_of_filter.
      unfold AdminLists.brandMatches. cbv zeta.
      rewrite !strOr_empty, orb_true_iff, !includes_spec. tauto.
Qed.

(** ** App version display *)

(** X3.  The tap counter of the version display, started below 5: after
    [n] taps it stands at [(start + n) mod 5] and [(start + n) / 5] alerts
    have been shown.  So from 0 the alert comes on every fifth tap, and
    the counter never reaches 5. *)
Theorem taps_alert_every_fifth
    (language : string) (appVersion buildId timestamp platform : jsstring)
    (n : nat) (start : N) :
  (start < 5)%N ->
  let '(count, shown) :=
    AppVersionInfo.taps language appVersion buildId timestamp platform
      n start in
  count = ((start + N.of_nat n) mod 5)%N
  /\ N.of_nat shown = ((start + N.of_nat n) / 5)%N
  /\ (count < 5)%N.
Proof.
  revert start. induction n as [|n IH]; intros start Hstart.
  - simpl. rewrite N.add_0_r.
    rewrite N.mod_small, N.div_small by done. by repeat split.
  - simpl. unfold AppVersionInfo.handleTap.
    destruct (5 <=? start + 1)%N eqn:Hfive.
    + apply N.leb_le in Hfive. assert (start = 4%N) as -> by lia.
      specialize (IH 0%N ltac:(lia)).
      destruct (AppVersionInfo.taps _ _ _ _ _ n 0%N) as [count shown].
      rewrite N.add_0_l in IH. destruct IH as (-> & Hshown & Hlt).
      replace (4 + N.of_nat (S n))%N with (N.of_nat n + 1 * 5)%N by lia.
      rewrite N.Div0.mod_add, N.div_add by done.
      split; [done|]. split; [lia | done].
    + apply N.leb_gt in Hfive.
      specialize (IH (start + 1)%N ltac:(lia)).
      destruct (AppVersionInfo.taps _ _ _ _ _ n (start + 1)%N)
        as [count shown].
      destruct IH as (-> & Hshown & Hlt).
      replace (start + N.of_nat (S n))%N
        with (start + 1 + N.of_nat n)%N by lia.
      by repeat split.
Qed.

Lemma taps_alert_every_fifth_witness :
  AppVersionInfo.taps "en" (lit "1.0.0") (lit "20250701.0930") [] (lit "ios")
    12 0
  = (2%N, 2%nat).
Proof.
  pose proof (taps_alert_every_fifth "en" (lit "1.0.0")
                (lit "20250701.0930") [] (lit "ios") 12 0 ltac:(done)) as H.
  destruct (AppVersionInfo.taps _ _ _ _ _ 12 0) as [count shown].
  destruct H as (-> & Hshown & _).
  f_equal. apply Nat2N.inj. rewrite Hshown. reflexivity.
Defined.

(** Checking a property of the numbers below a bound by running it. *)
Lemma below_by_running (P : N -> bool) (bound : nat) :
  forallb P (map N.of_nat (seq 0 bound)) = true ->
  forall n, (n < N.of_nat bound)%N -> P n = true.
Proof.
  intros H n Hn. rewrite forallb_forall in H. apply H.
  apply in_map_iff. exists (N.to_nat n). split; [lia|].
  apply in_seq. lia.
Qed.

Lemma unitsOfUint_inj (a b : Decimal.uint) :
  unitsOfUint a = unitsOfUint b -> a = b.
Proof.
  revert b. induction a; intros []; simpl; try discriminate;
    try done; intros [= H]; f_equal; by apply IHa.
Qed.

Lemma toDecimal_inj (a b : N) : toDecimal a = toDecimal b -> a = b.
Proof.
  intros H. apply unitsOfUint_inj in H.
  rewrite <- (DecimalN.Unsigned.of_to a), <- (DecimalN.Unsigned.of_to b).
  by rewrite H.
Qed.

Lemma toDecimal_digits (n : N) : Forall (fun c => JSON.isDigit c = true)
                                   (toDecimal n).
Proof.
  unfold toDecimal. induction (N.to_uint n); simpl; constructor; done.
Qed.

Lemma pad2_shape (n : N) :
  (n < 100)%N ->
  length (AppVersionInfo.pad2 n) = 2%nat
  /\ Forall (fun c => JSON.isDigit c = true) (AppVersionInfo.pad2 n).
Proof.
  intros Hn.
  pose proof (below_by_running
    (fun n => Nat.eqb (length (AppVersionInfo.pad2 n)) 2
              && forallb JSON.isDigit (AppVersionInfo.pad2 n)) 100
    ltac:(vm_compute; reflexivity) n Hn) as H.
  apply andb_true_iff in H as [Hlen Hdig].
  split; [by apply Nat.eqb_eq|].
  apply Forall_forall. intros c Hc. rewrite forallb_forall in Hdig.
  apply Hdig. by apply list_elem_of_In.
Qed.

Lemma pad2_length (n : N) :
  (n < 100)%N -> length (AppVersionInfo.pad2 n) = 2%nat.
Proof. intros Hn. by apply pad2_shape. Qed.

Lemma pad2_inj (a b : N) :
  (a < 100)%N -> (b < 100)%N ->
  AppVersionInfo.pad2 a = AppVersionInfo.pad2 b -> a = b.
Proof.
  intros Ha Hb H.
  set (same := fun a b : N =>
         implb (bool_decide (AppVersionInfo.pad2 a = AppVersionInfo.pad2 b))
           (a =? b)%N).
  assert (Hrun : forallb
                   (fun a => forallb (same a) (map N.of_nat (seq 0 100)))
                   (map N.of_nat (seq 0 100)) = true)
    by (vm_compute; reflexivity).
  pose proof (below_by_running _ 100 Hrun a Ha) as Hall.
  pose proof (below_by_running _ 100 Hall b Hb) as Hab. unfold same in Hab.
  rewrite bool_decide_eq_true_2 in Hab by done. by apply N.eqb_eq.
Qed.

Lemma year_has_four_digits (y : N) :
  (1000 <= y <= 9999)%N -> length (toDecimal y) = 4%nat.
Proof.
  intros Hy.
  assert (Hrun : forallb
                   (fun y => (y <? 1000)%N
                             || Nat.eqb (length (toDecimal y)) 4)
                   (map N.of_nat (seq 0 (N.to_nat 10000))) = true)
    by (vm_compute; reflexivity).
  pose proof (below_by_running _ _ Hrun y) as H.
  rewrite N2Nat.id in H. specialize (H ltac:(lia)).
  apply orb_true_iff in H as [H|H].
  - apply N.ltb_lt in H. lia.
  - by apply Nat.eqb_eq.
Qed.

(** The build identifier is the year followed by nine more characters. *)
Lemma getBuildId_tail (d : AppVersionInfo.Date) :
  (AppVersionInfo.getMonth d < 12)%N ->
  (AppVersionInfo.getDate d <= 31)%N ->
  (AppVersionInfo.getHours d < 24)%N ->
  (AppVersionInfo.getMinutes d < 60)%N ->
  length (AppVersionInfo.pad2 (AppVersionInfo.getMonth d + 1)
          ++ AppVersionInfo.pad2 (AppVersionInfo.getDate d)
          ++ lit "."
          ++ AppVersionInfo.pad2 (AppVersionInfo.getHours d)
          ++ AppVersionInfo.pad2 (AppVersionInfo.getMinutes d)) = 9%nat.
Proof.
  intros Hm Hd Hh Hmin. rewrite !length_app.
  rewrite (proj1 (pad2_shape (AppVersionInfo.getMonth d + 1) ltac:(lia))).
  rewrite (proj1 (pad2_shape (AppVersionInfo.getDate d) ltac:(lia))).
  rewrite (proj1 (pad2_shape (AppVersionInfo.getHours d) ltac:(lia))).
  rewrite (proj1 (pad2_shape (AppVersionInfo.getMinutes d) ltac:(lia))).
  reflexivity.
Qed.

(** X4.  The build identifier determines the minute it was made in: two
    dates (month 0..11, day up to 31, hour below 24, minute below 60) with
    the same identifier agree on year, month, day, hour and minute. *)
Theorem build_id_determines_the_minute (d1 d2 : AppVersionInfo.Date) :
  (AppVersionInfo.getMonth d1 < 12)%N ->
  (AppVersionInfo.getDate d1 <= 31)%N ->
  (AppVersionInfo.getHours d1 < 24)%N ->
  (AppVersionInfo.getMinutes d1 < 60)%N ->
  (AppVersionInfo.getMonth d2 < 12)%N ->
  (AppVersionInfo.getDate d2 <= 31)%N ->
  (AppVersionInfo.getHours d2 < 24)%N ->
  (AppVersionInfo.getMinutes d2 < 60)%N ->
  AppVersionInfo.getBuildId d1 = AppVersionInfo.getBuildId d2 ->
  d1 = d2.
Proof.
  intros Hm1 Hd1 Hh1 Hn1 Hm2 Hd2 Hh2 Hn2 H.
  unfold AppVersionInfo.getBuildId in H.
  apply app_inj_2 in H as [Hy H];
    [|by rewrite !getBuildId_tail].
  apply toDecimal_inj in Hy.
  apply app_inj_1 in H as [Hmonth H];
    [|by rewrite !pad2_length by lia].
  apply app_inj_1 in H as [Hday H];
    [|by rewrite !pad2_length by lia].
  apply app_inj_1 in H as [_ H]; [|done].
  apply app_inj_1 in H as [Hhour Hminute];
    [|by rewrite !pad2_length by lia].
  apply pad2_inj in Hmonth; [|lia..].
  apply pad2_inj in Hday; [|lia..].
  apply pad2_inj in Hhour; [|lia..].
  apply pad2_inj in Hminute; [|lia..].
  destruct d1, d2. simpl in *. f_equal; lia.
Qed.

Lemma build_id_determines_the_minute_witness :
  let d := AppVersionInfo.mkDate 2025 6 1 9 30 in
  AppVersionInfo.getBuildId d = lit "20250701.0930"
  /\ forall d',
       (AppVersionInfo.getMonth d' < 12)%N ->
       (AppVersionInfo.getDate d' <= 31)%N ->
       (AppVersionInfo.getHours d' < 24)%N ->
       (AppVersionInfo.getMinutes d' < 60)%N ->
       AppVersionInfo.getBuildId d' = AppVersionInfo.getBuildId d ->
       d' = d.
Proof.
  intros d. split; [reflexivity|].
  intros d' Hm Hd Hh Hn.
  refine (build_id_determines_the_minute d' d Hm Hd Hh Hn _ _ _ _);
    vm_compute; congruence.
Defined.

(** X5.  The version string shown elsewhere is
    [v<version> (<YYYYMMDD>.<HHmm>)]: the version is the configured one
    whenever the configuration has a version that is not empty, and
    [1.0.0] when the configuration or its version is missing or empty, so
    it is never empty; and for a four-digit year the build identifier is
    eight digits, a dot and four digits. *)
Theorem version_string_shape
    (expoConfig : option AppVersionInfo.ExpoConfig)
    (now : AppVersionInfo.Date) :
  (1000 <= AppVersionInfo.getFullYear now <= 9999)%N ->
  (AppVersionInfo.getMonth now < 12)%N ->
  (AppVersionInfo.getDate now <= 31)%N ->
  (AppVersionInfo.getHours now < 24)%N ->
  (AppVersionInfo.getMinutes now < 60)%N ->
  exists version day minute,
    AppVersionInfo.getVersionString expoConfig now
    = lit "v" ++ version ++ lit " (" ++ day ++ lit "." ++ minute ++ lit ")"
    /\ AppVersionInfo.getBuildId now = day ++ lit "." ++ minute
    /\ version = AppVersionInfo.getAppVersion expoConfig
    /\ version <> []
    /\ (forall config configured,
          expoConfig = Some config ->
          AppVersionInfo.version config = Some configured ->
          configured <> [] ->
          version = configured)
    /\ (expoConfig = None
        \/ (exists config,
              expoConfig = Some config
              /\ (AppVersionInfo.version config = None
                  \/ AppVersionInfo.version config = Some [])) ->
        version = lit "1.0.0")
    /\ length day = 8%nat
    /\ length minute = 4%nat
    /\ Forall (fun c => JSON.isDigit c = true) day
    /\ Forall (fun c => JSON.isDigit c = true) minute.
Proof.
  intros Hy Hm Hd Hh Hn.
  exists (AppVersionInfo.getAppVersion expoConfig),
    (toDecimal (AppVersionInfo.getFullYear now)
     ++ AppVersionInfo.pad2 (AppVersionInfo.getMonth now + 1)
     ++ AppVersionInfo.pad2 (AppVersionInfo.getDate now)),
    (AppVersionInfo.pad2 (AppVersionInfo.getHours now)
     ++ AppVersionInfo.pad2 (AppVersionInfo.getMinutes now)).
  pose proof (pad2_shape (AppVersionInfo.getMonth now + 1) ltac:(lia))
    as [Lm Dm].
  pose proof (pad2_shape (AppVersionInfo.getDate now) ltac:(lia)) as [Ld Dd].
  pose proof (pad2_shape (AppVersionInfo.getHours now) ltac:(lia)) as [Lh Dh].
  pose proof (pad2_shape (AppVersionInfo.getMinutes now) ltac:(lia))
    as [Ln Dn].
  assert (Hbuild : AppVersionInfo.getBuildId now
                   = (toDecimal (AppVersionInfo.getFullYear now)
                      ++ AppVersionInfo.pad2 (AppVersionInfo.getMonth now + 1)
                      ++ AppVersionInfo.pad2 (AppVersionInfo.getDate now))
                     ++ lit "."
                     ++ AppVersionInfo.pad2 (AppVersionInfo.getHours now)
                     ++ AppVersionInfo.pad2 (AppVersionInfo.getMinutes now))
    by (unfold AppVersionInfo.getBuildId; by rewrite <- !app_assoc).
  split; [|split; [exact Hbuild|split; [done|split; [|split; [|split]]]]].
  - unfold AppVersionInfo.getVersionString. rewrite Hbuild.
    by rewrite <- !app_assoc.
  - unfold AppVersionInfo.getAppVersion, strOr.
    destruct expoConfig as [[[[|c v]|]]|]; simpl; done.
  - intros config configured -> Hv Hne.
    unfold AppVersionInfo.getAppVersion, strOr. rewrite Hv.
    by destruct configured.
  - unfold AppVersionInfo.getAppVersion, strOr.
    intros [->|[config [-> [->| ->]]]]; reflexivity.
  - rewrite !length_app, Lm, Ld, Lh, Ln, (year_has_four_digits _ Hy).
    split; [done|]. split; [done|]. split.
    + apply Forall_app_2; [apply toDecimal_digits|]. by apply Forall_app_2.
    + by apply Forall_app_2.
Qed.

Lemma version_string_shape_witness :
  AppVersionInfo.getVersionString None (AppVersionInfo.mkDate 2025 6 1 9 30)
  = lit "v1.0.0 (20250701.0930)"
  /\ AppVersionInfo.getAppVersion
       (Some (AppVersionInfo.mkConfig (Some (lit "2.3.4"))))
     = lit "2.3.4".
Proof.
  split.
  - destruct (version_string_shape None
                (AppVersionInfo.mkDate 2025 6 1 9 30))
      as (version & day & minute & H & _);
      [vm_compute; split; congruence | reflexivity | vm_compute; congruence
      | reflexivity | reflexivity |].
    reflexivity.
  - destruct (version_string_shape
                (Some (AppVersionInfo.mkConfig (Some (lit "2.3.4"))))
                (AppVersionInfo.mkDate 2025 6 1 9 30))
      as (version & day & minute & _ & _ & <- & _ & Hconfigured & _);
      [vm_compute; split; congruence | reflexivity | vm_compute; congruence
      | reflexivity | reflexivity |].
    apply (Hconfigured (AppVersionInfo.mkConfig (Some (lit "2.3.4"))));
      [reflexivity | reflexivity | discriminate].
Defined.

(** ** The admin mutations and the rest of the cache *)

Lemma lookup_invalidateQueries_other {D} (key k : QueryKey)
    (qc : gmap QueryKey (QueryState D)) :
  ~ key `prefix_of` k -> invalidateQueries key qc !! k = qc !! k.
Proof.
  intros H. rewrite lookup_invalidateQueries.
  rewrite bool_decide_eq_false_2 by done. by destruct (qc !! k).
Qed.

Lemma not_prefix_ne (key k : QueryKey) : ~ key `prefix_of` k -> key <> k.
Proof. intros H ->. by apply H. Qed.

(** Settles the lookup of a key outside the collection after a mutation. *)
Ltac outside_the_collection H :=
  unfold mutate; simpl; unfold cancelQueries;
  repeat match goal with
         | |- context [match ?o with
                       | Resolved _ _ => _
                       | Rejected _ _ => _
                       end] =>
             destruct o; simpl
         | |- context [if AdminSync.success ?r then _ else _] =>
             destruct (AdminSync.success r); simpl
         | |- context [match getQueryData ?k ?m with
                       | Some _ => _
                       | None => _
                       end] =>
             destruct (getQueryData k m); simpl
         end;
  rewrite ?(lookup_invalidateQueries_other _ _ _ H);
  rewrite ?(lookup_setQueryData_ne _ _ _ _ _ (not_prefix_ne _ _ H));
  rewrite ?(lookup_invalidateQueries_other _ _ _ H);
  rewrite ?(lookup_setQueryData_ne _ _ _ _ _ (not_prefix_ne _ _ H));
  try reflexivity.

(** X6.  A mutation of an admin screen - create, update or delete, however
    the remote settles it - leaves every cache entry whose key does not
    start with the screen's collection key exactly as it was: data,
    timestamp and invalidation mark. *)
Theorem admin_mutations_touch_only_their_collection
    (kc kb : QueryKey) (lang : string) (ResponseData : Type)
    (k : QueryKey) (now : Z) :
  ~ kc `prefix_of` k ->
  ~ kb `prefix_of` k ->
  (forall wc outcome data,
     CategoriesAdmin.queryClient
       (screen (mutate (CategoriesAdmin.createMutation kc lang) data now
                  outcome wc)) !! k
     = CategoriesAdmin.queryClient (screen wc) !! k)
  /\ (forall wc outcome id data,
        CategoriesAdmin.queryClient
          (screen (mutate (CategoriesAdmin.updateMutation kc lang) (id, data)
                     now outcome wc)) !! k
        = CategoriesAdmin.queryClient (screen wc) !! k)
  /\ (forall wc outcome id,
        CategoriesAdmin.queryClient
          (screen (CategoriesAdmin.handleDelete kc lang id now outcome wc))
          !! k
        = CategoriesAdmin.queryClient (screen wc) !! k)
  /\ (forall wb outcome data,
        CarBrandsAdmin.queryClient
          (screen (mutate (CarBrandsAdmin.createMutation kb lang) data now
                     outcome wb)) !! k
        = CarBrandsAdmin.queryClient (screen wb) !! k)
  /\ (forall wb (outcome : Settled ResponseData) id data,
        CarBrandsAdmin.queryClient
          (screen (mutate (CarBrandsAdmin.updateMutation kb lang ResponseData)
                     (id, data) now outcome wb)) !! k
        = CarBrandsAdmin.queryClient (screen wb) !! k)
  /\ (forall wb outcome id,
        CarBrandsAdmin.queryClient
          (screen (CarBrandsAdmin.handleDelete kb lang id now outcome wb))
          !! k
        = CarBrandsAdmin.queryClient (screen wb) !! k).
Proof.
  intros Hc Hb. repeat split; intros.
  - outside_the_collection Hc.
  - outside_the_collection Hc.
  - unfold CategoriesAdmin.handleDelete. outside_the_collection Hc.
  - outside_the_collection Hb.
  - outside_the_collection Hb.
  - unfold CarBrandsAdmin.handleDelete. outside_the_collection Hb.
Qed.

Lemma admin_mutations_touch_only_their_collection_witness :
  let home := Queries.homeScreenKeys Queries.categories in
  let tree := mkQuery (Some [Sample.engine]) 0 false in
  let w : World CategoriesAdmin.State CategoriesAdmin.Call :=
    mkWorld
      (CategoriesAdmin.mkState
         (<[home := tree]>
            (CategoriesAdmin.queryClient (screen Sample.categoriesWorld)))
         (CategoriesAdmin.mkForm [] [] None [] [] None false) Toast.initial)
      [] in
  ~ Sample.categoriesKey `prefix_of` home
  /\ CategoriesAdmin.queryClient
       (screen (CategoriesAdmin.handleDelete Sample.categoriesKey "en"
                  (lit "c1") 1 (Resolved 2 (AdminSync.mkResult false None))
                  w)) !! home
     = Some tree.
Proof.
  intros home tree w.
  assert (Hc : ~ Sample.categoriesKey `prefix_of` home)
    by (by intros [rest [=]]).
  assert (Hb : ~ Sample.carBrandsKey `prefix_of` home)
    by (by intros [rest [=]]).
  split; [exact Hc|].
  rewrite (proj1 (proj2 (proj2
             (admin_mutations_touch_only_their_collection
                Sample.categoriesKey Sample.carBrandsKey "en" unit home 1
                Hc Hb)))).
  reflexivity.
Defined.

(** ** Saving: what happens to the form *)

(** X7.  A save that the remote does not confirm - the call throws, or,
    where the result is inspected, it resolves with [success: false] -
    shows an error toast and changes nothing else: the form keeps what was
    typed, edit mode included, and the query client is untouched. *)
Theorem unconfirmed_save_keeps_the_form
    (kc kb : QueryKey) (lang : string) (ResponseData : Type) (now : Z)
    (outcome : Settled AdminSync.Result)
    (wc : World CategoriesAdmin.State CategoriesAdmin.Call)
    (wb : World CarBrandsAdmin.State CarBrandsAdmin.Call) :
  match outcome with
  | Resolved _ result => AdminSync.success result = false
  | Rejected _ _ => True
  end ->
  (forall data,
     let s' := screen (mutate (CategoriesAdmin.createMutation kc lang) data
                         now outcome wc) in
     CategoriesAdmin.form s' = CategoriesAdmin.form (screen wc)
     /\ CategoriesAdmin.queryClient s'
        = CategoriesAdmin.queryClient (screen wc)
     /\ Toast.toastVisible (CategoriesAdmin.toast s') = true
     /\ Toast.toastType (CategoriesAdmin.toast s') = Toast.error)
  /\ (forall id data,
        let s' := screen (mutate (CategoriesAdmin.updateMutation kc lang)
                            (id, data) now outcome wc) in
        CategoriesAdmin.form s' = CategoriesAdmin.form (screen wc)
        /\ CategoriesAdmin.queryClient s'
           = CategoriesAdmin.queryClient (screen wc)
        /\ Toast.toastVisible (CategoriesAdmin.toast s') = true
        /\ Toast.toastType (CategoriesAdmin.toast s') = Toast.error)
  /\ (forall data,
        let s' := screen (mutate (CarBrandsAdmin.createMutation kb lang) data
                            now outcome wb) in
        CarBrandsAdmin.form s' = CarBrandsAdmin.form (screen wb)
        /\ CarBrandsAdmin.queryClient s'
           = CarBrandsAdmin.queryClient (screen wb)
        /\ Toast.toastVisible (CarBrandsAdmin.toast s') = true
        /\ Toast.toastType (CarBrandsAdmin.toast s') = Toast.error)
  /\ (forall id data t message,
        let s' :=
          screen (mutate (CarBrandsAdmin.updateMutation kb lang ResponseData)
                    (id, data) now (Rejected t message) wb) in
        CarBrandsAdmin.form s' = CarBrandsAdmin.form (screen wb)
        /\ CarBrandsAdmin.queryClient s'
           = CarBrandsAdmin.queryClient (screen wb)
        /\ Toast.toastVisible (CarBrandsAdmin.toast s') = true
        /\ Toast.toastType (CarBrandsAdmin.toast s') = Toast.error).
Proof.
  intros H. repeat split; unfold mutate; simpl;
    destruct outcome as [t r|t m]; simpl; rewrite ?H; reflexivity.
Qed.

Lemma unconfirmed_save_keeps_the_form_witness :
  let w := mkWorld Sample.filledForm [] in
  CategoriesAdmin.form
    (screen (CategoriesAdmin.pressSave Sample.categoriesKey "en" 1
               (Rejected 2 None) w))
  = CategoriesAdmin.form Sample.filledForm.
Proof.
  intros w.
  exact (proj1 (proj1 (unconfirmed_save_keeps_the_form Sample.categoriesKey
                         Sample.carBrandsKey "en" unit 1 (Rejected 2 None) w
                         Sample.carBrandsWorld I) _)).
Defined.

(** X8.  A save with both names filled in that the remote confirms makes
    one remote call and empties the form, edit mode off; pressing save
    again right away is then refused by the blank-name guard, so that it
    makes no second call and leaves the query client alone. *)
Theorem confirmed_save_clears_the_form
    (kc kb : QueryKey) (lang : string) (ResponseData : Type) (now t : Z)
    (e : option Text) (response : ResponseData)
    (wc : World CategoriesAdmin.State CategoriesAdmin.Call)
    (wb : World CarBrandsAdmin.State CarBrandsAdmin.Call) :
  trim (CategoriesAdmin.name (CategoriesAdmin.form (screen wc))) <> [] ->
  trim (CategoriesAdmin.nameAr (CategoriesAdmin.form (screen wc))) <> [] ->
  trim (CarBrandsAdmin.name (CarBrandsAdmin.form (screen wb))) <> [] ->
  trim (CarBrandsAdmin.nameAr (CarBrandsAdmin.form (screen wb))) <> [] ->
  let confirmed := Resolved t (AdminSync.mkResult true e) in
  let wc1 := CategoriesAdmin.pressSave kc lang now confirmed wc in
  let wb1 :=
    CarBrandsAdmin.pressSave kb lang ResponseData now confirmed
      (Resolved t response) wb in
  (CategoriesAdmin.form (screen wc1)
   = CategoriesAdmin.mkForm [] [] None [] [] None false
   /\ length (network wc1) = S (length (network wc))
   /\ forall now' outcome',
        let wc2 := CategoriesAdmin.pressSave kc lang now' outcome' wc1 in
        network wc2 = network wc1
        /\ CategoriesAdmin.queryClient (screen wc2)
           = CategoriesAdmin.queryClient (screen wc1))
  /\
  (CarBrandsAdmin.form (screen wb1) = CarBrandsAdmin.mkForm [] [] [] None false
   /\ length (network wb1) = S (length (network wb))
   /\ forall now' created' (updated' : Settled ResponseData),
        let wb2 :=
          CarBrandsAdmin.pressSave kb lang ResponseData now' created'
            updated' wb1 in
        network wb2 = network wb1
        /\ CarBrandsAdmin.queryClient (screen wb2)
           = CarBrandsAdmin.queryClient (screen wb1)).
Proof.
  intros Hc1 Hc2 Hb1 Hb2 confirmed wc1 wb1. split.
  - assert (Hform : CategoriesAdmin.form (screen wc1)
                    = CategoriesAdmin.mkForm [] [] None [] [] None false).
    { subst wc1. unfold CategoriesAdmin.pressSave.
      rewrite (categories_handleSave_filled lang (screen wc) Hc1 Hc2).
      cbv zeta.
      destruct (CategoriesAdmin.isEditMode _);
        [destruct (CategoriesAdmin.editingCategory _)|]; reflexivity. }
    split; [exact Hform|]. split.
    + subst wc1. unfold CategoriesAdmin.pressSave.
      rewrite (categories_handleSave_filled lang (screen wc) Hc1 Hc2).
      cbv zeta.
      destruct (CategoriesAdmin.isEditMode _);
        [destruct (CategoriesAdmin.editingCategory _)|];
        rewrite mutate_network, length_app; simpl; lia.
    + intros now' outcome' wc2. subst wc2.
      unfold CategoriesAdmin.pressSave at 1 2.
      rewrite (categories_handleSave_blank lang (screen wc1))
        by (rewrite Hform; by left).
      done.
  - assert (Hform : CarBrandsAdmin.form (screen wb1)
                    = CarBrandsAdmin.mkForm [] [] [] None false).
    { subst wb1. unfold CarBrandsAdmin.pressSave.
      rewrite (brands_handleSave_filled lang (screen wb) Hb1 Hb2).
      cbv zeta.
      destruct (CarBrandsAdmin.isEditMode _);
        [destruct (CarBrandsAdmin.editingBrand _)|]; reflexivity. }
    split; [exact Hform|]. split.
    + subst wb1. unfold CarBrandsAdmin.pressSave.
      rewrite (brands_handleSave_filled lang (screen wb) Hb1 Hb2).
      cbv zeta.
      destruct (CarBrandsAdmin.isEditMode _);
        [destruct (CarBrandsAdmin.editingBrand _)|];
        rewrite mutate_network, length_app; simpl; lia.
    + intros now' created' updated' wb2. subst wb2.
      unfold CarBrandsAdmin.pressSave at 1 2.
      rewrite (brands_handleSave_blank lang (screen wb1))
        by (rewrite Hform; by left).
      done.
Qed.

Lemma confirmed_save_clears_the_form_witness :
  let wc := mkWorld Sample.filledForm [] in
  let wb : World CarBrandsAdmin.State CarBrandsAdmin.Call :=
    mkWorld
      (CarBrandsAdmin.handleEditBrand Sample.toyota
         (screen Sample.carBrandsWorld)) [] in
  let confirmed := Resolved 2 (AdminSync.mkResult true None) in
  let wc1 := CategoriesAdmin.pressSave Sample.categoriesKey "en" 1 confirmed
               wc in
  CategoriesAdmin.form (screen wc1)
  = CategoriesAdmin.mkForm [] [] None [] [] None false
  /\ network
       (CategoriesAdmin.pressSave Sample.categoriesKey "en" 3 confirmed wc1)
     = network wc1.
Proof.
  intros wc wb confirmed wc1.
  destruct (proj1 (confirmed_save_clears_the_form Sample.categoriesKey
                     Sample.carBrandsKey "en" unit 1 2 None tt wc wb
                     ltac:(discriminate) ltac:(discriminate)
                     ltac:(discriminate) ltac:(discriminate)))
    as (Hform & _ & Hagain).
  split; [exact Hform|]. exact (proj1 (Hagain 3 confirmed)).
Defined.

(** X9.  Opening a row for editing and saving asks for an update of that
    row's id - never for a create - provided its two names are not blank.
    The payload is the row's own data, names trimmed.  On the categories
    screen a missing or empty parent, icon or image is sent as [null].  On
    the car-brands screen a missing or empty logo is [undefined], not
    [null], so that the property is left out of the request; a logo that
    is not empty is sent as it is.  A row whose stored English or Arabic
    name is blank cannot be saved again as it is. *)
Theorem edit_then_save_updates_the_row
    (lang : string)
    (c : CategoriesAdmin.Category.t) (sc : CategoriesAdmin.State)
    (b : CarBrandsAdmin.CarBrand.t) (sb : CarBrandsAdmin.State) :
  let nc := trim (CategoriesAdmin.Category.name c) in
  let ac := trim (CategoriesAdmin.Category.name_ar c) in
  let nb := trim (CarBrandsAdmin.CarBrand.name b) in
  let ab := trim (CarBrandsAdmin.CarBrand.name_ar b) in
  let savedC :=
    snd (CategoriesAdmin.handleSave lang
           (CategoriesAdmin.handleEditCategory c sc)) in
  let savedB :=
    snd (CarBrandsAdmin.handleSave lang
           (CarBrandsAdmin.handleEditBrand b sb)) in
  (nc <> [] -> ac <> [] ->
   savedC
   = Some (CategoriesAdmin.mutateUpdate (CategoriesAdmin.Category.id c)
             (CategoriesAdmin.CategoryData.mk nc ac
                (match CategoriesAdmin.Category.parent_id c with
                 | Some p => orNull p
                 | None => None
                 end)
                (orNull (trim (orEmpty (CategoriesAdmin.Category.icon c))))
                (orNull (orEmpty (CategoriesAdmin.Category.image_data c))))))
  /\ (nc = [] \/ ac = [] -> savedC = None)
  /\ (nb <> [] -> ab <> [] ->
      savedB
      = Some (CarBrandsAdmin.mutateUpdate (CarBrandsAdmin.CarBrand.id b)
                (CarBrandsAdmin.BrandData.mk nb ab
                   (match CarBrandsAdmin.CarBrand.logo b with
                    | Some (u :: logo) => defined (u :: logo)
                    | Some [] | None => undefined
                    end))))
  /\ (nb = [] \/ ab = [] -> savedB = None).
Proof.
  intros nc ac nb ab savedC savedB. repeat split.
  - intros H1 H2. subst savedC.
    by rewrite (categories_handleSave_filled lang
                  (CategoriesAdmin.handleEditCategory c sc) H1 H2).
  - intros H. subst savedC.
    by rewrite (categories_handleSave_blank lang
                  (CategoriesAdmin.handleEditCategory c sc) H).
  - intros H1 H2. subst savedB.
    rewrite (brands_handleSave_filled lang
               (CarBrandsAdmin.handleEditBrand b sb) H1 H2).
    simpl. by destruct (CarBrandsAdmin.CarBrand.logo b) as [[|u logo]|].
  - intros H. subst savedB.
    by rewrite (brands_handleSave_blank lang
                  (CarBrandsAdmin.handleEditBrand b sb) H).
Qed.

Lemma edit_then_save_updates_the_row_witness :
  snd (CategoriesAdmin.handleSave "en"
         (CategoriesAdmin.handleEditCategory Sample.brakes
            (screen Sample.categoriesWorld)))
  = Some (CategoriesAdmin.mutateUpdate (lit "c2")
            (CategoriesAdmin.CategoryData.mk (lit "Brakes") (lit "Brakes")
               None (Some (lit "disc")) None))
  /\ snd (CarBrandsAdmin.handleSave "en"
            (CarBrandsAdmin.handleEditBrand Sample.toyota
               (screen Sample.carBrandsWorld)))
     = Some (CarBrandsAdmin.mutateUpdate (lit "b1")
               (CarBrandsAdmin.BrandData.mk (lit "Toyota") (lit "Toyota")
                  undefined)).
Proof.
  pose proof (edit_then_save_updates_the_row "en" Sample.brakes
                (screen Sample.categoriesWorld) Sample.toyota
                (screen Sample.carBrandsWorld)) as (Hc & _ & Hb & _).
  split.
  - exact (Hc ltac:(discriminate) ltac:(discriminate)).
  - exact (Hb ltac:(discriminate) ltac:(discriminate)).
Defined.

(** ** Deletes that overlap *)

Lemma filter_filter_comm {A} (P Q : A -> Prop)
    `{!forall x, Decision (P x)} `{!forall x, Decision (Q x)} (l : list A) :
  filter P (filter Q l) = filter Q (filter P l).
Proof.
  rewrite !list_filter_filter. apply list_filter_iff. intros x. tauto.
Qed.

(** X10.  Two deletes in flight on the same list: when the first one
    fails, its rollback writes back the snapshot it took before the second
    optimistic removal, so the record removed by the second delete is in
    the cache again, whatever becomes of that second delete. *)
Theorem failed_delete_undoes_a_later_removal
    (kc kb : QueryKey) (lang : string) (now1 now2 t : Z) (a b : jsstring)
    (message : option Text)
    (sc : CategoriesAdmin.State) (lc : list CategoriesAdmin.Category.t)
    (sb : CarBrandsAdmin.State) (lb : list CarBrandsAdmin.CarBrand.t) :
  getQueryData kc (CategoriesAdmin.queryClient sc) = Some lc ->
  getQueryData kb (CarBrandsAdmin.queryClient sb) = Some lb ->
  (let del := CategoriesAdmin.deleteMutation kc lang in
   let first := onMutate del now1 a sc in
   let second := onMutate del now2 b (snd first) in
   let rolledBack := onError del t message a (fst first) (snd second) in
   getQueryData kc (CategoriesAdmin.queryClient (snd second))
   = Some (filter (fun c => CategoriesAdmin.Category.id c <> b)
             (filter (fun c => CategoriesAdmin.Category.id c <> a) lc))
   /\ getQueryData kc (CategoriesAdmin.queryClient rolledBack) = Some lc)
  /\
  (let del := CarBrandsAdmin.deleteMutation kb lang in
   let first := onMutate del now1 a sb in
   let second := onMutate del now2 b (snd first) in
   let rolledBack := onError del t message a (fst first) (snd second) in
   getQueryData kb (CarBrandsAdmin.queryClient (snd second))
   = Some (filter (fun c => CarBrandsAdmin.CarBrand.id c <> b)
             (filter (fun c => CarBrandsAdmin.CarBrand.id c <> a) lb))
   /\ getQueryData kb (CarBrandsAdmin.queryClient rolledBack) = Some lb).
Proof.
  intros Hc Hb. split; intros del first second rolledBack.
  - split.
    + subst second first del. rewrite categories_onMutate_data.
      by rewrite categories_onMutate_data, Hc.
    + subst rolledBack. simpl. unfold cancelQueries. rewrite Hc. simpl.
      by apply getQueryData_setQueryData_eq.
  - split.
    + subst second first del. rewrite brands_onMutate_data.
      by rewrite brands_onMutate_data, Hb.
    + subst rolledBack. simpl. unfold cancelQueries. rewrite Hb. simpl.
      by apply getQueryData_setQueryData_eq.
Qed.

Lemma failed_delete_undoes_a_later_removal_witness :
  let del := CategoriesAdmin.deleteMutation Sample.categoriesKey "en" in
  let s := screen Sample.categoriesWorld in
  let first := onMutate del 1 (lit "c1") s in
  let second := onMutate del 2 (lit "c2") (snd first) in
  getQueryData Sample.categoriesKey
    (CategoriesAdmin.queryClient (snd second)) = Some []
  /\ getQueryData Sample.categoriesKey
       (CategoriesAdmin.queryClient
          (onError del 3 None (lit "c1") (fst first) (snd second)))
     = Some [Sample.engine; Sample.brakes].
Proof.
  intros del s first second.
  destruct (proj1 (failed_delete_undoes_a_later_removal
                     Sample.categoriesKey Sample.carBrandsKey "en" 1 2 3
                     (lit "c1") (lit "c2") None s
                     [Sample.engine; Sample.brakes]
                     (screen Sample.carBrandsWorld) [Sample.toyota]
                     eq_refl eq_refl)) as [H1 H2].
  split; [exact H1 | exact H2].
Defined.

(** X11.  Optimistic removals compose: removing [a] and then [b] leaves
    the same cached list as removing [b] and then [a], and removing the
    same id twice leaves the same list as removing it once. *)
Theorem optimistic_removals_commute
    (kc kb : QueryKey) (lang : string) (t1 t2 : Z) (a b : jsstring)
    (sc : CategoriesAdmin.State) (sb : CarBrandsAdmin.State) :
  let removeC id t s :=
    snd (onMutate (CategoriesAdmin.deleteMutation kc lang) t id s) in
  let removeB id t s :=
    snd (onMutate (CarBrandsAdmin.deleteMutation kb lang) t id s) in
  let cachedC s := getQueryData kc (CategoriesAdmin.queryClient s) in
  let cachedB s := getQueryData kb (CarBrandsAdmin.queryClient s) in
  cachedC (removeC b t2 (removeC a t1 sc))
  = cachedC (removeC a t2 (removeC b t1 sc))
  /\ cachedC (removeC a t2 (removeC a t1 sc)) = cachedC (removeC a t1 sc)
  /\ cachedB (removeB b t2 (removeB a t1 sb))
     = cachedB (removeB a t2 (removeB b t1 sb))
  /\ cachedB (removeB a t2 (removeB a t1 sb)) = cachedB (removeB a t1 sb).
Proof.
  intros removeC removeB cachedC cachedB.
  subst removeC removeB cachedC cachedB. cbv beta.
  rewrite !categories_onMutate_data, !brands_onMutate_data.
  destruct (getQueryData kc (CategoriesAdmin.queryClient sc)) as [lc|];
    destruct (getQueryData kb (CarBrandsAdmin.queryClient sb)) as [lb|];
    repeat split; f_equal;
      first [apply filter_filter_comm | apply filter_twice | reflexivity].
Qed.

(** ** The toast after a mutation *)

(** X12.  Every settled mutation of the two admin screens ends with a
    visible toast, and the toast is of the success type exactly when the
    remote confirmed the mutation: the call resolved with
    [success: true] - or, for the car-brands update, resolved at all.
    Every other outcome shows the error type. *)
Theorem toast_tells_the_outcome
    (kc kb : QueryKey) (lang : string) (ResponseData : Type) (now : Z)
    (outcome : Settled AdminSync.Result)
    (updated : Settled ResponseData)
    (wc : World CategoriesAdmin.State CategoriesAdmin.Call)
    (wb : World CarBrandsAdmin.State CarBrandsAdmin.Call) :
  let confirmed :=
    match outcome with
    | Resolved _ result => AdminSync.success result
    | Rejected _ _ => false
    end in
  let resolved :=
    match updated with Resolved _ _ => true | Rejected _ _ => false end in
  let tells (toast : Toast.t) (ok : bool) :=
    Toast.toastVisible toast = true
    /\ Toast.toastType toast
       = (if ok then Toast.success else Toast.error) in
  (forall data,
     tells (CategoriesAdmin.toast
              (screen (mutate (CategoriesAdmin.createMutation kc lang) data
                         now outcome wc))) confirmed)
  /\ (forall id data,
        tells (CategoriesAdmin.toast
                 (screen (mutate (CategoriesAdmin.updateMutation kc lang)
                            (id, data) now outcome wc))) confirmed)
  /\ (forall id,
        tells (CategoriesAdmin.toast
                 (screen (CategoriesAdmin.handleDelete kc lang id now outcome
                            wc))) confirmed)
  /\ (forall data,
        tells (CarBrandsAdmin.toast
                 (screen (mutate (CarBrandsAdmin.createMutation kb lang) data
                            now outcome wb))) confirmed)
  /\ (forall id data,
        tells (CarBrandsAdmin.toast
                 (screen (mutate
                            (CarBrandsAdmin.updateMutation kb lang
                               ResponseData)
                            (id, data) now updated wb))) resolved)
  /\ (forall id,
        tells (CarBrandsAdmin.toast
                 (screen (CarBrandsAdmin.handleDelete kb lang id now outcome
                            wb))) confirmed).
Proof.
  intros confirmed resolved tells. subst confirmed resolved tells. cbv beta.
  repeat split;
    unfold CategoriesAdmin.handleDelete, CarBrandsAdmin.handleDelete, mutate;
    simpl; unfold cancelQueries;
    try (destruct outcome as [t r|t m]; simpl;
         [destruct (AdminSync.success r) | ]; simpl);
    try (destruct updated; simpl);
    try reflexivity;
    repeat match goal with
           | |- context [match getQueryData ?k ?m with _ => _ end] =>
               destruct (getQueryData k m); simpl
           end; reflexivity.
Qed.

(** ** Rows of the cart and of the favorites *)

(** X13.  The prices of a cart row.  The original price is the row's
    [original_unit_price] and the final price its [final_unit_price],
    each whenever it is a usable number; one that is missing, [0] or [NaN]
    falls back to the product's price, and that to [0]; so a price shown
    is a truthy number or exactly [0], never [NaN].  A discount is shown
    exactly when the original price is greater than the final one: for a
    row with both unit prices usable, when the original unit price is
    greater than the final unit price; for a row without usable unit
    prices of its own, never. *)
Theorem cart_row_prices
    (number : Type) (isTruthy : number -> bool)
    (gt : number -> number -> bool) (fromZ : Z -> number)
    (item : ListRows.Item number) :
  (forall x, gt x x = false) ->
  let usable (p : option number) :=
    match p with Some x => isTruthy x | None => false end in
  let final := ListRows.finalPrice number isTruthy fromZ item in
  let original := ListRows.originalPrice number isTruthy fromZ item in
  let fallback :=
    ListRows.numberOr number isTruthy (ListRows.productPrice number item)
      (fromZ 0) in
  (isTruthy final = true \/ final = fromZ 0)
  /\ (isTruthy original = true \/ original = fromZ 0)
  /\ (usable (ListRows.final_unit_price number item) = false ->
      final = fallback)
  /\ (usable (ListRows.original_unit_price number item) = false ->
      usable (ListRows.final_unit_price number item) = false ->
      ListRows.hasDiscount number isTruthy gt fromZ item = false)
  /\ (usable (ListRows.original_unit_price number item) = false ->
      original = fallback)
  /\ (forall x,
        ListRows.original_unit_price number item = Some x ->
        isTruthy x = true -> original = x)
  /\ (forall x,
        ListRows.final_unit_price number item = Some x ->
        isTruthy x = true -> final = x)
  /\ (usable (ListRows.productPrice number item) = false ->
      fallback = fromZ 0)
  /\ (forall x,
        ListRows.productPrice number item = Some x ->
        isTruthy x = true -> fallback = x)
  /\ ListRows.hasDiscount number isTruthy gt fromZ item = gt original final.
Proof.
  intros Hirrefl usable final original fallback.
  assert (Hor : forall a b,
            isTruthy (ListRows.numberOr number isTruthy a
                        (ListRows.numberOr number isTruthy b (fromZ 0)))
            = true
            \/ ListRows.numberOr number isTruthy a
                 (ListRows.numberOr number isTruthy b (fromZ 0)) = fromZ 0).
  { intros [a|] [b|]; unfold ListRows.numberOr;
      repeat match goal with
             | |- context [if isTruthy ?x then _ else _] =>
                 destruct (isTruthy x) eqn:?
             end; auto. }
  assert (Hfall : forall a b,
            usable a = false ->
            ListRows.numberOr number isTruthy a b = b).
  { intros [a|] b Ha; simpl in *; [by rewrite Ha | done]. }
  assert (Hown : forall a b x,
            a = Some x -> isTruthy x = true ->
            ListRows.numberOr number isTruthy a b = x).
  { intros a b x -> Hx. simpl. by rewrite Hx. }
  split; [apply Hor|]. split; [apply Hor|]. split.
  { intros H. subst final. unfold ListRows.finalPrice. by rewrite Hfall. }
  split.
  { intros H1 H2. unfold ListRows.hasDiscount, ListRows.originalPrice,
      ListRows.finalPrice. rewrite (Hfall _ _ H1), (Hfall _ _ H2).
    apply Hirrefl. }
  split.
  { intros H. subst original. unfold ListRows.originalPrice.
    by rewrite Hfall. }
  split; [intros x Hx Ht; by apply Hown|].
  split; [intros x Hx Ht; by apply Hown|].
  split; [intros H; by apply Hfall|].
  split; [intros x Hx Ht; by apply Hown|].
  reflexivity.
Qed.

Lemma cart_row_prices_witness :
  let nonzero x := negb (x =? 0) in
  let item :=
    ListRows.mkItem Z (Some (lit "p1")) None None (Some 0)
      (Some (ListRows.mkProduct Z (Some (lit "p1")) (Some 250))) in
  let reduced :=
    ListRows.mkItem Z (Some (lit "p2")) None (Some 300) (Some 250)
      (Some (ListRows.mkProduct Z (Some (lit "p2")) (Some 280))) in
  ListRows.finalPrice Z nonzero id item = 250
  /\ ListRows.hasDiscount Z nonzero Z.gtb id item = false
  /\ ListRows.originalPrice Z nonzero id reduced = 300
  /\ ListRows.finalPrice Z nonzero id reduced = 250
  /\ ListRows.hasDiscount Z nonzero Z.gtb id reduced = true.
Proof.
  intros nonzero item reduced.
  assert (Hirrefl : forall x, Z.gtb x x = false).
  { intros x. unfold Z.gtb. by rewrite Z.compare_refl. }
  destruct (cart_row_prices Z nonzero Z.gtb id item Hirrefl)
    as (_ & _ & Hfinal & Hnone & _).
  destruct (cart_row_prices Z nonzero Z.gtb id reduced Hirrefl)
    as (_ & _ & _ & _ & _ & Horiginal & Hown & _ & _ & Hdiscount).
  split; [by rewrite Hfinal|]. split; [by apply Hnone|].
  assert (Ho : ListRows.originalPrice Z nonzero id reduced = 300)
    by (by apply Horiginal).
  assert (Hf : ListRows.finalPrice Z nonzero id reduced = 250)
    by (by apply Hown).
  split; [exact Ho|]. split; [exact Hf|].
  by rewrite Hdiscount, Ho, Hf.
Defined.

Lemma index_keys_NoDup {A} (ident : A -> option jsstring)
    (prefix : jsstring) (items : list A) :
  (forall i j a b s,
     items !! i = Some a -> items !! j = Some b ->
     ident a = Some s -> ident b = Some s -> i = j) ->
  (forall i a s,
     items !! i = Some a -> ident a = Some s ->
     startsWith prefix s = false) ->
  NoDup (imap (fun i item =>
                 match ident item with
                 | Some s => s
                 | None => prefix ++ toDecimal (N.of_nat i)
                 end) items).
Proof.
  intros Hdistinct Hplain. apply NoDup_alt. intros i j x Hi Hj.
  rewrite list_lookup_imap in Hi, Hj.
  destruct (items !! i) as [a|] eqn:Ea; [|discriminate].
  destruct (items !! j) as [b|] eqn:Eb; [|discriminate].
  simpl in Hi, Hj. injection Hi as Hi. injection Hj as Hj.
  destruct (ident a) as [sa|] eqn:Ia, (ident b) as [sb|] eqn:Ib.
  - rewrite Hi in Ia. rewrite Hj in Ib. by apply (Hdistinct i j a b x).
  - pose proof (Hplain i a sa Ea Ia) as H.
    by rewrite Hi, <- Hj, startsWith_app in H.
  - pose proof (Hplain j b sb Eb Ib) as H.
    by rewrite Hj, <- Hi, startsWith_app in H.
  - rewrite <- Hj in Hi. apply app_inv_head in Hi.
    apply toDecimal_inj in Hi. lia.
Qed.

(** X14.  The list keys of the cart tab and of the favorites tab are
    pairwise distinct whenever the identifiers the rows do carry
    ([product_id], and for favorites else [id]) are pairwise distinct and
    none of them begins with the prefix of the index keys ([cart-item-],
    [fav-item-]); rows without an identifier are told apart by their
    index. *)
Theorem list_keys_are_distinct
    (number : Type) (items : list (ListRows.Item number)) :
  ((forall i j a b s,
      items !! i = Some a -> items !! j = Some b ->
      ListRows.cartId number a = Some s ->
      ListRows.cartId number b = Some s -> i = j) ->
   (forall i a s,
      items !! i = Some a -> ListRows.cartId number a = Some s ->
      startsWith (lit "cart-item-") s = false) ->
   NoDup (imap (fun i item => ListRows.cartKeyExtractor number item i) items))
  /\
  ((forall i j a b s,
      items !! i = Some a -> items !! j = Some b ->
      ListRows.favoriteId number a = Some s ->
      ListRows.favoriteId number b = Some s -> i = j) ->
   (forall i a s,
      items !! i = Some a -> ListRows.favoriteId number a = Some s ->
      startsWith (lit "fav-item-") s = false) ->
   NoDup (imap (fun i item => ListRows.favoriteKeyExtractor number item i)
            items)).
Proof.
  split; intros Hdistinct Hplain.
  - by apply (index_keys_NoDup (ListRows.cartId number) (lit "cart-item-")).
  - by apply (index_keys_NoDup (ListRows.favoriteId number)
                (lit "fav-item-")).
Qed.

Lemma list_keys_are_distinct_witness :
  let row id := ListRows.mkItem Z id None None None None in
  let items := [row (Some (lit "p1")); row None; row (Some []); row None] in
  imap (fun i item => ListRows.cartKeyExtractor Z item i) items
  = [lit "p1"; lit "cart-item-1"; lit "cart-item-2"; lit "cart-item-3"]
  /\ NoDup (imap (fun i item => ListRows.cartKeyExtractor Z item i) items).
Proof.
  intros row items. split; [reflexivity|].
  apply (proj1 (list_keys_are_distinct Z items)).
  - intros [|[|[|[|i]]]] [|[|[|[|j]]]] a b s Ha Hb Ia Ib;
      simplify_eq/=; done.
  - intros [|[|[|[|i]]]] a s Ha Ia; simplify_eq/=;
      vm_compute in Ia; simplify_eq; reflexivity.
Defined.

(** ** The favorites query of the home screen *)

Lemma size_list_to_set_le (l : list jsstring) :
  (size (list_to_set (C := gset jsstring) l) <= length l)%nat.
Proof.
  induction l as [|x l IH]; [done|]. simpl.
  destruct (decide (x ∈ (list_to_set l : gset jsstring))) as [Hx|Hx].
  - assert (E : {[x]} ∪ list_to_set l = (list_to_set l : gset jsstring)).
    { apply subseteq_union_1_L. by apply singleton_subseteq_l. }
    rewrite E. lia.
  - rewrite size_union by set_solver. rewrite size_singleton. lia.
Qed.

(** X15.  The favorites query function.  Without a user it does not call
    the API and yields the empty set.  With a user it calls the API once
    and yields exactly the product ids of the favorites listed - the empty
    set when the response has no data or no favorites field - so a product
    listed several times counts once. *)
Theorem favorites_query_collects_product_ids
    (User : Type) (user : option User)
    (favoritesApi_getAll : unit -> HomeScreen.Response) :
  let result := HomeScreen.favoritesQueryFn user favoritesApi_getAll in
  let listed :=
    match HomeScreen.data (favoritesApi_getAll tt) with
    | Some d =>
        match HomeScreen.favorites d with Some l => l | None => [] end
    | None => []
    end in
  (user = None -> result = (false, ∅))
  /\ (is_Some user ->
      fst result = true
      /\ (forall id : jsstring,
            id ∈ snd result <->
            exists f, f ∈ listed /\ HomeScreen.product_id f = id)
      /\ (size (snd result) <= length listed)%nat)
  /\ fst result = HomeScreen.favoritesEnabled user.
Proof.
  intros result listed. subst result. split; [by intros ->|]. split.
  - intros [u ->]. simpl. fold listed. split; [done|]. split.
    + intros id. rewrite elem_of_list_to_set, list_elem_of_fmap.
      split; intros [f [? ?]]; exists f; done.
    + etrans; [apply size_list_to_set_le|]. by rewrite length_map.
  - by destruct user.
Qed.

(** ** The schema of the local database *)

(** X16.  The model declarations are consistent: no two models share a
    table; within a model no column is declared twice and no property is
    declared twice; and every model except the sync metadata carries the
    read-only [created_at] and the [updated_at] dates. *)
Theorem model_declarations_are_consistent :
  (forall m1 m2, Models.table m1 = Models.table m2 -> m1 = m2)
  /\ (forall m, NoDup (map Models.column (Models.fields m)))
  /\ (forall m, NoDup (map Models.property (Models.fields m)))
  /\ (forall m, m <> Models.SyncMetadata ->
        Models.declaration m "createdAt"
        = Some (Models.mkDecl Models.readonly_date "created_at" "createdAt"
                  Models.TDate false)
        /\ Models.declaration m "updatedAt"
           = Some (Models.mkDecl Models.date "updated_at" "updatedAt"
                     Models.TDate false)).
Proof.
  split; [|split; [|split]].
  - intros [] []; simpl; intros H; try reflexivity; discriminate H.
  - intros []; apply (bool_decide_unpack _); vm_compute; exact I.
  - intros []; apply (bool_decide_unpack _); vm_compute; exact I.
  - intros [] H; try (split; reflexivity). by destruct H.
Qed.

(** ** Choosing a parent category *)



